(** * rename_courbes: a shallow embedding of the matcher / renamer

    The repository holds two copies of one script:
      - [rename_courbes.py]          (the maintained copy), and
      - [scripts/rename_courbes.py]  (an older copy, module [Scripts]).
    Both scan a capture root for folders [taxan_YYYY-MM-DD-HH-MM-SS], match
    the folder timestamp against the validity intervals of a registry read
    from an Excel sheet, and rename the [.png] files of each matched folder
    to [<ID>_courbe<n>.png].

    Conventions of the embedding.
      - Python [str] values are [string]s (UTF-8 bytes): byte-wise
        lexicographic order is code-point order, and [str.lower] only
        matters here on the ASCII letters of [".png"].
      - Timestamps are integers: nanoseconds since 1970-01-01T00:00:00,
        the representation pandas compares.
      - A capture folder is a finite map from file names to directory
        entries, regular files or directories (no symbolic links).  The
        rename loop tests and writes its targets in the folder it goes
        through: that is where [os.path.join(full_path, new_fname)]
        points when the registry identifier is a file-name component
        ([component]: no path separator), and two paths of one folder
        are then equal exactly when the names are.  The loop is embedded
        for such identifiers; what an identifier with a separator does
        (the rename fails, or the file leaves the folder) is not.
        [os.rename] is the POSIX one, which replaces an existing regular
        file without a word.
      - [strptime] is the one of CPython 3.12 and 3.13 (decimal digits
        of Unicode 15), [pd.to_datetime] the one of pandas 2
        ([datetime64[ns]]).
      - The library calls of the loop raise nothing but what is written
        out here ([ValueError] of [strptime], [OSError] of [os.rename]).
      - The messages of the loop are events appended to a log.
      - The interpreter is one that accepts the f-strings of lines 154
        and 204 of [rename_courbes.py] (Python 3.12 or later). *)

From Stdlib Require Import ZArith String Ascii List Lia Bool.
From stdpp Require Import base option list sorting gmap strings pretty.

Import ListNotations.
Local Open Scope string_scope.
Local Open Scope Z_scope.
Local Open Scope list_scope.

(** ** Python string methods *)

Module PyStr.

(** [s.startswith(p)] *)
Definition startswith (s p : string) : bool := String.prefix p s.

(** [s[n:]] *)
Definition slice_from (n : nat) (s : string) : string :=
  String.substring n (String.length s - n) s.

(** [s.endswith(p)] *)
Definition endswith (s p : string) : bool :=
  (String.length p <=? String.length s)%nat
  && String.eqb (slice_from (String.length s - String.length p) s) p.

Definition lower_ascii (c : ascii) : ascii :=
  let n := nat_of_ascii c in
  if ((65 <=? n) && (n <=? 90))%nat then ascii_of_nat (n + 32) else c.

(** [s.lower()] *)
Fixpoint lower (s : string) : string :=
  match s with
  | EmptyString => EmptyString
  | String c s' => String (lower_ascii c) (lower s')
  end.

End PyStr.

(** ** Calendar arithmetic (CPython's [datetime] helpers) *)

Module Calendar.

Definition is_leap (y : Z) : bool :=
  (y mod 4 =? 0) && (negb (y mod 100 =? 0) || (y mod 400 =? 0)).

Definition days_in_month (y m : Z) : Z :=
  if m =? 2 then (if is_leap y then 29 else 28)
  else if (m =? 4) || (m =? 6) || (m =? 9) || (m =? 11) then 30
  else 31.

Definition days_before_year (y : Z) : Z :=
  let y1 := y - 1 in y1 * 365 + y1 / 4 - y1 / 100 + y1 / 400.

Definition days_before_month (y m : Z) : Z :=
  fold_right Z.add 0
    (map (days_in_month y) (map Z.of_nat (seq 1 (Z.to_nat (m - 1))))).

(** [date(y, m, d).toordinal()] *)
Definition ymd2ord (y m d : Z) : Z :=
  days_before_year y + days_before_month y m + d.

(** Ordinal of 1970-01-01. *)
Definition epoch_ord : Z := 719163.

End Calendar.

(** ** Characters: UTF-8 and the decimal digits of Unicode

    The regular expressions of [_strptime] are compiled on [str], where
    [\d] is any decimal digit (general category Nd) and [int()] reads
    such digits.  The digits come in runs of ten; the table is that of
    Unicode 15, the database of CPython 3.12 and 3.13. *)

Module Unicode.

(** The code point of DIGIT ZERO of each run. *)
Definition zeros : list N :=
  [ 48; 1632; 1776; 1984; 2406; 2534; 2662; 2790; 2918; 3046; 3174; 3302;
    3430; 3558; 3664; 3792; 3872; 4160; 4240; 6112; 6160; 6470; 6608;
    6784; 6800; 6992; 7088; 7232; 7248; 42528; 43216; 43264; 43472; 43504;
    43600; 44016; 65296; 66720; 68912; 69734; 69872; 69942; 70096; 70384;
    70736; 70864; 71248; 71360; 71472; 71904; 72016; 72784; 73040; 73120;
    73552; 92768; 92864; 93008; 120782; 120792; 120802; 120812; 120822;
    123200; 123632; 124144; 125264; 130032 ]%N.

(** [Py_UNICODE_TODECIMAL]: the value of a decimal digit. *)
Definition decimal (cp : N) : option Z :=
  match List.find (fun z => (z <=? cp) && (cp <? z + 10))%N zeros with
  | Some z => Some (Z.of_N (cp - z))
  | None => None
  end.

(** The payload of a continuation byte [10xxxxxx]. *)
Definition continuation (c : ascii) : option N :=
  let b := N_of_ascii c in
  if ((128 <=? b) && (b <? 192))%N then Some (b - 128)%N else None.

(** The first character of a text and what follows it; [None] at the end
    of the text and on bytes that are no UTF-8 (the lone surrogates of
    [os.fsdecode], which no class below accepts). *)
Definition decode (s : string) : option (N * string) :=
  match s with
  | EmptyString => None
  | String c0 s1 =>
      let b0 := N_of_ascii c0 in
      if (b0 <? 128)%N then Some (b0, s1)
      else if ((194 <=? b0) && (b0 <? 224))%N then
        match s1 with
        | String c1 s2 =>
            match continuation c1 with
            | Some x1 => Some (((b0 - 192) * 64 + x1)%N, s2)
            | None => None
            end
        | EmptyString => None
        end
      else if ((224 <=? b0) && (b0 <? 240))%N then
        match s1 with
        | String c1 (String c2 s3) =>
            match continuation c1, continuation c2 with
            | Some x1, Some x2 =>
                let cp := (((b0 - 224) * 64 + x1) * 64 + x2)%N in
                if ((2048 <=? cp) && negb ((55296 <=? cp) && (cp <? 57344)))%N
                then Some (cp, s3) else None
            | _, _ => None
            end
        | _ => None
        end
      else if ((240 <=? b0) && (b0 <? 245))%N then
        match s1 with
        | String c1 (String c2 (String c3 s4)) =>
            match continuation c1, continuation c2, continuation c3 with
            | Some x1, Some x2, Some x3 =>
                let cp := ((((b0 - 240) * 64 + x1) * 64 + x2) * 64 + x3)%N in
                if ((65536 <=? cp) && (cp <? 1114112))%N
                then Some (cp, s4) else None
            | _, _, _ => None
            end
        | _ => None
        end
      else None
  end.

End Unicode.

(** ** [strptime]

    CPython's [_strptime] turns a format into a regular expression, one
    named group per directive, matches it against the data (first
    alternative first, backtracking), refuses left-over data, and builds
    the date, which validates day-of-month and seconds.  pandas follows
    the same table with a fraction of up to nine digits, and validates
    the date only.  The directives below are the ones the two scripts
    use.  In the table [\d] is a decimal digit of any script, while
    [[0-9]] and the other ranges are ASCII. *)

Module Strptime.

Inductive directive := DY | Dm | Dd | DH | DM | DS | Df.

Inductive item :=
| Dir (d : directive)
| Lit (c : ascii).

Definition directive_of (c : ascii) : option directive :=
  if Ascii.eqb c "Y" then Some DY
  else if Ascii.eqb c "m" then Some Dm
  else if Ascii.eqb c "d" then Some Dd
  else if Ascii.eqb c "H" then Some DH
  else if Ascii.eqb c "M" then Some DM
  else if Ascii.eqb c "S" then Some DS
  else if Ascii.eqb c "f" then Some Df
  else None.

(** [None] is the [ValueError] of a bad or stray directive. *)
Fixpoint parse_format (fmt : string) : option (list item) :=
  match fmt with
  | EmptyString => Some []
  | String c rest =>
      if Ascii.eqb c "%" then
        match rest with
        | EmptyString => None
        | String k rest' =>
            match directive_of k, parse_format rest' with
            | Some d, Some its => Some (Dir d :: its)
            | _, _ => None
            end
        end
      else
        match parse_format rest with
        | Some its => Some (Lit c :: its)
        | None => None
        end
  end.

(** A class of characters, as a test on code points. *)
Definition cclass := N -> bool.

(** [[a-b]] and the single character [a], for ASCII [a] and [b]. *)
Definition rng (a b : ascii) : cclass :=
  fun cp => ((N_of_ascii a <=? cp) && (cp <=? N_of_ascii b))%N.
Definition one (a : ascii) : cclass := fun cp => (cp =? N_of_ascii a)%N.
(** [\d] *)
Definition dig : cclass :=
  fun cp => match Unicode.decimal cp with Some _ => true | None => false end.

(** The alternatives of a directive's group, in the order of the
    regular expression; [fmax] is the longest fraction. *)
Definition alternatives (fmax : nat) (d : directive) : list (list cclass) :=
  match d with
  | DY => [[dig; dig; dig; dig]]
  | Dm => [[one "1"; rng "0" "2"]; [one "0"; rng "1" "9"]; [rng "1" "9"]]
  | Dd => [[one "3"; rng "0" "1"]; [rng "1" "2"; dig]; [one "0"; rng "1" "9"];
           [rng "1" "9"]; [one " "; rng "1" "9"]]
  | DH => [[one "2"; rng "0" "3"]; [rng "0" "1"; dig]; [dig]]
  | DM => [[rng "0" "5"; dig]; [dig]]
  | DS => [[one "6"; rng "0" "1"]; [rng "0" "5"; dig]; [dig]]
  | Df => map (fun n => repeat (rng "0" "9") n) (rev (seq 1 fmax))
  end.

(** Consume one character per class; returns the matched text, as its
    characters, and the rest. *)
Fixpoint match_alt (a : list cclass) (s : string) : option (list N * string) :=
  match a with
  | [] => Some ([], s)
  | p :: a' =>
      match Unicode.decode s with
      | Some (cp, s') =>
          if p cp then
            match match_alt a' s' with
            | Some (m, r) => Some (cp :: m, r)
            | None => None
            end
          else None
      | None => None
      end
  end.

(** [int(text)] for a text of digits and blanks. *)
Fixpoint int_of (acc : Z) (text : list N) : Z :=
  match text with
  | [] => acc
  | cp :: text' =>
      match Unicode.decimal cp with
      | Some v => int_of (acc * 10 + v) text'
      | None => int_of acc text'
      end
  end.

Record fields := {
  f_year : Z; f_month : Z; f_day : Z;
  f_hour : Z; f_minute : Z; f_second : Z;
  f_nanos : Z
}.

(** Defaults of [_strptime]: 1900-01-01 00:00:00. *)
Definition default_fields : fields :=
  {| f_year := 1900; f_month := 1; f_day := 1;
     f_hour := 0; f_minute := 0; f_second := 0; f_nanos := 0 |}.

Definition set_field (d : directive) (text : list N) (f : fields) : fields :=
  let v := int_of 0 text in
  match d with
  | DY => {| f_year := v; f_month := f_month f; f_day := f_day f;
             f_hour := f_hour f; f_minute := f_minute f;
             f_second := f_second f; f_nanos := f_nanos f |}
  | Dm => {| f_year := f_year f; f_month := v; f_day := f_day f;
             f_hour := f_hour f; f_minute := f_minute f;
             f_second := f_second f; f_nanos := f_nanos f |}
  | Dd => {| f_year := f_year f; f_month := f_month f; f_day := v;
             f_hour := f_hour f; f_minute := f_minute f;
             f_second := f_second f; f_nanos := f_nanos f |}
  | DH => {| f_year := f_year f; f_month := f_month f; f_day := f_day f;
             f_hour := v; f_minute := f_minute f;
             f_second := f_second f; f_nanos := f_nanos f |}
  | DM => {| f_year := f_year f; f_month := f_month f; f_day := f_day f;
             f_hour := f_hour f; f_minute := v;
             f_second := f_second f; f_nanos := f_nanos f |}
  | DS => {| f_year := f_year f; f_month := f_month f; f_day := f_day f;
             f_hour := f_hour f; f_minute := f_minute f;
             f_second := v; f_nanos := f_nanos f |}
  | Df => {| f_year := f_year f; f_month := f_month f; f_day := f_day f;
             f_hour := f_hour f; f_minute := f_minute f;
             f_second := f_second f;
             f_nanos := v * 10 ^ (9 - Z.of_nat (length text)) |}
  end.

(** The format is compiled with [re.IGNORECASE]. *)
Definition lit_matches (a c : ascii) : bool :=
  Ascii.eqb (PyStr.lower_ascii a) (PyStr.lower_ascii c).

Fixpoint first_some {A B} (f : A -> option B) (l : list A) : option B :=
  match l with
  | [] => None
  | x :: l' => match f x with Some y => Some y | None => first_some f l' end
  end.

(** [format_regex.match(data)]: the first way, in regex priority order,
    of matching a prefix of the data. *)
Fixpoint match_items (fmax : nat) (its : list item) (s : string) (acc : fields)
  : option (fields * string) :=
  match its with
  | [] => Some (acc, s)
  | Lit a :: its' =>
      match s with
      | String c s' =>
          if lit_matches a c then match_items fmax its' s' acc else None
      | EmptyString => None
      end
  | Dir d :: its' =>
      first_some
        (fun a =>
           match match_alt a s with
           | Some (text, rest) => match_items fmax its' rest (set_field d text acc)
           | None => None
           end)
        (alternatives fmax d)
  end.

(** The date and time as nanoseconds since the epoch; [None] when the
    [datetime] constructor raises [ValueError]. *)
Definition build (f : fields) : option Z :=
  if (1 <=? f_year f) && (f_year f <=? 9999)
     && (1 <=? f_month f) && (f_month f <=? 12)
     && (1 <=? f_day f)
     && (f_day f <=? Calendar.days_in_month (f_year f) (f_month f))
     && (f_hour f <=? 23) && (f_minute f <=? 59) && (f_second f <=? 59)
  then
    let days :=
      Calendar.ymd2ord (f_year f) (f_month f) (f_day f) - Calendar.epoch_ord in
    Some (((days * 24 + f_hour f) * 60 + f_minute f) * 60 * 1000000000
          + f_second f * 1000000000 + f_nanos f)
  else None.

(** The fields of a data string that matches the whole of the format;
    [None] stands for the [ValueError] of a bad format, of data that do
    not match and of data that remain. *)
Definition read (fmax : nat) (data fmt : string) : option fields :=
  match parse_format fmt with
  | None => None
  | Some its =>
      match match_items fmax its data default_fields with
      | Some (f, EmptyString) => Some f
      | _ => None
      end
  end.

(** [strptime(data, fmt)]; [None] stands for [ValueError]. *)
Definition strptime (fmax : nat) (data fmt : string) : option Z :=
  match read fmax data fmt with
  | Some f => build f
  | None => None
  end.

End Strptime.

(** [datetime.strptime] (fractions of at most six digits). *)
Definition datetime_strptime : string -> string -> option Z :=
  Strptime.strptime 6.

(** ** [parse_datetime_from_foldername] (both copies, lines 32-44) *)

Definition prefix : string := "taxan_".

Definition parse_datetime_from_foldername (foldername : string) : option Z :=
  if negb (PyStr.startswith foldername prefix) then None
  else
    let ts_str := PyStr.slice_from (String.length prefix) foldername in
    datetime_strptime ts_str "%Y-%m-%d-%H-%M-%S".

(** ** The registry: cells, rows and the pandas operations used on them *)

(** A cell of the two date columns: a string as read from the sheet, a
    timestamp, or the missing value ([NaT], [NaN], an empty cell). *)
Inductive cell :=
| CStr (s : string)
| CTime (t : Z)
| CNaT.

(** One row of the frame, with its index label and the three columns
    ["ID"], ["Date d'enregistrement"] and ["Dernière mise à jour"]. *)
Record row := {
  index : nat;
  ID : string;
  date_enregistrement : cell;
  derniere_maj : cell
}.

Module Pandas.

Definition int64_min : Z := - 2 ^ 63.
Definition int64_max : Z := 2 ^ 63 - 1.

(** What pandas makes of the matched fields: [date(year, month, day)]
    validates the date, the time of the day goes unchecked into the
    count of nanoseconds (a second of 60 or 61 runs into the next
    minute).  [None] is the [ValueError] of the date. *)
Definition build (f : Strptime.fields) : option Z :=
  let y := Strptime.f_year f in
  let m := Strptime.f_month f in
  let d := Strptime.f_day f in
  if (1 <=? y) && (y <=? 9999) && (1 <=? m) && (m <=? 12)
     && (1 <=? d) && (d <=? Calendar.days_in_month y m)
  then
    let days := Calendar.ymd2ord y m d - Calendar.epoch_ord in
    Some (((days * 24 + Strptime.f_hour f) * 60 + Strptime.f_minute f)
            * 60 * 1000000000
          + Strptime.f_second f * 1000000000 + Strptime.f_nanos f)
  else None.

(** The parser behind [pd.to_datetime(..., format=fmt)] in pandas 2:
    fractions of up to nine digits, and a result that fits
    [datetime64[ns]]; [None] is [ValueError] or
    [OutOfBoundsDatetime]. *)
Definition strptime (data fmt : string) : option Z :=
  match Strptime.read 9 data fmt with
  | Some f =>
      match build f with
      | Some t => if (int64_min <? t) && (t <=? int64_max) then Some t else None
      | None => None
      end
  | None => None
  end.

(** The texts pandas reads as the missing value before it looks at the
    format: the empty string and [nat_strings]. *)
Definition nat_strings : list string :=
  ["NaT"; "nat"; "NAT"; "nan"; "NaN"; "NAN"].
Definition is_nat_string (s : string) : bool :=
  String.eqb s "" || existsb (String.eqb s) nat_strings.

(** One element of [pd.to_datetime(series, format=fmt, errors='coerce')]. *)
Definition to_datetime_cell (fmt : string) (c : cell) : cell :=
  match c with
  | CStr s =>
      if is_nat_string s then CNaT
      else match strptime s fmt with Some t => CTime t | None => CNaT end
  | CTime t => CTime t
  | CNaT => CNaT
  end.

Definition to_datetime_coerce (s : list cell) (fmt : string) : list cell :=
  map (to_datetime_cell fmt) s.

(** One element of [pd.to_datetime(series, format=fmt)] with the default
    [errors='raise']; [None] is the exception. *)
Definition to_datetime_cell_raise (fmt : string) (c : cell) : option cell :=
  match c with
  | CStr s =>
      if is_nat_string s then Some CNaT
      else match strptime s fmt with Some t => Some (CTime t) | None => None end
  | CTime t => Some (CTime t)
  | CNaT => Some CNaT
  end.

Definition to_datetime_raise (s : list cell) (fmt : string) : option (list cell) :=
  mapM (to_datetime_cell_raise fmt) s.

Definition isna_cell (c : cell) : bool :=
  match c with CNaT => true | _ => false end.

(** [series.isna()] *)
Definition isna (s : list cell) : list bool := map isna_cell s.

(** [mask.any()] *)
Definition any (mask : list bool) : bool := existsb id mask.

(** [series[mask]] / [df[mask]] / [df.loc[mask, col]] *)
Fixpoint loc_get {A} (mask : list bool) (s : list A) : list A :=
  match mask, s with
  | b :: mask', x :: s' => if b then x :: loc_get mask' s' else loc_get mask' s'
  | _, _ => []
  end.

(** [df.loc[mask, col] = values]: the values go to the selected
    positions, in order. *)
Fixpoint loc_set {A} (mask : list bool) (s : list A) (values : list A) : list A :=
  match mask, s with
  | b :: mask', x :: s' =>
      if b then
        match values with
        | v :: values' => v :: loc_set mask' s' values'
        | [] => x :: loc_set mask' s' []
        end
      else x :: loc_set mask' s' values
  | _, _ => s
  end.

(** [series <= t] and [t <= series]; a comparison with [NaT] is false.
    The date columns hold no string once they are converted. *)
Definition le_scalar (s : list cell) (t : Z) : list bool :=
  map (fun c => match c with CTime x => x <=? t | _ => false end) s.
Definition scalar_le (t : Z) (s : list cell) : list bool :=
  map (fun c => match c with CTime x => t <=? x | _ => false end) s.

(** [m1 & m2] *)
Definition and_ (m1 m2 : list bool) : list bool := zip_with andb m1 m2.

End Pandas.

(** Column access and column assignment on the rows of the frame. *)
Definition col_enregistrement (df : list row) : list cell := map date_enregistrement df.
Definition col_maj (df : list row) : list cell := map derniere_maj df.

Definition set_col_enregistrement (df : list row) (s : list cell) : list row :=
  zip_with (fun r c => {| index := index r; ID := ID r;
                          date_enregistrement := c;
                          derniere_maj := derniere_maj r |}) df s.
Definition set_col_maj (df : list row) (s : list cell) : list row :=
  zip_with (fun r c => {| index := index r; ID := ID r;
                          date_enregistrement := date_enregistrement r;
                          derniere_maj := c |}) df s.

Definition fmt_micro : string := "%Y-%m-%dT%H:%M:%S.%fZ".
Definition fmt_plain : string := "%Y-%m-%dT%H:%M:%SZ".

(** [rename_courbes.py], lines 104-142: conversion of the two date columns
    and [dropna].  With [errors='coerce'] no conversion raises. *)
Definition convert_enregistrement (df : list row) : list row :=
  let df1 := set_col_enregistrement df
               (Pandas.to_datetime_coerce (col_enregistrement df) fmt_micro) in
  let mask_nan := Pandas.isna (col_enregistrement df1) in
  if Pandas.any mask_nan then
    set_col_enregistrement df1
      (Pandas.loc_set mask_nan (col_enregistrement df1)
         (Pandas.to_datetime_coerce
            (Pandas.loc_get mask_nan (col_enregistrement df1)) fmt_plain))
  else df1.

Definition convert_maj (df : list row) : list row :=
  let df1 := set_col_maj df
               (Pandas.to_datetime_coerce (col_maj df) fmt_micro) in
  let mask_nan := Pandas.isna (col_maj df1) in
  if Pandas.any mask_nan then
    set_col_maj df1
      (Pandas.loc_set mask_nan (col_maj df1)
         (Pandas.to_datetime_coerce
            (Pandas.loc_get mask_nan (col_maj df1)) fmt_plain))
  else df1.

(** [df.dropna(subset=[...])] on the two date columns. *)
Definition dropna (df : list row) : list row :=
  Pandas.loc_get
    (Pandas.and_ (map negb (Pandas.isna (col_enregistrement df)))
                 (map negb (Pandas.isna (col_maj df))))
    df.

(** Lines 104-145: the registry [main] works with. *)
Definition load_registry (df : list row) : list row :=
  dropna (convert_maj (convert_enregistrement df)).

(** Lines 193-197: the rows whose interval holds the folder's timestamp. *)
Definition candidats (df : list row) (dossier_dt : Z) : list row :=
  let mask :=
    Pandas.and_ (Pandas.le_scalar (col_enregistrement df) dossier_dt)
                (Pandas.scalar_le dossier_dt (col_maj df)) in
  Pandas.loc_get mask df.

(** ** Sorting names: [list.sort()] on [str] *)

Definition str_le (a b : string) : Prop := Is_true (String.leb a b).

#[global] Instance str_le_dec : RelDecision str_le :=
  fun a b => Is_true_dec (String.leb a b).

Definition py_sorted (l : list string) : list string := merge_sort str_le l.

(** [enumerate(l, start)] *)
Definition enumerate {A} (start : nat) (l : list A) : list (nat * A) :=
  zip (seq start (length l)) l.

(** ** The file system under the capture root *)

Inductive kind := Regular | Directory.

(** An entry of a capture folder; [d_data] identifies the content. *)
Record dirent := { d_kind : kind; d_data : N }.

(** An entry of the capture root. *)
Inductive node :=
| NFile
| NDir (d : gmap string dirent).

Module Os.

(** [os.listdir]: the names, in the order the map enumerates them. *)
Definition listdir {A} (d : gmap string A) : list string :=
  map fst (map_to_list d).

(** [os.path.isfile(os.path.join(full_path, f))] *)
Definition isfile (d : gmap string dirent) (f : string) : bool :=
  match d !! f with
  | Some {| d_kind := Regular |} => true
  | _ => false
  end.

(** [os.path.exists(os.path.join(full_path, f))] *)
Definition exists_ (d : gmap string dirent) (f : string) : bool :=
  match d !! f with Some _ => true | None => false end.

(** [os.rename] inside one folder, POSIX behaviour: a regular file
    silently replaces a regular file; [None] is the [OSError] of a
    missing source or of a directory on either side of a replacement. *)
Definition rename (d : gmap string dirent) (old new : string)
  : option (gmap string dirent) :=
  match d !! old with
  | None => None
  | Some e =>
      match d !! new with
      | None => Some (<[new := e]> (delete old d))
      | Some e' =>
          match d_kind e, d_kind e' with
          | Regular, Regular => Some (<[new := e]> (delete old d))
          | _, _ => None
          end
      end
  end.

End Os.

(** ** Counters and messages *)

Record counters := {
  total_dossiers : nat;
  total_png_renommes : nat;
  total_non_trouves : nat;
  total_conflits : nat
}.

(** The per-folder and per-file messages of the loop, in the order of
    the [print] calls.  The banner and the summary only echo values that
    the outcome already carries. *)
Inductive event :=
| EvIgnore (entry : string)
| EvTraitement (entry : string) (dossier_dt : Z)
| EvAucunUtilisateur (entry : string)
| EvConflit (entry : string) (ids : list string)
| EvUtilisateur (user_id : string)
| EvAucunPng (entry : string)
| EvPngTrouves (png_files : list string)
| EvExisteDeja (new_fname : string)
| EvDejaBonNom (old_fname : string)
| EvRenomme (old_fname new_fname : string)
| EvErreur (old_fname : string).

(** ** The rename loop *)

(** Line 233 (192 in the older copy): [f"{user_id}_courbe{idx}.png"] *)
Definition new_fname (user_id : string) (idx : nat) : string :=
  String.append user_id
    (String.append "_courbe" (String.append (pretty idx) ".png")).

(** Lines 218-221: the [.png] regular files of a listing. *)
Definition png_files (d : gmap string dirent) (listing : list string) : list string :=
  List.filter
    (fun f => Os.isfile d f && PyStr.endswith (PyStr.lower f) ".png")
    listing.

(** State of the loop over one folder: its entries, the number of
    renames done and the messages printed. *)
Record loop_state := {
  ls_dir : gmap string dirent;
  ls_renommes : nat;
  ls_log : list event
}.

Definition say (st : loop_state) (e : event) : loop_state :=
  {| ls_dir := ls_dir st; ls_renommes := ls_renommes st;
     ls_log := ls_log st ++ [e] |}.

(** [rename_courbes.py], lines 236-250: what the loop does with one
    pair of a source name and its target name, the target being a name
    of the folder itself (an identifier with a path separator would
    point elsewhere). *)
Definition rename_one (st : loop_state) (old_fname new : string) : loop_state :=
  if Os.exists_ (ls_dir st) new && negb (String.eqb old_fname new) then
    say st (EvExisteDeja new)
  else if String.eqb old_fname new then
    say st (EvDejaBonNom old_fname)
  else
    match Os.rename (ls_dir st) old_fname new with
    | Some d' =>
        {| ls_dir := d'; ls_renommes := S (ls_renommes st);
           ls_log := ls_log st ++ [EvRenomme old_fname new] |}
    | None => say st (EvErreur old_fname)
    end.

(** Lines 231-250: one iteration. *)
Definition rename_step (user_id : string) (st : loop_state)
    (it : nat * string) : loop_state :=
  let '(idx, old_fname) := it in
  rename_one st old_fname (new_fname user_id idx).

Definition rename_loop (user_id : string) (st : loop_state)
    (files : list string) : loop_state :=
  fold_left (rename_step user_id) (enumerate 1 files) st.

(** ** The loop over the capture root *)

Record run_state := {
  st_tree : gmap string node;
  st_counters : counters;
  st_log : list event
}.

Definition count_dossier (c : counters) : counters :=
  {| total_dossiers := S (total_dossiers c);
     total_png_renommes := total_png_renommes c;
     total_non_trouves := total_non_trouves c;
     total_conflits := total_conflits c |}.
Definition count_non_trouve (c : counters) : counters :=
  {| total_dossiers := total_dossiers c;
     total_png_renommes := total_png_renommes c;
     total_non_trouves := S (total_non_trouves c);
     total_conflits := total_conflits c |}.
Definition count_conflit (c : counters) : counters :=
  {| total_dossiers := total_dossiers c;
     total_png_renommes := total_png_renommes c;
     total_non_trouves := total_non_trouves c;
     total_conflits := S (total_conflits c) |}.
Definition count_renommes (n : nat) (c : counters) : counters :=
  {| total_dossiers := total_dossiers c;
     total_png_renommes := (n + total_png_renommes c)%nat;
     total_non_trouves := total_non_trouves c;
     total_conflits := total_conflits c |}.

(** Lines 218-250, from the names [os.listdir(full_path)] returned, in
    the order it returned them: filter, sort, rename. *)
Definition rename_listing (entry user_id : string) (d : gmap string dirent)
    (listing : list string) (log : list event) : loop_state :=
  let files := png_files d listing in
  match files with
  | [] => {| ls_dir := d; ls_renommes := 0; ls_log := log ++ [EvAucunPng entry] |}
  | _ =>
      let files := py_sorted files in
      rename_loop user_id
        {| ls_dir := d; ls_renommes := 0; ls_log := log ++ [EvPngTrouves files] |}
        files
  end.

(** What one matched folder does once [user_id] is chosen
    (lines 217-250): list, filter, sort, rename. *)
Definition rename_folder (entry user_id : string) (d : gmap string dirent)
    (log : list event) : loop_state :=
  rename_listing entry user_id d (Os.listdir d) log.

(** [rename_courbes.py], lines 172-250: the body of the loop over the
    sorted listing of the capture root. *)
Definition process_entry (df : list row) (st : run_state) (entry : string)
    : run_state :=
  match st_tree st !! entry with
  | Some (NDir d) =>
      if negb (PyStr.startswith entry "taxan_") then st
      else
        let c := count_dossier (st_counters st) in
        match parse_datetime_from_foldername entry with
        | None =>
            {| st_tree := st_tree st; st_counters := count_non_trouve c;
               st_log := st_log st ++ [EvIgnore entry] |}
        | Some dossier_dt =>
            let log := st_log st ++ [EvTraitement entry dossier_dt] in
            let cands := candidats df dossier_dt in
            match cands with
            | [] =>
                {| st_tree := st_tree st; st_counters := count_non_trouve c;
                   st_log := log ++ [EvAucunUtilisateur entry] |}
            | premier :: _ =>
                let '(c, log) :=
                  if (1 <? length cands)%nat
                  then (count_conflit c, log ++ [EvConflit entry (map ID cands)])
                  else (c, log) in
                let user_id := ID premier in
                let ls := rename_folder entry user_id d
                            (log ++ [EvUtilisateur user_id]) in
                {| st_tree := <[entry := NDir (ls_dir ls)]> (st_tree st);
                   st_counters := count_renommes (ls_renommes ls) c;
                   st_log := ls_log ls |}
            end
        end
  | _ => st
  end.

Definition zero_counters : counters :=
  {| total_dossiers := 0; total_png_renommes := 0;
     total_non_trouves := 0; total_conflits := 0 |}.

(** Lines 165-250: [dossiers = os.listdir(taxan_root); dossiers.sort()]
    and the loop. *)
Definition run_loop (df : list row) (tree : gmap string node) : run_state :=
  let dossiers := py_sorted (Os.listdir tree) in
  fold_left (process_entry df)
    dossiers
    {| st_tree := tree; st_counters := zero_counters; st_log := [] |}.

(** ** The process: arguments, exits and exceptions *)

Inductive exn :=
| AttributeError (attr : string)
| OSError.

(** How a call ends: it returns, it calls [sys.exit(code)], or an
    exception escapes. *)
Inductive result (A : Type) :=
| Return (a : A)
| SysExit (code : nat)
| Raise (e : exn).
Arguments Return {A} a.
Arguments SysExit {A} code.
Arguments Raise {A} e.

#[global] Instance result_ret : MRet result := fun A a => Return a.
#[global] Instance result_bind : MBind result := fun A B f m =>
  match m with
  | Return a => f a
  | SysExit c => SysExit c
  | Raise e => Raise e
  end.

(** Exit status of the interpreter. *)
Definition exit_status {A} (r : result A) : nat :=
  match r with
  | Return _ => 0
  | SysExit c => c
  | Raise _ => 1
  end.

(** One sheet of the workbook: its header and its rows (the cells of
    ["ID"], read with [dtype=str], and of the two date columns). *)
Record sheet := {
  columns : list string;
  lignes : list (string * cell * cell)
}.

(** What lies at a path given as [--excel]: a readable workbook with its
    sheets in order, or a file [pd.read_excel] cannot read. *)
Inductive excel_file :=
| Illisible
| Classeur (sheets : list (string * sheet)).

Record world := {
  w_files : gmap string excel_file;
  w_dirs : gmap string (gmap string node)
}.

Definition isfile (w : world) (p : string) : bool :=
  match w_files w !! p with Some _ => true | None => false end.
Definition isdir (w : world) (p : string) : bool :=
  match w_dirs w !! p with Some _ => true | None => false end.
Definition path_exists (w : world) (p : string) : bool := isfile w p || isdir w p.

(** The frame of a sheet: rows labelled 0, 1, ... *)
Definition frame (sh : sheet) : list row :=
  imap (fun i '(id, a, b) =>
          {| index := i; ID := id; date_enregistrement := a; derniere_maj := b |})
       (lignes sh).

(** [pd.read_excel(path, sheet_name=name, ...)]; [None] is any exception. *)
Definition read_excel_sheet (w : world) (p name : string) : option sheet :=
  match w_files w !! p with
  | Some (Classeur sheets) => snd <$> List.find (fun s => String.eqb (fst s) name) sheets
  | _ => None
  end.

(** [pd.read_excel(path, ...)]: the first sheet. *)
Definition read_excel_first (w : world) (p : string) : option sheet :=
  match w_files w !! p with
  | Some (Classeur sheets) => snd <$> head sheets
  | _ => None
  end.

Definition required_cols : gset string :=
  {[ "ID"; "Date d'enregistrement"; "Dernière mise à jour" ]}.

Definition getattr (args : gmap string string) (attr : string) : result string :=
  match args !! attr with
  | Some v => Return v
  | None => Raise (AttributeError attr)
  end.

(** What a completed run leaves: the world, the counters of the summary
    and the messages. *)
Record report := {
  r_world : world;
  r_counters : counters;
  r_log : list event
}.

Definition finish (w : world) (taxan_root : string) (st : run_state) : report :=
  {| r_world := {| w_files := w_files w;
                   w_dirs := <[taxan_root := st_tree st]> (w_dirs w) |};
     r_counters := st_counters st;
     r_log := st_log st |}.

(** [rename_courbes.py]: [parser.parse_args()] for the two options. *)
Definition parse_args (excel taxan_dir : option string) : gmap string string :=
  {[ "excel" := default "visiteurs-aresia.xlsx" excel;
     "taxan_dir" := default "taxan" taxan_dir ]}.

(** [rename_courbes.py], [main]. *)
Definition main (excel taxan_dir : option string) (w : world) : result report :=
  let args := parse_args excel taxan_dir in
  excel_path ← getattr args "excel";
  taxan_root ← getattr args "taxan_dir";
  if negb (isfile w excel_path) then SysExit 1
  else if negb (isdir w taxan_root) then SysExit 1
  else
    match read_excel_sheet w excel_path "Visiteurs ARESIA" with
    | None => SysExit 1
    | Some sh =>
        let missing := required_cols ∖ list_to_set (columns sh) in
        if negb (bool_decide (missing = ∅)) then SysExit 1
        else
          let df := load_registry (frame sh) in
          if negb (path_exists w taxan_root) then SysExit 1
          else
            match w_dirs w !! taxan_root with
            | None => Raise OSError
            | Some tree => Return (finish w taxan_root (run_loop df tree))
            end
    end.

(** ** The older copy, [scripts/rename_courbes.py] *)

Module Scripts.

Definition parse_args (excel taxan_dir : option string) : gmap string string :=
  {[ "excel" := default "data/visiteurs-aresia.xlsx" excel;
     "taxan_dir" := default "data/taxan" taxan_dir ]}.

(** Lines 111-124: both columns converted with the default
    [errors='raise']; no [dropna]. *)
Definition load_registry (df : list row) : option (list row) :=
  match Pandas.to_datetime_raise (col_enregistrement df) fmt_micro with
  | None => None
  | Some s1 =>
      let df1 := set_col_enregistrement df s1 in
      match Pandas.to_datetime_raise (col_maj df1) fmt_micro with
      | None => None
      | Some s2 => Some (set_col_maj df1 s2)
      end
  end.

(** Lines 190-205: one iteration, the target being a name of the folder
    itself. *)
Definition rename_step (user_id : string) (st : loop_state)
    (it : nat * string) : loop_state :=
  let '(idx, old_fname) := it in
  let new := new_fname user_id idx in
  if Os.exists_ (ls_dir st) new then say st (EvExisteDeja new)
  else
    match Os.rename (ls_dir st) old_fname new with
    | Some d' =>
        {| ls_dir := d'; ls_renommes := S (ls_renommes st);
           ls_log := ls_log st ++ [EvRenomme old_fname new] |}
    | None => say st (EvErreur old_fname)
    end.

Definition rename_loop (user_id : string) (st : loop_state)
    (files : list string) : loop_state :=
  fold_left (rename_step user_id) (enumerate 1 files) st.

Definition rename_folder (entry user_id : string) (d : gmap string dirent)
    (log : list event) : loop_state :=
  let files := png_files d (Os.listdir d) in
  match files with
  | [] => {| ls_dir := d; ls_renommes := 0; ls_log := log ++ [EvAucunPng entry] |}
  | _ =>
      rename_loop user_id {| ls_dir := d; ls_renommes := 0; ls_log := log |}
        (py_sorted files)
  end.

(** Lines 138-205. *)
Definition process_entry (df : list row) (st : run_state) (entry : string)
    : run_state :=
  match st_tree st !! entry with
  | Some (NDir d) =>
      if negb (PyStr.startswith entry "taxan_") then st
      else
        let c := count_dossier (st_counters st) in
        match parse_datetime_from_foldername entry with
        | None =>
            {| st_tree := st_tree st; st_counters := count_non_trouve c;
               st_log := st_log st ++ [EvIgnore entry] |}
        | Some dossier_dt =>
            let log := st_log st in
            let cands := candidats df dossier_dt in
            match cands with
            | [] =>
                {| st_tree := st_tree st; st_counters := count_non_trouve c;
                   st_log := log ++ [EvAucunUtilisateur entry] |}
            | premier :: _ =>
                let '(c, log) :=
                  if (1 <? length cands)%nat
                  then (count_conflit c, log ++ [EvConflit entry (map ID cands)])
                  else (c, log) in
                let user_id := ID premier in
                let ls := rename_folder entry user_id d
                            (log ++ [EvUtilisateur user_id]) in
                {| st_tree := <[entry := NDir (ls_dir ls)]> (st_tree st);
                   st_counters := count_renommes (ls_renommes ls) c;
                   st_log := ls_log ls |}
            end
        end
  | _ => st
  end.

Definition run_loop (df : list row) (tree : gmap string node) : run_state :=
  fold_left (process_entry df)
    (py_sorted (Os.listdir tree))
    {| st_tree := tree; st_counters := zero_counters; st_log := [] |}.

(** [scripts/rename_courbes.py], [main].  Lines 73, 75 and 80 read
    [args.tan_dir] and [args.taxon_dir]; [X if False else Y] evaluates
    [Y]. *)
Definition main (excel taxan_dir : option string) (w : world) : result report :=
  let args := parse_args excel taxan_dir in
  excel_path ← getattr args "excel";
  taxan_root ← (if false then getattr args "taxon_dir" else getattr args "tan_dir");
  taxan_root ← (if false then getattr args "tan_dir" else getattr args "taxon_dir");
  excel_path ← getattr args "excel";
  taxan_root ← getattr args "taxon_dir";
  if negb (isfile w excel_path) then SysExit 1
  else if negb (isdir w taxan_root) then SysExit 1
  else
    match read_excel_first w excel_path with
    | None => SysExit 1
    | Some sh =>
        let missing := required_cols ∖ list_to_set (columns sh) in
        if negb (bool_decide (missing = ∅)) then SysExit 1
        else
          match load_registry (frame sh) with
          | None => SysExit 1
          | Some df =>
              match w_dirs w !! taxan_root with
              | None => Raise OSError
              | Some tree => Return (finish w taxan_root (run_loop df tree))
              end
          end
    end.

End Scripts.

(** * Vocabulary of the properties

    Predicates and views the statements below are written with, and the
    registries, folders and worlds they are evaluated on. *)

(** ** Predicates and views *)

(** The spec's words: [record.valid_from <= timestamp <= record.valid_to]. *)
Definition in_interval (t : Z) (r : row) : bool :=
  match date_enregistrement r, derniere_maj r with
  | CTime valid_from, CTime valid_to => (valid_from <=? t) && (t <=? valid_to)
  | _, _ => false
  end.

(** What the conversion of lines 107-135 does to one row: each date cell
    goes through the format with microseconds. *)
Definition coerce_micro (r : row) : row :=
  {| index := index r; ID := ID r;
     date_enregistrement := Pandas.to_datetime_cell fmt_micro (date_enregistrement r);
     derniere_maj := Pandas.to_datetime_cell fmt_micro (derniere_maj r) |}.

Definition has_dates (r : row) : bool :=
  negb (Pandas.isna_cell (date_enregistrement r))
  && negb (Pandas.isna_cell (derniere_maj r)).

(** The pairs (source name, target name) the loop of lines 231-234 goes
    through for a folder [d] listed as [listing]. *)
Definition rename_plan (user_id : string) (d : gmap string dirent)
    (listing : list string) : list (string * string) :=
  map (fun '(idx, old_fname) => (old_fname, new_fname user_id idx))
      (enumerate 1 (py_sorted (png_files d listing))).

(** The fatal preconditions of [main]: no file at the registry path, no
    directory at the capture root, a registry that cannot be read, or a
    required column that the sheet lacks. *)
Definition fatal_precondition (excel taxan_dir : option string) (w : world) : Prop :=
  let excel_path := default "visiteurs-aresia.xlsx" excel in
  let taxan_root := default "taxan" taxan_dir in
  w_files w !! excel_path = None
  \/ w_dirs w !! taxan_root = None
  \/ read_excel_sheet w excel_path "Visiteurs ARESIA" = None
  \/ exists sh c,
       read_excel_sheet w excel_path "Visiteurs ARESIA" = Some sh
       /\ c ∈ required_cols /\ c ∉ columns sh.


(** The entries of a folder, names forgotten. *)
Definition contents (d : gmap string dirent) : list dirent :=
  map snd (map_to_list d).

Definition same_contents (st st' : loop_state) : Prop :=
  contents (ls_dir st') ≡ₚ contents (ls_dir st).

(** The identifier a folder name selects in a registry, if any
    (lines 181-214). *)
Definition user_of (df : list row) (entry : string) : option string :=
  match parse_datetime_from_foldername entry with
  | Some t =>
      match candidats df t with
      | premier :: _ => Some (ID premier)
      | [] => None
      end
  | None => None
  end.

Definition same_tree_contents (st st' : run_state) : Prop :=
  forall entry d,
    st_tree st !! entry = Some (NDir d) ->
    exists d', st_tree st' !! entry = Some (NDir d')
               /\ contents d' ≡ₚ contents d.

Definition is_png (f : string) : bool := PyStr.endswith (PyStr.lower f) ".png".

Definition png_count (d : gmap string dirent) : nat :=
  length (png_files d (Os.listdir d)).

Definition is_png_entry (fe : string * dirent) : bool :=
  match d_kind (snd fe) with Regular => is_png (fst fe) | Directory => false end.

Definition is_existe_deja (e : event) : bool :=
  match e with EvExisteDeja _ => true | _ => false end.

(** No rename was skipped because its target existed. *)
Definition no_collision (log : list event) : Prop :=
  Forall (fun e => is_existe_deja e = false) log.

Definition is_erreur (e : event) : bool :=
  match e with EvErreur _ => true | _ => false end.

(** No call of [os.rename] raised. *)
Definition no_failure (log : list event) : Prop :=
  Forall (fun e => is_erreur e = false) log.

(** A name [os.path.join(full_path, name)] keeps in the folder: it holds
    no path separator, and no NUL, which no path may hold.  The targets
    [<ID>_courbe<n>.png] of an identifier that is such a name are names
    of the folder itself, where the rename loop above puts them. *)
Definition component (name : string) : bool :=
  forallb (fun c => negb (Ascii.eqb c "/") && negb (Ascii.eqb c Ascii.zero))
          (list_ascii_of_string name).

(** Every identifier of the registry is a file-name component. *)
Definition ids_are_components (df : list row) : Prop :=
  Forall (fun r => component (ID r) = true) df.

(** The renames a log records, as pairs of a source and a target, in
    the order of the messages. *)
Definition renames (log : list event) : list (string * string) :=
  omap (fun e => match e with
                 | EvRenomme old_fname new => Some (old_fname, new)
                 | _ => None
                 end) log.

Definition log_extends (st st' : loop_state) : Prop :=
  exists l, ls_log st' = ls_log st ++ l.


Definition run_log_extends (st st' : run_state) : Prop :=
  exists l, st_log st' = st_log st ++ l.


(** ** Folder names written from a date and a time *)

(** The decimal digit [n] as a character. *)
Definition digit (n : nat) : ascii := ascii_of_nat (48 + n).

(** The characters of an ASCII text. *)
Definition chars (s : string) : list N :=
  map N_of_ascii (list_ascii_of_string s).

(** [n] on two and on four digits, zero-padded ([%02d], [%04d]). *)
Definition pad2 (n : nat) : string :=
  String (digit (n / 10)) (String (digit (n mod 10)) EmptyString).
Definition pad4 (n : nat) : string :=
  String (digit (n / 1000))
    (String (digit (n / 100 mod 10))
       (String (digit (n / 10 mod 10))
          (String (digit (n mod 10)) EmptyString))).

(** The name [taxan_YYYY-MM-DD-HH-MM-SS] of the docstring, for the six
    numbers of a date and a time. *)
Definition folder_name (y m d H M S : nat) : string :=
  String.append "taxan_"
    (String.append (pad4 y)
       (String "-" (String.append (pad2 m)
          (String "-" (String.append (pad2 d)
             (String "-" (String.append (pad2 H)
                (String "-" (String.append (pad2 M)
                   (String "-" (pad2 S))))))))))).

(** The fields [strptime] reads from such a name. *)
Definition fields_of (y m d H M S : nat) : Strptime.fields :=
  {| Strptime.f_year := Z.of_nat y; Strptime.f_month := Z.of_nat m;
     Strptime.f_day := Z.of_nat d; Strptime.f_hour := Z.of_nat H;
     Strptime.f_minute := Z.of_nat M; Strptime.f_second := Z.of_nat S;
     Strptime.f_nanos := 0 |}.

(** Nanoseconds from the epoch to [y-m-d H:M:S]. *)
Definition timestamp (y m d H M S : nat) : Z :=
  ((((Calendar.ymd2ord (Z.of_nat y) (Z.of_nat m) (Z.of_nat d) - Calendar.epoch_ord)
       * 24 + Z.of_nat H) * 60 + Z.of_nat M) * 60 + Z.of_nat S) * 1000000000.

(** A date of the calendar and a time of the day, as [datetime] accepts
    them. *)
Definition valid_datetime (y m d H M S : nat) : Prop :=
  1 <= Z.of_nat y <= 9999 /\ (1 <= m <= 12)%nat
  /\ (1 <= d)%nat /\ Z.of_nat d <= Calendar.days_in_month (Z.of_nat y) (Z.of_nat m)
  /\ (H <= 23)%nat /\ (M <= 59)%nat /\ (S <= 59)%nat.

(** The values each two-digit directive's expression accepts. *)
Definition in_range (d : Strptime.directive) (v : nat) : bool :=
  match d with
  | Strptime.Dm => (1 <=? v)%nat && (v <=? 12)%nat
  | Strptime.Dd => (1 <=? v)%nat && (v <=? 31)%nat
  | Strptime.DH => (v <=? 23)%nat
  | Strptime.DM => (v <=? 59)%nat
  | Strptime.DS => (v <=? 61)%nat
  | _ => false
  end.

(** [n] without padding when it has one digit ([%d]). *)
Definition unpadded (n : nat) : string :=
  if (n <? 10)%nat then String (digit n) EmptyString else pad2 n.

(** The same name with the five two-digit fields written without
    padding. *)
Definition folder_name_unpadded (y m d H M S : nat) : string :=
  String.append "taxan_"
    (String.append (pad4 y)
       (String "-" (String.append (unpadded m)
          (String "-" (String.append (unpadded d)
             (String "-" (String.append (unpadded H)
                (String "-" (String.append (unpadded M)
                   (String "-" (unpadded S))))))))))).

(** ** Registry cells written in the main format *)

(** [n] on three digits, zero-padded ([%03d]). *)
Definition pad3 (n : nat) : string :=
  String (digit (n / 100))
    (String (digit (n / 10 mod 10)) (String (digit (n mod 10)) EmptyString)).

(** The text [YYYY-MM-DDTHH:MM:SS.mmmZ] of the comment of line 106, for a
    date, a time and a number of milliseconds. *)
Definition registry_cell (y m d H M S ms : nat) : string :=
  String.append (pad4 y)
    (String "-" (String.append (pad2 m)
       (String "-" (String.append (pad2 d)
          (String "T" (String.append (pad2 H)
             (String ":" (String.append (pad2 M)
                (String ":" (String.append (pad2 S)
                   (String "." (String.append (pad3 ms) "Z")))))))))))).

(** The instant of such a text, in nanoseconds. *)
Definition timestamp_ms (y m d H M S ms : nat) : Z :=
  timestamp y m d H M S + Z.of_nat ms * 1000000.

(** The years whose every instant fits [datetime64[ns]]. *)
Definition datetime64_year (y : nat) : Prop := 1678 <= Z.of_nat y <= 2261.

(** ** Counting folders, files and messages *)

(** A directory of the capture root whose name has the prefix. *)
Definition is_capture_dir (tree : gmap string node) (entry : string) : bool :=
  match tree !! entry with
  | Some (NDir _) => PyStr.startswith entry "taxan_"
  | _ => false
  end.

(** An entry of a folder the renamer looks at: a regular file with the
    [.png] extension (lines 218-221). *)
Definition is_image (d : gmap string dirent) (f : string) : bool :=
  Os.isfile d f && is_png f.

(** The number of messages of a log that satisfy [p]. *)
Definition nb (p : event -> bool) (log : list event) : nat :=
  length (List.filter p log).

Definition is_renomme (e : event) : bool :=
  match e with EvRenomme _ _ => true | _ => false end.
Definition is_non_trouve (e : event) : bool :=
  match e with EvIgnore _ | EvAucunUtilisateur _ => true | _ => false end.
Definition is_conflit (e : event) : bool :=
  match e with EvConflit _ _ => true | _ => false end.
Definition is_dossier (e : event) : bool :=
  match e with EvIgnore _ | EvTraitement _ _ => true | _ => false end.

(** The messages of the inner loop over the files of one folder. *)
Definition is_file_event (e : event) : bool :=
  match e with
  | EvAucunPng _ | EvPngTrouves _ | EvExisteDeja _ | EvDejaBonNom _
  | EvRenomme _ _ | EvErreur _ => true
  | _ => false
  end.

(** The summary a log accounts for. *)
Definition tally (log : list event) : counters :=
  {| total_dossiers := nb is_dossier log;
     total_png_renommes := nb is_renomme log;
     total_non_trouves := nb is_non_trouve log;
     total_conflits := nb is_conflit log |}.


(** ** Registries, folders and worlds of the examples *)

(** A regular file whose content is number [n]. *)
Definition fichier (n : N) : dirent := {| d_kind := Regular; d_data := n |}.

(** A row whose two date cells are strings. *)
Definition mk_row (i : nat) (id a b : string) : row :=
  {| index := i; ID := id; date_enregistrement := CStr a; derniere_maj := CStr b |}.

(** The folder of the specification's scenario: [b.png] and [a.png]. *)
Definition dossier_ab : gmap string dirent :=
  {[ "b.png" := fichier 1; "a.png" := fichier 2 ]}.

(** A folder where the first target is taken by another file. *)
Definition dossier_pris : gmap string dirent :=
  {[ "1.png" := fichier 1; "42_courbe1.png" := fichier 2 ]}.

(** A folder whose only image meets a directory that bears its target
    name, and a folder whose only image is already named. *)
Definition dossier_collision : gmap string dirent :=
  {[ "a.png" := fichier 1;
     "42_courbe1.png" := {| d_kind := Directory; d_data := 2 |} ]}.
Definition dossier_en_ordre : gmap string dirent :=
  {[ "42_courbe1.png" := fichier 1 ]}.

(** A loaded registry: ID 42 from 14:00:00 to 15:00:00 on 2025-06-03. *)
Definition registre_42 : list row :=
  [ {| index := 0; ID := "42";
       date_enregistrement := CTime 1748959200000000000;
       derniere_maj := CTime 1748962800000000000 |} ].

(** A loaded registry where the rows 42 and 43 both hold 14:14:57. *)
Definition registre_chevauche : list row :=
  [ {| index := 0; ID := "41";
       date_enregistrement := CTime 0; derniere_maj := CTime 10 |};
    {| index := 1; ID := "42";
       date_enregistrement := CTime 1748959200000000000;
       derniere_maj := CTime 1748962800000000000 |};
    {| index := 2; ID := "43";
       date_enregistrement := CTime 1748960000000000000;
       derniere_maj := CTime 1748961000000000000 |} ].

(** A wide interval listed before a tight one. *)
Definition wide_then_tight : list row :=
  [ {| index := 0; ID := "7"; date_enregistrement := CTime 0; derniere_maj := CTime 100 |};
    {| index := 1; ID := "8"; date_enregistrement := CTime 40; derniere_maj := CTime 60 |} ].

(** A tree with one, empty, capture folder. *)
Definition etat_conflit : run_state :=
  {| st_tree := {[ "taxan_2025-06-03-14-14-57" := NDir ∅ ]};
     st_counters := zero_counters; st_log := [] |}.

(** A tree whose only folder has the prefix and no timestamp. *)
Definition etat_taxan_bad : run_state :=
  {| st_tree := {[ "taxan_bad" := NDir ∅ ]};
     st_counters := zero_counters; st_log := [] |}.

(** A sheet with two overlapping rows, 42 and 43. *)
Definition feuille_conflit : sheet :=
  {| columns := ["ID"; "Date d'enregistrement"; "Dernière mise à jour"];
     lignes :=
       [ ("42", CStr "2025-06-03T14:00:00.000Z", CStr "2025-06-03T15:00:00.000Z");
         ("43", CStr "2025-06-03T14:10:00.000Z", CStr "2025-06-03T14:20:00.000Z") ] |}.

(** A sheet whose first row has a start cell no format reads. *)
Definition feuille_mixte : sheet :=
  {| columns := ["ID"; "Date d'enregistrement"; "Dernière mise à jour"];
     lignes :=
       [ ("41", CStr "hier", CStr "2025-06-03T15:00:00.000Z");
         ("42", CStr "2025-06-03T14:00:00.000Z", CStr "2025-06-03T15:00:00.000Z") ] |}.

(** A sheet whose only row is written without fraction. *)
Definition feuille_sans_fraction : sheet :=
  {| columns := ["ID"; "Date d'enregistrement"; "Dernière mise à jour"];
     lignes :=
       [ ("42", CStr "2025-06-03T14:00:00Z", CStr "2025-06-03T15:00:00Z") ] |}.

(** Two capture folders, the second outside every interval. *)
Definition arbre_conflit : gmap string node :=
  {[ "taxan_2025-06-03-14-14-57" := NDir dossier_ab;
     "taxan_2025-06-03-16-00-00" := NDir dossier_ab ]}.

(** The world of a run with one conflict and one unmatched folder. *)
Definition monde_conflit : world :=
  {| w_files :=
       {[ "visiteurs-aresia.xlsx" := Classeur [("Visiteurs ARESIA", feuille_conflit)] ]};
     w_dirs :=
       {[ "taxan" := arbre_conflit ]} |}.


(** * Properties *)

(** ** The embedding on examples *)

Example parse_doc_example :
  parse_datetime_from_foldername "taxan_2025-06-03-14-14-57"
  = Some 1748960097000000000.
Proof. vm_compute. reflexivity. Qed.

Example parse_short_fields :
  parse_datetime_from_foldername "taxan_2025-6-3-4-5-7"
  = Some 1748923507000000000.
Proof. vm_compute. reflexivity. Qed.

Example parse_bad_day :
  parse_datetime_from_foldername "taxan_2025-02-30-14-14-57" = None.
Proof. vm_compute. reflexivity. Qed.

Example parse_leftover :
  parse_datetime_from_foldername "taxan_2025-06-03-14-14-570" = None.
Proof. vm_compute. reflexivity. Qed.

(** The year, and the last digit of a two-digit day, hour, minute or
    second, may be decimal digits of any script ([\d]); the month and
    the leading digits are ASCII ranges. *)
Example parse_digits_of_other_scripts :
  map parse_datetime_from_foldername
    ["taxan_٢٠٢٥-06-03-14-14-57"; "taxan_２０２５-06-03-14-14-5７";
     "taxan_2025-٠٦-03-14-14-57"; "taxan_2025-06-03-٢٣-14-57"]
  = [Some 1748960097000000000; Some 1748960097000000000; None; None].
Proof. vm_compute. reflexivity. Qed.

Example folder_with_arabic_indic_year_is_matched :
  user_of
    [ {| index := 0; ID := "42";
         date_enregistrement := CTime 1748959200000000000;
         derniere_maj := CTime 1748962800000000000 |} ]
    "taxan_٢٠٢٥-06-03-14-14-57" = Some "42".
Proof. vm_compute. reflexivity. Qed.

(** [datetime] refuses a second of 60; pandas lets it run into the next
    minute. *)
Example second_60 :
  datetime_strptime "2025-06-03-14-59-60" "%Y-%m-%d-%H-%M-%S" = None
  /\ Pandas.strptime "2025-06-03T14:59:60.000Z" fmt_micro
     = Some 1748962800000000000.
Proof. split; vm_compute; reflexivity. Qed.

(** The texts of the missing value raise nothing, whatever the format. *)
Example missing_value_texts :
  map (Pandas.to_datetime_cell_raise fmt_micro)
    [CStr "NaT"; CStr "nan"; CStr ""; CStr "hier"; CNaT]
  = [Some CNaT; Some CNaT; Some CNaT; None; Some CNaT].
Proof. vm_compute. reflexivity. Qed.

Example load_micro :
  load_registry [mk_row 0 "42" "2025-06-03T14:00:00.000Z" "2025-06-03T15:00:00.5Z"]
  = [ {| index := 0; ID := "42";
         date_enregistrement := CTime 1748959200000000000;
         derniere_maj := CTime 1748962800500000000 |} ].
Proof. vm_compute. reflexivity. Qed.

Example load_plain_dropped :
  load_registry [mk_row 0 "42" "2025-06-03T14:00:00Z" "2025-06-03T15:00:00Z"] = [].
Proof. vm_compute. reflexivity. Qed.

Example plain_parses :
  Pandas.strptime "2025-06-03T14:00:00Z" fmt_plain = Some 1748959200000000000.
Proof. vm_compute. reflexivity. Qed.

(** The extension is compared without case, at the end of the name. *)
Example png_filter_ignores_case :
  map is_png ["a.png"; "C.PNG"; "x.PnG"; "png"; "a.png.txt"; ".png"]
  = [true; true; true; false; false; true].
Proof. vm_compute. reflexivity. Qed.

(** ** The order on names *)

Lemma ascii_compare_lt_trans (a b c : ascii) :
  Ascii.compare a b = Lt -> Ascii.compare b c = Lt -> Ascii.compare a c = Lt.
Proof.
  unfold Ascii.compare. rewrite !N.compare_lt_iff. lia.
Qed.

Lemma string_compare_trans (s1 : string) :
  forall s2 s3,
    String.compare s1 s2 <> Gt -> String.compare s2 s3 <> Gt ->
    String.compare s1 s3 <> Gt.
Proof.
  induction s1 as [|a s1 IH]; intros [|b s2] [|c s3]; simpl; try congruence.
  destruct (Ascii.compare a b) eqn:Hab; try congruence;
    destruct (Ascii.compare b c) eqn:Hbc; try congruence.
  - apply Ascii.compare_eq_iff in Hab, Hbc. subst.
    replace (Ascii.compare c c) with Eq
      by (symmetry; apply N.compare_refl).
    apply IH.
  - apply Ascii.compare_eq_iff in Hab. subst. rewrite Hbc. congruence.
  - apply Ascii.compare_eq_iff in Hbc. subst. rewrite Hab. congruence.
  - rewrite (ascii_compare_lt_trans a b c Hab Hbc). congruence.
Qed.

#[global] Instance str_le_trans : Transitive str_le.
Proof.
  intros x y z. unfold str_le, String.leb. intros Hxy Hyz.
  pose proof (string_compare_trans x y z) as H.
  destruct (String.compare x y); destruct (String.compare y z);
    destruct (String.compare x z); simpl in *; try done;
    exfalso; apply H; congruence.
Qed.

#[global] Instance str_le_total : Total str_le.
Proof.
  intros x y. unfold str_le.
  destruct (String.leb_total x y) as [->| ->]; simpl; auto.
Qed.

#[global] Instance str_le_antisym : AntiSymm (=) str_le.
Proof.
  intros x y Hxy Hyx. apply String.leb_antisym; by apply Is_true_true.
Qed.

Lemma py_sorted_sorted (l : list string) : StronglySorted str_le (py_sorted l).
Proof. apply StronglySorted_merge_sort; apply _. Qed.

Lemma py_sorted_perm (l : list string) : py_sorted l ≡ₚ l.
Proof. apply merge_sort_Permutation. Qed.

(** Sorting forgets the order in which the names were listed. *)
Lemma py_sorted_listing (l l' : list string) :
  l ≡ₚ l' -> py_sorted l = py_sorted l'.
Proof.
  intros Hp. apply (StronglySorted_unique str_le); try apply py_sorted_sorted.
  by rewrite !py_sorted_perm.
Qed.

(** ** The matcher *)

Lemma candidats_filter (df : list row) (t : Z) :
  candidats df t = List.filter (in_interval t) df.
Proof.
  unfold candidats, col_enregistrement, col_maj,
    Pandas.and_, Pandas.le_scalar, Pandas.scalar_le.
  induction df as [|r df IH]; [done|]. cbn [map zip_with Pandas.loc_get List.filter].
  rewrite IH. unfold in_interval.
  destruct (date_enregistrement r), (derniere_maj r); simpl; try done;
    try (by destruct (_ <=? _)).
Qed.

(** Every row the loader keeps carries two timestamps. *)
Lemma loc_get_elem {A} (mask : list bool) (l : list A) (x : A) :
  x ∈ Pandas.loc_get mask l ->
  exists i, l !! i = Some x /\ mask !! i = Some true.
Proof.
  revert l. induction mask as [|b mask IH]; intros [|y l]; simpl;
    try (by intros ?%elem_of_nil).
  destruct b.
  - intros [->|Hx]%elem_of_cons.
    + by exists 0%nat.
    + destruct (IH _ Hx) as (i & ? & ?). by exists (S i).
  - intros Hx. destruct (IH _ Hx) as (i & ? & ?). by exists (S i).
Qed.

(** ** The loader *)

(** Writing back what was read from the missing positions of a converted
    column changes nothing: the second format only ever sees [NaT]. *)
Lemma loc_set_isna (s : list cell) (fmt : string) :
  Pandas.loc_set (Pandas.isna s) s
    (Pandas.to_datetime_coerce (Pandas.loc_get (Pandas.isna s) s) fmt) = s.
Proof.
  unfold Pandas.isna, Pandas.to_datetime_coerce.
  induction s as [|c s IH]; [done|].
  destruct c; simpl; by rewrite IH.
Qed.

Lemma set_col_enregistrement_id (df : list row) :
  set_col_enregistrement df (col_enregistrement df) = df.
Proof.
  unfold set_col_enregistrement, col_enregistrement.
  induction df as [|[] df IH]; simpl; by rewrite ?IH.
Qed.

Lemma set_col_maj_id (df : list row) :
  set_col_maj df (col_maj df) = df.
Proof.
  unfold set_col_maj, col_maj.
  induction df as [|[] df IH]; simpl; by rewrite ?IH.
Qed.

Lemma convert_enregistrement_map (df : list row) :
  convert_enregistrement df =
  map (fun r => {| index := index r; ID := ID r;
                   date_enregistrement :=
                     Pandas.to_datetime_cell fmt_micro (date_enregistrement r);
                   derniere_maj := derniere_maj r |}) df.
Proof.
  unfold convert_enregistrement.
  set (df1 := set_col_enregistrement df _).
  assert (Hdf1 : df1 = map (fun r => {| index := index r; ID := ID r;
                   date_enregistrement :=
                     Pandas.to_datetime_cell fmt_micro (date_enregistrement r);
                   derniere_maj := derniere_maj r |}) df).
  { unfold df1, set_col_enregistrement, Pandas.to_datetime_coerce,
      col_enregistrement. clear df1.
    induction df as [|r df IH]; simpl; by rewrite ?IH. }
  rewrite loc_set_isna, set_col_enregistrement_id.
  by destruct (Pandas.any _).
Qed.

Lemma convert_maj_map (df : list row) :
  convert_maj df =
  map (fun r => {| index := index r; ID := ID r;
                   date_enregistrement := date_enregistrement r;
                   derniere_maj :=
                     Pandas.to_datetime_cell fmt_micro (derniere_maj r) |}) df.
Proof.
  unfold convert_maj.
  set (df1 := set_col_maj df _).
  assert (Hdf1 : df1 = map (fun r => {| index := index r; ID := ID r;
                   date_enregistrement := date_enregistrement r;
                   derniere_maj :=
                     Pandas.to_datetime_cell fmt_micro (derniere_maj r) |}) df).
  { unfold df1, set_col_maj, Pandas.to_datetime_coerce, col_maj. clear df1.
    induction df as [|r df IH]; simpl; by rewrite ?IH. }
  rewrite loc_set_isna, set_col_maj_id.
  by destruct (Pandas.any _).
Qed.

Lemma dropna_filter (df : list row) : dropna df = List.filter has_dates df.
Proof.
  unfold dropna, Pandas.and_, Pandas.isna, col_enregistrement, col_maj.
  induction df as [|r df IH]; [done|]. simpl. rewrite IH.
  unfold has_dates. by destruct (negb _ && negb _).
Qed.

(** The loader keeps exactly the rows whose two cells convert under the
    format with microseconds. *)
Lemma load_registry_spec (df : list row) :
  load_registry df = List.filter has_dates (map coerce_micro df).
Proof.
  unfold load_registry.
  rewrite dropna_filter, convert_maj_map, convert_enregistrement_map, map_map.
  done.
Qed.

Lemma to_datetime_cell_not_str (fmt : string) (c : cell) (s : string) :
  Pandas.to_datetime_cell fmt c <> CStr s.
Proof.
  destruct c; simpl; try done.
  destruct (Pandas.is_nat_string _); [done|]. by destruct (Pandas.strptime _ _).
Qed.

Lemma load_registry_times (df : list row) (r : row) :
  r ∈ load_registry df ->
  exists a b, date_enregistrement r = CTime a /\ derniere_maj r = CTime b.
Proof.
  rewrite load_registry_spec, list_elem_of_In, filter_In, in_map_iff.
  intros [(r0 & <- & _) Hd]. unfold has_dates in Hd. simpl in *.
  pose proof (to_datetime_cell_not_str fmt_micro (date_enregistrement r0)) as H1.
  pose proof (to_datetime_cell_not_str fmt_micro (derniere_maj r0)) as H2.
  destruct (Pandas.to_datetime_cell fmt_micro (date_enregistrement r0));
    destruct (Pandas.to_datetime_cell fmt_micro (derniere_maj r0));
    simpl in *; try done; try (by edestruct H1); try (by edestruct H2).
  eauto.
Qed.

(** ** Claims on the matcher *)

(** Claim C3.  For every timestamp [t] and registry [df], the matcher
    returns exactly the rows with [valid_from <= t <= valid_to], in the
    order of the registry; a row whose start lies strictly after its end
    is returned for no timestamp. *)
Theorem matcher_returns_interval_subset (df : list row) (t : Z) :
  candidats df t = List.filter (in_interval t) df
  /\ (forall r,
        r ∈ candidats df t <->
        r ∈ df /\ exists a b,
          date_enregistrement r = CTime a /\ derniere_maj r = CTime b
          /\ a <= t <= b)
  /\ (forall r a b t',
        date_enregistrement r = CTime a -> derniere_maj r = CTime b ->
        b < a -> r ∉ candidats df t').
Proof.
  split; [apply candidats_filter|]. split.
  - intros r. rewrite candidats_filter, !list_elem_of_In, filter_In.
    unfold in_interval. split.
    + intros [Hin Hb]. split; [done|].
      destruct (date_enregistrement r) as [|a|]; try done.
      destruct (derniere_maj r) as [|b|]; try done.
      exists a, b. apply andb_true_iff in Hb as [?%Z.leb_le ?%Z.leb_le]. auto.
    + intros [Hin (a & b & -> & -> & Ha & Hb)]. split; [done|].
      apply andb_true_iff. split; by apply Z.leb_le.
  - intros r a b t' Ha Hb Hlt.
    rewrite candidats_filter, list_elem_of_In, filter_In.
    unfold in_interval. rewrite Ha, Hb. intros [_ H].
    apply andb_true_iff in H as [?%Z.leb_le ?%Z.leb_le]. lia.
Qed.

Lemma filter_head_split {A} (p : A -> bool) (l : list A) (x : A) (xs : list A) :
  List.filter p l = x :: xs ->
  exists avant apres,
    l = avant ++ x :: apres
    /\ Forall (fun y => p y = false) avant
    /\ p x = true.
Proof.
  induction l as [|y l IH]; simpl; [done|].
  destruct (p y) eqn:Hy.
  - intros [= -> <-]. exists [], l. auto.
  - intros (avant & apres & -> & ? & ?)%IH.
    exists (y :: avant), apres. auto.
Qed.

Lemma parse_needs_prefix (entry : string) (t : Z) :
  parse_datetime_from_foldername entry = Some t ->
  PyStr.startswith entry "taxan_" = true.
Proof.
  unfold parse_datetime_from_foldername, prefix.
  by destruct (PyStr.startswith entry "taxan_").
Qed.

(** Claim C5.  When more than one row matches the timestamp of a capture
    folder, the row used is the first matching one in the order of the
    registry, the conflict counter grows by exactly one for the folder, no
    other failure is counted, and the loop goes on with the folders that
    remain. *)
Theorem conflict_takes_first_and_continues
    (df : list row) (st : run_state) (entry : string) (rest : list string)
    (d : gmap string dirent) (t : Z) :
  st_tree st !! entry = Some (NDir d) ->
  parse_datetime_from_foldername entry = Some t ->
  (1 < length (candidats df t))%nat ->
  exists avant premier apres,
    df = avant ++ premier :: apres
    /\ Forall (fun r => in_interval t r = false) avant
    /\ in_interval t premier = true
    /\ let st' := process_entry df st entry in
       let ls :=
         rename_folder entry (ID premier) d
           (((st_log st ++ [EvTraitement entry t])
               ++ [EvConflit entry (map ID (candidats df t))])
              ++ [EvUtilisateur (ID premier)]) in
       st_tree st' = <[entry := NDir (ls_dir ls)]> (st_tree st)
       /\ st_log st' = ls_log ls
       /\ total_conflits (st_counters st') = S (total_conflits (st_counters st))
       /\ total_non_trouves (st_counters st') = total_non_trouves (st_counters st)
       /\ total_dossiers (st_counters st') = S (total_dossiers (st_counters st))
       /\ fold_left (process_entry df) (entry :: rest) st
          = fold_left (process_entry df) rest st'.
Proof.
  intros Hd Hparse Hlen.
  destruct (candidats df t) as [|premier autres] eqn:Hc; [simpl in Hlen; lia|].
  pose proof Hc as Hf. rewrite candidats_filter in Hf.
  destruct (filter_head_split _ _ _ _ Hf) as (avant & apres & Hdf & Hav & Hp).
  exists avant, premier, apres. split; [done|]. split; [done|]. split; [done|].
  cbn zeta.
  change (fold_left (process_entry df) (entry :: rest) st)
    with (fold_left (process_entry df) rest (process_entry df st entry)).
  assert (Heq : process_entry df st entry =
    let ls :=
      rename_folder entry (ID premier) d
        (((st_log st ++ [EvTraitement entry t])
            ++ [EvConflit entry (map ID (premier :: autres))])
           ++ [EvUtilisateur (ID premier)]) in
    {| st_tree := <[entry := NDir (ls_dir ls)]> (st_tree st);
       st_counters := count_renommes (ls_renommes ls)
                        (count_conflit (count_dossier (st_counters st)));
       st_log := ls_log ls |}).
  { unfold process_entry.
    rewrite Hd, (parse_needs_prefix _ _ Hparse), Hparse. cbn [negb].
    rewrite Hc. apply Nat.ltb_lt in Hlen. by rewrite Hlen. }
  rewrite Heq. cbn. repeat split; done.
Qed.

Lemma conflict_takes_first_and_continues_witness :
  total_conflits
    (st_counters (process_entry registre_chevauche etat_conflit
                    "taxan_2025-06-03-14-14-57")) = 1%nat.
Proof.
  destruct (conflict_takes_first_and_continues registre_chevauche etat_conflit
              "taxan_2025-06-03-14-14-57" [] ∅ 1748960097000000000)
    as (avant & premier & apres & _ & _ & _ & _ & _ & H & _).
  - vm_compute. reflexivity.
  - vm_compute. reflexivity.
  - vm_compute. lia.
  - exact H.
Defined.

(** The first match wins even when a later row has the tighter interval. *)
Example first_match_not_tightest :
  map ID (candidats wide_then_tight 50) = ["7"; "8"].
Proof. reflexivity. Qed.

(** ** The rename plan *)

Lemma filter_perm {A} (p : A -> bool) (l l' : list A) :
  l ≡ₚ l' -> List.filter p l ≡ₚ List.filter p l'.
Proof.
  induction 1 as [|x l l' _ IH|x y l|l l' l'' _ IH1 _ IH2]; simpl.
  - done.
  - destruct (p x); by rewrite IH.
  - destruct (p x), (p y); try done. apply perm_swap.
  - by rewrite IH1.
Qed.

Lemma enumerate_lookup {A} (start : nat) (l : list A) (k : nat) (x : A) :
  l !! k = Some x -> enumerate start l !! k = Some ((start + k)%nat, x).
Proof.
  intros Hk. unfold enumerate. apply lookup_zip_Some. split; [|done].
  apply lookup_seq_lt. by eapply lookup_lt_Some.
Qed.

Lemma rename_plan_lookup (user_id : string) (d : gmap string dirent)
    (listing : list string) (k : nat) (f : string) :
  py_sorted (png_files d listing) !! k = Some f ->
  rename_plan user_id d listing !! k = Some (f, new_fname user_id (S k)).
Proof.
  intros Hk. unfold rename_plan.
  change (map ?g ?l) with (g <$> l).
  by rewrite list_lookup_fmap, (enumerate_lookup 1 _ k f Hk).
Qed.

Lemma fold_left_map {A B S} (f : S -> B -> S) (g : A -> B) (l : list A) :
  forall s, fold_left f (map g l) s = fold_left (fun s x => f s (g x)) l s.
Proof. induction l as [|x l IH]; intros s; simpl; [done|apply IH]. Qed.

(** The loop over a folder executes the plan, pair after pair. *)
Lemma rename_loop_executes_plan (user_id : string) (d : gmap string dirent)
    (listing : list string) (st : loop_state) :
  rename_loop user_id st (py_sorted (png_files d listing))
  = fold_left (fun st '(old_fname, new) => rename_one st old_fname new)
      (rename_plan user_id d listing) st.
Proof.
  unfold rename_loop, rename_plan. rewrite fold_left_map.
  generalize (enumerate 1 (py_sorted (png_files d listing))). intros its.
  revert st. induction its as [|[idx old] its IH]; intros st; simpl; [done|].
  apply IH.
Qed.

(** Claim C4.  From what the folder holds and the names [os.listdir]
    returned, in any order, lines 218-250 filter the [.png] regular files
    (extension compared without case), sort them in ascending
    lexicographic order and go through them in that order, the file of
    rank [n] (from 1) with the target [<id>_courbe<n>.png]: the loop is
    the execution, pair after pair, of the plan, and two listings of the
    same names give the same plan and the same outcome. *)
Theorem rename_loop_ranks_sorted_names
    (entry user_id : string) (d : gmap string dirent)
    (listing listing' : list string) (log : list event) :
  listing ≡ₚ listing' ->
  let files := py_sorted (png_files d listing) in
  rename_listing entry user_id d listing log
  = match files with
    | [] => {| ls_dir := d; ls_renommes := 0;
               ls_log := log ++ [EvAucunPng entry] |}
    | _ => fold_left (fun st '(old_fname, new) => rename_one st old_fname new)
             (rename_plan user_id d listing)
             {| ls_dir := d; ls_renommes := 0;
                ls_log := log ++ [EvPngTrouves files] |}
    end
  /\ rename_listing entry user_id d listing' log
     = rename_listing entry user_id d listing log
  /\ rename_plan user_id d listing = rename_plan user_id d listing'
  /\ StronglySorted (fun a b => String.compare a b <> Gt) files
  /\ (forall f, f ∈ files <->
        f ∈ listing /\ Os.isfile d f = true
        /\ PyStr.endswith (PyStr.lower f) ".png" = true)
  /\ length (rename_plan user_id d listing) = length (png_files d listing)
  /\ (forall k f, files !! k = Some f ->
        rename_plan user_id d listing !! k
        = Some (f, String.append user_id
                     (String.append "_courbe"
                        (String.append (pretty (S k)) ".png")))).
Proof.
  intros Hperm files.
  split.
  { pose proof (py_sorted_perm (png_files d listing)) as Hp. fold files in Hp.
    pose proof (rename_loop_executes_plan user_id d listing) as Hplan.
    fold files in Hplan.
    unfold rename_listing. cbv zeta. fold files.
    destruct (png_files d listing) as [|f fs].
    - apply Permutation_nil_r in Hp. by rewrite Hp.
    - rewrite Hplan. destruct files as [|g gs]; [|done].
      by apply Permutation_nil_l in Hp. }
  split.
  { unfold rename_listing.
    pose proof (filter_perm (fun f => Os.isfile d f && PyStr.endswith (PyStr.lower f) ".png")
                  _ _ Hperm) as Hf.
    fold (png_files d listing) in Hf. fold (png_files d listing') in Hf.
    rewrite <- (py_sorted_listing _ _ Hf).
    destruct (png_files d listing) as [|f fs], (png_files d listing') as [|f' fs'];
      try done.
    - by apply Permutation_nil_l in Hf.
    - by apply Permutation_nil_r in Hf. }
  split.
  { unfold rename_plan, png_files.
    by rewrite (py_sorted_listing _ _ (filter_perm _ _ _ Hperm)). }
  split.
  { pose proof (py_sorted_sorted (png_files d listing)) as Hs.
    fold files in Hs.
    induction Hs as [|a l _ IH Hall]; constructor; [done|].
    eapply Forall_impl; [exact Hall|].
    intros b. unfold str_le, String.leb.
    by destruct (String.compare a b). }
  split.
  { intros f. unfold files. rewrite py_sorted_perm.
    unfold png_files. rewrite !list_elem_of_In, filter_In, andb_true_iff.
    tauto. }
  split.
  { unfold rename_plan, enumerate.
    rewrite length_map, length_zip, length_seq, Nat.min_id.
    apply Permutation_length, py_sorted_perm. }
  intros k f Hk. by apply rename_plan_lookup.
Qed.

Lemma rename_loop_ranks_sorted_names_witness :
  rename_listing "taxan_2025-06-03-14-14-57" "42" dossier_ab ["b.png"; "a.png"] []
  = fold_left (fun st '(old_fname, new) => rename_one st old_fname new)
      [("a.png", "42_courbe1.png"); ("b.png", "42_courbe2.png")]
      {| ls_dir := dossier_ab; ls_renommes := 0;
         ls_log := [EvPngTrouves ["a.png"; "b.png"]] |}.
Proof.
  apply (rename_loop_ranks_sorted_names "taxan_2025-06-03-14-14-57" "42"
           dossier_ab ["b.png"; "a.png"] ["a.png"; "b.png"] []).
  apply perm_swap.
Defined.

(** The scenario of the specification: [b.png], [a.png] under ID 42. *)
Example rename_plan_scenario :
  rename_plan "42" dossier_ab ["b.png"; "a.png"]
  = [("a.png", "42_courbe1.png"); ("b.png", "42_courbe2.png")].
Proof. vm_compute. reflexivity. Qed.

(** ** Folder names that do not parse *)

(** Claim C8, as the code has it.  A subdirectory whose name does not
    parse is skipped and the loop goes on.  Without the [taxan_] prefix
    nothing at all is recorded; with the prefix and a malformed timestamp
    the folder is counted as considered and as unmatched, once each. *)
Theorem invalid_folder_name_skipped
    (df : list row) (st : run_state) (entry : string) (rest : list string)
    (d : gmap string dirent) :
  st_tree st !! entry = Some (NDir d) ->
  parse_datetime_from_foldername entry = None ->
  let st' := process_entry df st entry in
  st_tree st' = st_tree st
  /\ total_png_renommes (st_counters st') = total_png_renommes (st_counters st)
  /\ total_conflits (st_counters st') = total_conflits (st_counters st)
  /\ (PyStr.startswith entry "taxan_" = false -> st' = st)
  /\ (PyStr.startswith entry "taxan_" = true ->
        total_non_trouves (st_counters st') = S (total_non_trouves (st_counters st))
        /\ total_dossiers (st_counters st') = S (total_dossiers (st_counters st))
        /\ st_log st' = st_log st ++ [EvIgnore entry])
  /\ fold_left (process_entry df) (entry :: rest) st
     = fold_left (process_entry df) rest st'.
Proof.
  intros Hd Hparse st'.
  assert (Hst' : st' = if PyStr.startswith entry "taxan_"
                       then {| st_tree := st_tree st;
                               st_counters :=
                                 count_non_trouve (count_dossier (st_counters st));
                               st_log := st_log st ++ [EvIgnore entry] |}
                       else st).
  { unfold st', process_entry. rewrite Hd, Hparse.
    by destruct (PyStr.startswith entry "taxan_"). }
  split_and!; try done;
    rewrite Hst'; destruct (PyStr.startswith entry "taxan_"); try done.
Qed.

Lemma invalid_folder_name_skipped_witness :
  total_non_trouves (st_counters (process_entry [] etat_taxan_bad "taxan_bad")) = 1%nat.
Proof.
  destruct (invalid_folder_name_skipped [] etat_taxan_bad "taxan_bad" [] ∅)
    as (_ & _ & _ & _ & H & _).
  - vm_compute. reflexivity.
  - vm_compute. reflexivity.
  - destruct H as [H _]; [vm_compute; reflexivity|]. exact H.
Defined.

(** Against claim C8 as stated.  A subdirectory without the prefix is
    not a capture folder for the parser, and the run counts nothing for
    it: the unmatched counter stays at zero. *)
Lemma missing_prefix_not_counted :
  parse_datetime_from_foldername "photos" = None
  /\ st_counters (run_loop [] {[ "photos" := NDir ∅ ]}) = zero_counters.
Proof. split; vm_compute; reflexivity. Qed.

(** ** Exit status *)

Lemma getattr_excel (excel taxan_dir : option string) :
  getattr (parse_args excel taxan_dir) "excel"
  = Return (default "visiteurs-aresia.xlsx" excel).
Proof. unfold getattr, parse_args. by rewrite lookup_insert_eq. Qed.

Lemma getattr_taxan_dir (excel taxan_dir : option string) :
  getattr (parse_args excel taxan_dir) "taxan_dir"
  = Return (default "taxan" taxan_dir).
Proof.
  unfold getattr, parse_args.
  by rewrite lookup_insert_ne, lookup_singleton_eq.
Qed.

(** [main] either exits with status 1 on a fatal precondition, or
    returns after the loop over the capture root. *)
Lemma main_cases (excel taxan_dir : option string) (w : world) :
  (fatal_precondition excel taxan_dir w /\ main excel taxan_dir w = SysExit 1)
  \/ (~ fatal_precondition excel taxan_dir w
      /\ exists sh tree,
           read_excel_sheet w (default "visiteurs-aresia.xlsx" excel)
             "Visiteurs ARESIA" = Some sh
           /\ w_dirs w !! default "taxan" taxan_dir = Some tree
           /\ main excel taxan_dir w
              = Return (finish w (default "taxan" taxan_dir)
                          (run_loop (load_registry (frame sh)) tree))).
Proof.
  unfold main, fatal_precondition.
  rewrite getattr_excel, getattr_taxan_dir. cbn [mbind result_bind].
  set (excel_path := default _ excel). set (taxan_root := default _ taxan_dir).
  unfold path_exists, isfile, isdir.
  destruct (w_files w !! excel_path) as [xf|] eqn:Hf; cbn [negb];
    [|left; auto].
  destruct (w_dirs w !! taxan_root) as [tree|] eqn:Hd; cbn [negb];
    [|left; auto].
  destruct (read_excel_sheet w excel_path "Visiteurs ARESIA") as [sh|] eqn:Hr;
    [|left; auto].
  case_bool_decide as Hm; rewrite ?orb_true_r; cbn [negb].
  - right. split; [|by exists sh, tree].
    intros [?|[?|[?|(sh' & c & [= <-] & Hc & Hnc)]]]; try done.
    apply Hnc. apply (elem_of_list_to_set (C := gset string)).
    destruct (decide (c ∈ (list_to_set (columns sh) : gset string))); [done|].
    assert (c ∈ required_cols ∖ list_to_set (columns sh)) as Hin
      by (by apply elem_of_difference).
    rewrite Hm in Hin. by apply not_elem_of_empty in Hin.
  - left. split; [|done]. right. right. right.
    apply set_choose_L in Hm as [c Hc]. exists sh, c.
    split; [done|]. set_solver.
Qed.

(** Claim C9.  [main] ends with a non-zero status exactly when a fatal
    precondition fails; otherwise the run completes and the status is
    zero, whatever was counted as unmatched or as a conflict. *)
Theorem exit_status_nonzero_iff_fatal
    (excel taxan_dir : option string) (w : world) :
  (exit_status (main excel taxan_dir w) <> 0%nat
   <-> fatal_precondition excel taxan_dir w)
  /\ (~ fatal_precondition excel taxan_dir w ->
      exists rp, main excel taxan_dir w = Return rp
                 /\ exit_status (main excel taxan_dir w) = 0%nat).
Proof.
  destruct (main_cases excel taxan_dir w)
    as [[Hfatal ->]|[Hok (sh & tree & _ & _ & ->)]]; simpl.
  - split; [split; auto|]. tauto.
  - split; [split; [done|tauto]|]. eauto.
Qed.

(** A run that ends with an unmatched folder and a conflict exits with
    status zero. *)
Example exit_zero_with_unmatched_and_conflict :
  exists rp,
    main None None monde_conflit = Return rp
    /\ r_counters rp = {| total_dossiers := 2; total_png_renommes := 2;
                          total_non_trouves := 1; total_conflits := 1 |}
    /\ exit_status (main None None monde_conflit) = 0%nat.
Proof. eexists. vm_compute. repeat split; reflexivity. Qed.

(** ** The older copy *)

Lemma scripts_getattr_tan_dir (excel taxan_dir : option string) :
  getattr (Scripts.parse_args excel taxan_dir) "tan_dir"
  = Raise (AttributeError "tan_dir").
Proof.
  unfold getattr, Scripts.parse_args.
  by rewrite lookup_insert_ne, lookup_singleton_ne.
Qed.

Lemma scripts_getattr_taxon_dir (excel taxan_dir : option string) :
  getattr (Scripts.parse_args excel taxan_dir) "taxon_dir"
  = Raise (AttributeError "taxon_dir").
Proof.
  unfold getattr, Scripts.parse_args.
  by rewrite lookup_insert_ne, lookup_singleton_ne.
Qed.

(** Claim C10.  Whatever the two options and the world, [main] of
    [scripts/rename_courbes.py] ends on an uncaught [AttributeError]: the
    parser defines [excel] and [taxan_dir], and line 73 reads
    [args.tan_dir] (as [args.taxon_dir] is read further down, with the
    same effect).  Nothing is read or renamed, the status is non-zero, and
    the copy does not behave as [rename_courbes.py], which completes on a
    world the older copy fails on. *)
Theorem scripts_copy_raises_attribute_error
    (excel taxan_dir : option string) (w : world) :
  Scripts.main excel taxan_dir w = Raise (AttributeError "tan_dir")
  /\ getattr (Scripts.parse_args excel taxan_dir) "taxon_dir"
     = Raise (AttributeError "taxon_dir")
  /\ (exists v, getattr (Scripts.parse_args excel taxan_dir) "taxan_dir" = Return v)
  /\ exit_status (Scripts.main excel taxan_dir w) = 1%nat
  /\ (exists rp, main None None monde_conflit = Return rp
                 /\ total_png_renommes (r_counters rp) = 2%nat
                 /\ Scripts.main None None monde_conflit
                    = Raise (AttributeError "tan_dir")).
Proof.
  assert (Hmain : Scripts.main excel taxan_dir w = Raise (AttributeError "tan_dir")).
  { unfold Scripts.main.
    assert (Hex : getattr (Scripts.parse_args excel taxan_dir) "excel"
                  = Return (default "data/visiteurs-aresia.xlsx" excel)).
    { unfold getattr, Scripts.parse_args. by rewrite lookup_insert_eq. }
    rewrite Hex, scripts_getattr_tan_dir. reflexivity. }
  split_and!.
  - exact Hmain.
  - apply scripts_getattr_taxon_dir.
  - exists (default "data/taxan" taxan_dir).
    unfold getattr, Scripts.parse_args.
    by rewrite lookup_insert_ne, lookup_singleton_eq.
  - by rewrite Hmain.
  - eexists. vm_compute. repeat split; reflexivity.
Qed.

(** ** Rows of the registry that do not parse *)

Lemma frame_lookup (sh : sheet) (i : nat) (r : row) :
  frame sh !! i = Some r <->
  exists id a b,
    lignes sh !! i = Some (id, a, b)
    /\ r = {| index := i; ID := id; date_enregistrement := a; derniere_maj := b |}.
Proof.
  unfold frame. rewrite list_lookup_imap.
  destruct (lignes sh !! i) as [[[id a] b]|]; simpl.
  - split.
    + intros [= <-]. by exists id, a, b.
    + by intros (? & ? & ? & [= <- <- <-] & ->).
  - split; [done|]. by intros (? & ? & ? & ? & _).
Qed.

(** The rows of the loaded registry, in terms of the sheet. *)
Lemma load_registry_elem (sh : sheet) (r : row) :
  r ∈ load_registry (frame sh) <->
  exists i id a b ta tb,
    lignes sh !! i = Some (id, a, b)
    /\ Pandas.to_datetime_cell fmt_micro a = CTime ta
    /\ Pandas.to_datetime_cell fmt_micro b = CTime tb
    /\ r = {| index := i; ID := id;
              date_enregistrement := CTime ta; derniere_maj := CTime tb |}.
Proof.
  rewrite load_registry_spec, list_elem_of_In, filter_In, in_map_iff. split.
  - intros [(r0 & <- & Hin) Hd].
    apply list_elem_of_In, list_elem_of_lookup in Hin as [i Hi].
    apply frame_lookup in Hi as (id & a & b & Hl & ->).
    unfold has_dates, coerce_micro in *. simpl in *.
    pose proof (to_datetime_cell_not_str fmt_micro a) as Ha.
    pose proof (to_datetime_cell_not_str fmt_micro b) as Hb.
    destruct (Pandas.to_datetime_cell fmt_micro a) as [|ta|] eqn:Ea;
      try done; [by edestruct Ha|].
    destruct (Pandas.to_datetime_cell fmt_micro b) as [|tb|] eqn:Eb;
      try done; [by edestruct Hb|].
    exists i, id, a, b, ta, tb. by rewrite Ea, Eb.
  - intros (i & id & a & b & ta & tb & Hl & Ha & Hb & ->). split.
    + exists {| index := i; ID := id; date_enregistrement := a; derniere_maj := b |}.
      split; [unfold coerce_micro; simpl; by rewrite Ha, Hb|].
      apply list_elem_of_In, list_elem_of_lookup. exists i.
      apply frame_lookup. by exists id, a, b.
    + done.
Qed.




(** ** Rows in the format without fraction *)

(** Claim C7, on the code.  Both cells of the row are strings in the
    second accepted format and each parses under it, yet the loader drops
    the row: the retry of lines 114-120 and 129-135 reads the column that
    line 107 (123) has just overwritten, where the cell is already [NaT]. *)
Theorem plain_format_row_is_dropped :
  Pandas.strptime "2025-06-03T14:00:00Z" fmt_plain = Some 1748959200000000000
  /\ Pandas.strptime "2025-06-03T15:00:00Z" fmt_plain = Some 1748962800000000000
  /\ load_registry (frame feuille_sans_fraction) = [].
Proof. vm_compute. repeat split; reflexivity. Qed.

(** ** The rename loop never loses an entry *)

Lemma fold_left_preserves {S I} (step : S -> I -> S) (R : relation S)
    `{!Reflexive R, !Transitive R} :
  (forall s i, R s (step s i)) ->
  forall l s, R s (fold_left step l s).
Proof.
  intros Hstep l. induction l as [|i l IH]; intros s; simpl; [done|].
  etrans; [apply (Hstep s i)|apply IH].
Qed.

Lemma contents_rename_fresh (d : gmap string dirent) (old new : string) (e : dirent) :
  d !! old = Some e -> d !! new = None ->
  contents (<[new := e]> (delete old d)) ≡ₚ contents d.
Proof.
  intros Hold Hnew. unfold contents.
  rewrite map_to_list_insert by (rewrite lookup_delete_None; auto).
  rewrite <- (map_to_list_delete d old e Hold). done.
Qed.

(** The four ways an iteration of [rename_courbes.py] can go. *)
Lemma rename_step_cases (user_id : string) (st : loop_state) (idx : nat)
    (old : string) :
  let new := new_fname user_id idx in
  (Os.exists_ (ls_dir st) new = true /\ old <> new
   /\ rename_step user_id st (idx, old) = say st (EvExisteDeja new))
  \/ (old = new /\ rename_step user_id st (idx, old) = say st (EvDejaBonNom old))
  \/ (old <> new /\ ls_dir st !! new = None /\ ls_dir st !! old = None
      /\ rename_step user_id st (idx, old) = say st (EvErreur old))
  \/ (old <> new /\ ls_dir st !! new = None
      /\ exists e, ls_dir st !! old = Some e
         /\ rename_step user_id st (idx, old)
            = {| ls_dir := <[new := e]> (delete old (ls_dir st));
                 ls_renommes := S (ls_renommes st);
                 ls_log := ls_log st ++ [EvRenomme old new] |}).
Proof.
  intros new. unfold rename_step, rename_one. fold new.
  destruct (String.eqb_spec old new) as [->|Hne].
  - right. left. by rewrite andb_false_r.
  - rewrite andb_true_r. unfold Os.exists_, Os.rename.
    destruct (ls_dir st !! new) as [e'|] eqn:Hnew.
    + left. auto.
    + right. right.
      destruct (ls_dir st !! old) as [e|] eqn:Hold.
      * right. split; [done|]. split; [done|]. by exists e.
      * left. auto.
Qed.

(** The three ways an iteration of the older copy can go. *)
Lemma scripts_rename_step_cases (user_id : string) (st : loop_state) (idx : nat)
    (old : string) :
  let new := new_fname user_id idx in
  (Os.exists_ (ls_dir st) new = true
   /\ Scripts.rename_step user_id st (idx, old) = say st (EvExisteDeja new))
  \/ (ls_dir st !! new = None /\ ls_dir st !! old = None
      /\ Scripts.rename_step user_id st (idx, old) = say st (EvErreur old))
  \/ (ls_dir st !! new = None
      /\ exists e, ls_dir st !! old = Some e
         /\ Scripts.rename_step user_id st (idx, old)
            = {| ls_dir := <[new := e]> (delete old (ls_dir st));
                 ls_renommes := S (ls_renommes st);
                 ls_log := ls_log st ++ [EvRenomme old new] |}).
Proof.
  intros new. unfold Scripts.rename_step. fold new.
  unfold Os.exists_, Os.rename.
  destruct (ls_dir st !! new) as [e'|] eqn:Hnew.
  - left. auto.
  - right. destruct (ls_dir st !! old) as [e|] eqn:Hold.
    + right. split; [done|]. by exists e.
    + left. auto.
Qed.

#[local] Instance same_contents_refl : Reflexive same_contents.
Proof. intros st. unfold same_contents. reflexivity. Qed.
#[local] Instance same_contents_trans : Transitive same_contents.
Proof. intros a b c Hab Hbc. unfold same_contents in *. by rewrite Hbc. Qed.

Lemma rename_step_contents (user_id : string) (st : loop_state) (it : nat * string) :
  same_contents st (rename_step user_id st it).
Proof.
  destruct it as [idx old]. unfold same_contents.
  destruct (rename_step_cases user_id st idx old)
    as [(_ & _ & ->)|[(_ & ->)|[(_ & _ & _ & ->)|(_ & Hnew & e & Hold & ->)]]];
    simpl; try done.
  by apply contents_rename_fresh.
Qed.

Lemma scripts_rename_step_contents (user_id : string) (st : loop_state)
    (it : nat * string) :
  same_contents st (Scripts.rename_step user_id st it).
Proof.
  destruct it as [idx old]. unfold same_contents.
  destruct (scripts_rename_step_cases user_id st idx old)
    as [(_ & ->)|[(_ & _ & ->)|(Hnew & e & Hold & ->)]];
    simpl; try done.
  by apply contents_rename_fresh.
Qed.

Lemma rename_folder_contents (entry user_id : string) (d : gmap string dirent)
    (log : list event) :
  contents (ls_dir (rename_folder entry user_id d log)) ≡ₚ contents d.
Proof.
  unfold rename_folder, rename_listing. destruct (png_files d (Os.listdir d)); [done|].
  apply (fold_left_preserves (rename_step user_id) same_contents
           (rename_step_contents user_id)).
Qed.

Lemma scripts_rename_folder_contents (entry user_id : string)
    (d : gmap string dirent) (log : list event) :
  contents (ls_dir (Scripts.rename_folder entry user_id d log)) ≡ₚ contents d.
Proof.
  unfold Scripts.rename_folder. destruct (png_files d (Os.listdir d)); [done|].
  apply (fold_left_preserves (Scripts.rename_step user_id) same_contents
           (scripts_rename_step_contents user_id)).
Qed.

(** An iteration of the outer loop either leaves the tree alone, or
    renames inside the one matched folder [entry]. *)
Lemma process_entry_cases (df : list row) (st : run_state) (entry : string) :
  (st_tree (process_entry df st entry) = st_tree st
   /\ total_png_renommes (st_counters (process_entry df st entry))
      = total_png_renommes (st_counters st)
   /\ (exists l, st_log (process_entry df st entry) = st_log st ++ l)
   /\ (forall d uid, st_tree st !! entry = Some (NDir d) ->
                     user_of df entry = Some uid -> False))
  \/ (exists d uid log c,
        st_tree st !! entry = Some (NDir d)
        /\ user_of df entry = Some uid
        /\ (exists l, log = st_log st ++ l)
        /\ total_png_renommes c = total_png_renommes (st_counters st)
        /\ process_entry df st entry =
           {| st_tree :=
                <[entry := NDir (ls_dir (rename_folder entry uid d log))]> (st_tree st);
              st_counters :=
                count_renommes (ls_renommes (rename_folder entry uid d log)) c;
              st_log := ls_log (rename_folder entry uid d log) |}).
Proof.
  unfold process_entry, user_of.
  destruct (st_tree st !! entry) as [[|d]|] eqn:Hd;
    try (left; split_and!; [done|done|by exists []; rewrite app_nil_r|by intros ? ? [=]]).
  unfold parse_datetime_from_foldername, prefix.
  destruct (PyStr.startswith entry "taxan_") eqn:Hp; cbn [negb];
    [|left; split_and!; [done|done|by exists []; rewrite app_nil_r|by intros ? ? _ [=]]].
  destruct (datetime_strptime _ _) as [t|];
    [|left; split_and!; [done|done|by eexists|by intros ? ? _ [=]]].
  destruct (candidats df t) as [|premier autres] eqn:Hc.
  { left. split_and!; [done|done| |by intros ? ? _ [=]].
    cbn. rewrite <- app_assoc. by eexists. }
  right. exists d, (ID premier).
  destruct (1 <? length (premier :: autres))%nat.
  - exists (((st_log st ++ [EvTraitement entry t])
               ++ [EvConflit entry (map ID (premier :: autres))])
              ++ [EvUtilisateur (ID premier)]),
           (count_conflit (count_dossier (st_counters st))).
    split_and!; [done|done| |reflexivity|reflexivity].
    rewrite <- !app_assoc. by eexists.
  - exists ((st_log st ++ [EvTraitement entry t]) ++ [EvUtilisateur (ID premier)]),
           (count_dossier (st_counters st)).
    split_and!; [done|done| |reflexivity|reflexivity].
    rewrite <- !app_assoc. by eexists.
Qed.

#[local] Instance same_tree_contents_refl : Reflexive same_tree_contents.
Proof. intros st entry d Hd. by exists d. Qed.
#[local] Instance same_tree_contents_trans : Transitive same_tree_contents.
Proof.
  intros a b c Hab Hbc entry d Hd.
  destruct (Hab _ _ Hd) as (d1 & Hd1 & Hp1).
  destruct (Hbc _ _ Hd1) as (d2 & Hd2 & Hp2).
  exists d2. split; [done|]. by rewrite Hp2.
Qed.

Lemma process_entry_contents (df : list row) (st : run_state) (entry : string) :
  same_tree_contents st (process_entry df st entry).
Proof.
  destruct (process_entry_cases df st entry)
    as [(Ht & _)|(d & uid & log & c & Hd & _ & _ & _ & ->)].
  - intros e0 d0 H0. exists d0. by rewrite Ht.
  - intros e0 d0 H0. cbn [st_tree].
    destruct (decide (entry = e0)) as [<-|Hne].
    + rewrite lookup_insert_eq. eexists. split; [done|].
      rewrite Hd in H0. injection H0 as <-. apply rename_folder_contents.
    + rewrite lookup_insert_ne by done. by exists d0.
Qed.

(** ** Collisions *)

(** Claim C1, as the code has it.  With a registry whose identifiers are
    file-name components, so that the targets of the renames lie in the
    folder they are computed for, each capture folder holds after the run
    the entries it held before, under old or new names: no rename
    replaces an entry.  Whatever the identifier, an iteration whose
    target name exists and differs from the source name changes neither
    the folder nor the number of renames; it prints its message and the
    loop moves on.  No counter records the skip.  The older copy skips on
    any existing target and, under an identifier that is a component,
    keeps the entries as well. *)
Theorem collision_skipped_nothing_overwritten
    (df : list row) (tree : gmap string node) (entry : string)
    (d : gmap string dirent) :
  ids_are_components df ->
  tree !! entry = Some (NDir d) ->
  (exists d', st_tree (run_loop df tree) !! entry = Some (NDir d')
              /\ contents d' ≡ₚ contents d)
  /\ (forall user_id st idx old,
        Os.exists_ (ls_dir st) (new_fname user_id idx) = true ->
        old <> new_fname user_id idx ->
        let st' := rename_step user_id st (idx, old) in
        let st'' := Scripts.rename_step user_id st (idx, old) in
        ls_dir st' = ls_dir st
        /\ ls_renommes st' = ls_renommes st
        /\ ls_log st' = ls_log st ++ [EvExisteDeja (new_fname user_id idx)]
        /\ st'' = st')
  /\ (forall user_id st files,
        component user_id = true ->
        contents (ls_dir (rename_loop user_id st files)) ≡ₚ contents (ls_dir st)
        /\ contents (ls_dir (Scripts.rename_loop user_id st files))
           ≡ₚ contents (ls_dir st)).
Proof.
  intros _ Hd. split_and!.
  - unfold run_loop.
    apply (fold_left_preserves (process_entry df) same_tree_contents
             (process_entry_contents df)
             (py_sorted (Os.listdir tree))
             {| st_tree := tree; st_counters := zero_counters; st_log := [] |}
             entry d Hd).
  - intros user_id st idx old Hex Hne. cbn zeta.
    destruct (rename_step_cases user_id st idx old)
      as [(_ & _ & ->)|[(? & _)|[(_ & Hn & _)|(_ & Hn & _)]]]; try done;
      try (unfold Os.exists_ in Hex; by rewrite Hn in Hex).
    destruct (scripts_rename_step_cases user_id st idx old)
      as [(_ & ->)|[(Hn & _)|(Hn & _)]]; try done;
      unfold Os.exists_ in Hex; by rewrite Hn in Hex.
  - intros user_id st files _. split.
    + apply (fold_left_preserves (rename_step user_id) same_contents
               (rename_step_contents user_id)).
    + apply (fold_left_preserves (Scripts.rename_step user_id) same_contents
               (scripts_rename_step_contents user_id)).
Qed.

Lemma collision_skipped_nothing_overwritten_witness :
  exists d',
    st_tree (run_loop registre_42 {[ "taxan_2025-06-03-14-14-57" := NDir dossier_pris ]})
      !! "taxan_2025-06-03-14-14-57" = Some (NDir d')
    /\ contents d' ≡ₚ contents dossier_pris.
Proof.
  apply (collision_skipped_nothing_overwritten registre_42
           {[ "taxan_2025-06-03-14-14-57" := NDir dossier_pris ]}
           "taxan_2025-06-03-14-14-57" dossier_pris).
  - repeat constructor.
  - vm_compute. reflexivity.
Defined.

(** Against claim C1 as stated ("skipped and counted").  The skipped
    collision is printed and appears in no counter: the run with the
    collision ends on the counters of a run without one. *)
Lemma collision_is_not_counted :
  let avec := run_loop registre_42
                {[ "taxan_2025-06-03-14-14-57" := NDir dossier_collision ]} in
  let sans := run_loop registre_42
                {[ "taxan_2025-06-03-14-14-57" := NDir dossier_en_ordre ]} in
  EvExisteDeja "42_courbe1.png" ∈ st_log avec
  /\ st_counters avec = {| total_dossiers := 1; total_png_renommes := 0;
                           total_non_trouves := 0; total_conflits := 0 |}
  /\ st_counters sans = st_counters avec.
Proof.
  vm_compute. split; [|split; reflexivity].
  do 3 apply list_elem_of_further. apply list_elem_of_here.
Qed.

(** ** Running the tool twice *)

(** *** Target names are [.png] names *)

Lemma slice_from_0 (p : string) : PyStr.slice_from 0 p = p.
Proof.
  unfold PyStr.slice_from. rewrite Nat.sub_0_r.
  induction p as [|c p IH]; simpl; by rewrite ?IH.
Qed.

Lemma slice_from_cons (k : nat) (c : ascii) (s : string) :
  PyStr.slice_from (S k) (String c s) = PyStr.slice_from k s.
Proof. reflexivity. Qed.

Lemma endswith_cons (c : ascii) (s p : string) :
  PyStr.endswith s p = true -> PyStr.endswith (String c s) p = true.
Proof.
  unfold PyStr.endswith. intros [Hlen Heq]%andb_true_iff.
  apply Nat.leb_le in Hlen. apply andb_true_iff. split.
  - apply Nat.leb_le. simpl. lia.
  - cbn [String.length].
    replace (S (String.length s) - String.length p)%nat
      with (S (String.length s - String.length p)) by lia.
    by rewrite slice_from_cons.
Qed.

Lemma endswith_append (s t p : string) :
  PyStr.endswith t p = true -> PyStr.endswith (String.append s t) p = true.
Proof.
  intros Ht. induction s as [|c s IH]; simpl; [done|]. by apply endswith_cons.
Qed.

Lemma endswith_refl (p : string) : PyStr.endswith p p = true.
Proof.
  unfold PyStr.endswith. rewrite Nat.leb_refl, Nat.sub_diag, slice_from_0.
  apply String.eqb_refl.
Qed.

Lemma lower_append (s t : string) :
  PyStr.lower (String.append s t) = String.append (PyStr.lower s) (PyStr.lower t).
Proof. induction s as [|c s IH]; simpl; by rewrite ?IH. Qed.

Lemma is_png_new_fname (user_id : string) (idx : nat) :
  is_png (new_fname user_id idx) = true.
Proof.
  unfold is_png, new_fname. rewrite !lower_append.
  do 3 apply endswith_append. apply endswith_refl.
Qed.

(** *** What [os.path.isfile] and [os.path.exists] look at *)

Lemma isfile_lookup (d : gmap string dirent) (f : string) :
  Os.isfile d f = true -> exists e, d !! f = Some e.
Proof. unfold Os.isfile. destruct (d !! f); [eauto|done]. Qed.

Lemma isfile_exists (d : gmap string dirent) (f : string) :
  Os.isfile d f = true -> Os.exists_ d f = true.
Proof. unfold Os.isfile, Os.exists_. by destruct (d !! f). Qed.

Lemma isfile_ext (d d' : gmap string dirent) (f : string) :
  d' !! f = d !! f -> Os.isfile d' f = Os.isfile d f.
Proof. unfold Os.isfile. by intros ->. Qed.

(** *** The number of images of a folder *)

Lemma png_files_entries (d : gmap string dirent) (l : list (string * dirent)) :
  (forall f e, (f, e) ∈ l -> d !! f = Some e) ->
  png_files d (map fst l) = map fst (List.filter is_png_entry l).
Proof.
  induction l as [|[f e] l IH]; intros Hl; [done|].
  cbn [map List.filter png_files fst]. unfold png_files in IH.
  rewrite IH by (intros; apply Hl; by right).
  unfold Os.isfile, is_png_entry, is_png. rewrite (Hl f e) by left.
  destruct e as [[] ?]; simpl; [|done].
  by destruct (PyStr.endswith _ _).
Qed.

Lemma png_count_entries (d : gmap string dirent) :
  png_count d = length (List.filter is_png_entry (map_to_list d)).
Proof.
  unfold png_count, Os.listdir.
  rewrite png_files_entries, length_map; [done|].
  intros f e. apply elem_of_map_to_list.
Qed.

Lemma png_count_rename (d : gmap string dirent) (old new : string) (e : dirent) :
  d !! old = Some e -> d !! new = None ->
  is_png old = true -> is_png new = true ->
  png_count (<[new := e]> (delete old d)) = png_count d.
Proof.
  intros Hold Hnew Hpo Hpn. rewrite !png_count_entries.
  assert (H1 : map_to_list (<[new := e]> (delete old d))
               ≡ₚ (new, e) :: map_to_list (delete old d)).
  { apply map_to_list_insert. rewrite lookup_delete_None. auto. }
  assert (H2 : map_to_list d ≡ₚ (old, e) :: map_to_list (delete old d)).
  { symmetry. by apply map_to_list_delete. }
  rewrite (Permutation_length (filter_perm is_png_entry _ _ H1)).
  rewrite (Permutation_length (filter_perm is_png_entry _ _ H2)).
  assert (Hq : is_png_entry (new, e) = is_png_entry (old, e)).
  { unfold is_png_entry. cbn [fst snd]. by rewrite Hpo, Hpn. }
  cbn [List.filter]. rewrite Hq. by destruct (is_png_entry (old, e)).
Qed.

(** *** Messages only accumulate *)

#[local] Instance log_extends_refl : Reflexive log_extends.
Proof. intros st. exists []. by rewrite app_nil_r. Qed.
#[local] Instance log_extends_trans : Transitive log_extends.
Proof.
  intros a b c [l1 H1] [l2 H2]. exists (l1 ++ l2).
  by rewrite H2, H1, app_assoc.
Qed.

Lemma rename_step_log (user_id : string) (st : loop_state) (it : nat * string) :
  log_extends st (rename_step user_id st it).
Proof.
  destruct it as [idx old].
  destruct (rename_step_cases user_id st idx old)
    as [(_ & _ & ->)|[(_ & ->)|[(_ & _ & _ & ->)|(_ & _ & e & _ & ->)]]];
    by eexists.
Qed.

Lemma rename_steps_log (user_id : string) (its : list (nat * string))
    (st : loop_state) :
  log_extends st (fold_left (rename_step user_id) its st).
Proof.
  apply (fold_left_preserves (rename_step user_id) log_extends
           (rename_step_log user_id)).
Qed.

Lemma no_collision_before (st st' : loop_state) :
  log_extends st st' -> no_collision (ls_log st') -> no_collision (ls_log st).
Proof.
  intros [l ->]. unfold no_collision. rewrite Forall_app. tauto.
Qed.

Lemma enumerate_cons {A} (start : nat) (x : A) (l : list A) :
  enumerate start (x :: l) = (start, x) :: enumerate (S start) l.
Proof. reflexivity. Qed.

(** *** The loop only removes the names it goes through *)

Lemma rename_steps_keep (user_id : string) (x : string) (files : list string) :
  forall start st,
    x ∉ files ->
    Os.exists_ (ls_dir st) x = true ->
    Os.exists_ (ls_dir (fold_left (rename_step user_id) (enumerate start files) st)) x
    = true.
Proof.
  induction files as [|f files IH]; intros start st Hx Hex; [done|].
  rewrite enumerate_cons. cbn [fold_left].
  apply not_elem_of_cons in Hx as [Hxf Hx]. apply IH; [done|].
  destruct (rename_step_cases user_id st start f)
    as [(_ & _ & ->)|[(_ & ->)|[(_ & _ & _ & ->)|(_ & _ & e & _ & ->)]]];
    try done.
  cbn [ls_dir]. unfold Os.exists_ in *.
  destruct (decide (new_fname user_id start = x)) as [<-|Hne].
  - by rewrite lookup_insert_eq.
  - by rewrite lookup_insert_ne, lookup_delete_ne.
Qed.

(** *** A pass without collision leaves every target name in place *)

Lemma rename_steps_fill (user_id : string) (files : list string) :
  forall start st,
    NoDup files ->
    (forall f, f ∈ files -> Os.isfile (ls_dir st) f = true /\ is_png f = true) ->
    let st' := fold_left (rename_step user_id) (enumerate start files) st in
    no_collision (ls_log st') ->
    (forall k, (k < length files)%nat ->
               Os.exists_ (ls_dir st') (new_fname user_id (start + k)) = true)
    /\ png_count (ls_dir st') = png_count (ls_dir st).
Proof.
  induction files as [|f files IH]; intros start st Hnd Hfiles; cbn zeta.
  { intros _. split; [|done]. intros k Hk. simpl in Hk. lia. }
  rewrite enumerate_cons. cbn [fold_left].
  set (st1 := rename_step user_id st (start, f)).
  intros Hnc.
  apply NoDup_cons in Hnd as [Hf Hnd].
  destruct (Hfiles f) as [Hff Hfp]; [left|].
  assert (Hnc1 : no_collision (ls_log st1))
    by (eapply no_collision_before; [apply rename_steps_log|exact Hnc]).
  assert (Hstep :
    Os.exists_ (ls_dir st1) (new_fname user_id start) = true
    /\ (new_fname user_id start ∉ files)
    /\ png_count (ls_dir st1) = png_count (ls_dir st)
    /\ (forall f', f' ∈ files -> ls_dir st1 !! f' = ls_dir st !! f')).
  { unfold st1 in *. clear st1 Hnc.
    destruct (rename_step_cases user_id st start f)
      as [(_ & _ & Hs)|[(Hsame & Hs)|[(_ & _ & Hnone & _)|(Hne & Hnew & e & Hold & Hs)]]].
    - rewrite Hs in Hnc1. cbn in Hnc1.
      apply Forall_app in Hnc1 as [_ Hbad].
      inversion Hbad as [|? ? Hb _]. discriminate Hb.
    - rewrite Hs. cbn [say ls_dir]. rewrite <- Hsame.
      split_and!; [by apply isfile_exists|done|done|done].
    - apply isfile_lookup in Hff as [e He]. congruence.
    - rewrite Hs. cbn [ls_dir].
      assert (Hnf : new_fname user_id start ∉ files).
      { intros Hin. destruct (Hfiles _ (list_elem_of_further _ _ _ Hin)) as [Hi _].
        apply isfile_lookup in Hi as [? ?]. congruence. }
      split_and!.
      + unfold Os.exists_. by rewrite lookup_insert_eq.
      + done.
      + apply png_count_rename; [done|done|done|apply is_png_new_fname].
      + intros f' Hf'.
        rewrite lookup_insert_ne by (intros Heq; apply Hnf; by rewrite Heq).
        by rewrite lookup_delete_ne by (intros Heq; apply Hf; by rewrite Heq). }
  destruct Hstep as (Hex1 & Hnf & Hcount & Hsame).
  destruct (IH (S start) st1 Hnd) as [Htargets Hc]; [|exact Hnc|].
  { intros f' Hf'. destruct (Hfiles f') as [Hi Hp]; [by right|].
    split; [|done]. rewrite <- Hi. apply isfile_ext. by apply Hsame. }
  split; [|by rewrite Hc].
  intros [|k] Hk.
  - rewrite Nat.add_0_r. by apply rename_steps_keep.
  - replace (start + S k)%nat with (S start + k)%nat by lia.
    apply Htargets. simpl in Hk. lia.
Qed.

(** *** When every target name is taken, the loop renames nothing *)


(** *** One folder *)

Lemma rename_folder_log (entry user_id : string) (d : gmap string dirent)
    (log : list event) :
  exists l, ls_log (rename_folder entry user_id d log) = log ++ l.
Proof.
  unfold rename_folder, rename_listing. destruct (png_files d (Os.listdir d)) as [|f fs].
  - by eexists.
  - set (st0 := {| ls_dir := d; ls_renommes := 0; ls_log := _ |}).
    destruct (rename_steps_log user_id (enumerate 1 (py_sorted (f :: fs))) st0)
      as [l Hl].
    unfold rename_loop. rewrite Hl. cbn [st0 ls_log].
    rewrite <- app_assoc. by eexists.
Qed.


(** *** The whole tree *)

#[local] Instance run_log_extends_refl : Reflexive run_log_extends.
Proof. intros st. exists []. by rewrite app_nil_r. Qed.
#[local] Instance run_log_extends_trans : Transitive run_log_extends.
Proof.
  intros a b c [l1 H1] [l2 H2]. exists (l1 ++ l2).
  by rewrite H2, H1, app_assoc.
Qed.

Lemma process_entry_log (df : list row) (st : run_state) (entry : string) :
  run_log_extends st (process_entry df st entry).
Proof.
  destruct (process_entry_cases df st entry)
    as [(_ & _ & Hl & _)|(d & uid & log & c & _ & _ & [l ->] & _ & ->)];
    [done|].
  destruct (rename_folder_log entry uid d (st_log st ++ l)) as [l' Hl'].
  exists (l ++ l'). cbn [st_log]. by rewrite Hl', app_assoc.
Qed.

Lemma process_entry_other (df : list row) (st : run_state) (entry e0 : string) :
  e0 <> entry ->
  st_tree (process_entry df st entry) !! e0 = st_tree st !! e0.
Proof.
  intros Hne.
  destruct (process_entry_cases df st entry)
    as [(-> & _)|(d & uid & log & c & _ & _ & _ & _ & ->)]; [done|].
  cbn [st_tree]. by rewrite lookup_insert_ne.
Qed.








(** * The parser, the loader and the run as a whole *)

(** ** Folder names written from a date and a time *)

Ltac digit_bound :=
  first [ apply Nat.Div0.div_lt_upper_bound; lia
        | apply Nat.mod_upper_bound; lia ].

(** An ASCII digit is one byte, a decimal digit and a member of [[0-9]]. *)
Lemma decode_digit (k : nat) (s : string) :
  (k < 10)%nat ->
  Unicode.decode (String (digit k) s) = Some (N_of_ascii (digit k), s).
Proof. intros Hk. do 10 (destruct k as [|k]; [reflexivity|]). lia. Qed.

Lemma dig_digit (k : nat) :
  (k < 10)%nat -> Strptime.dig (N_of_ascii (digit k)) = true.
Proof. intros Hk. do 10 (destruct k as [|k]; [reflexivity|]). lia. Qed.

Lemma rng09_digit (k : nat) :
  (k < 10)%nat -> Strptime.rng "0" "9" (N_of_ascii (digit k)) = true.
Proof. intros Hk. do 10 (destruct k as [|k]; [reflexivity|]). lia. Qed.

Lemma int_of_digit (k : nat) (acc : Z) (text : list N) :
  (k < 10)%nat ->
  Strptime.int_of acc (N_of_ascii (digit k) :: text)
  = Strptime.int_of (acc * 10 + Z.of_nat k) text.
Proof.
  intros Hk. do 10 (destruct k as [|k]; [reflexivity|]). lia.
Qed.

Lemma int_of_pad2 (v : nat) :
  (v < 100)%nat -> Strptime.int_of 0 (chars (pad2 v)) = Z.of_nat v.
Proof.
  intros Hv. unfold pad2, chars. cbn [list_ascii_of_string map].
  rewrite !int_of_digit by digit_bound.
  cbn [Strptime.int_of].
  pose proof (Nat.div_mod_eq v 10). lia.
Qed.

Lemma int_of_pad4 (y : nat) :
  Z.of_nat y < 10000 -> Strptime.int_of 0 (chars (pad4 y)) = Z.of_nat y.
Proof.
  intros Hy. unfold pad4, chars. cbn [list_ascii_of_string map].
  rewrite !int_of_digit by digit_bound.
  cbn [Strptime.int_of].
  pose proof (Nat.div_mod_eq y 10) as H1.
  pose proof (Nat.div_mod_eq (y / 10) 10) as H2.
  pose proof (Nat.div_mod_eq (y / 100) 10) as H3.
  assert (y / 10 / 10 = y / 100)%nat as E1 by (rewrite Nat.Div0.div_div; reflexivity).
  assert (y / 100 / 10 = y / 1000)%nat as E2 by (rewrite Nat.Div0.div_div; reflexivity).
  assert (y / 1000 < 10)%nat by (apply Nat.Div0.div_lt_upper_bound; lia).
  assert (y / 1000 mod 10 = y / 1000)%nat as E3 by (apply Nat.mod_small; lia).
  rewrite E1 in H2. rewrite E2 in H3. lia.
Qed.

Lemma first_some_hit {A B} (f : A -> option B) (l1 : list A) (a : A)
    (l2 : list A) (b : B) :
  Forall (fun x => f x = None) l1 -> f a = Some b ->
  Strptime.first_some f (l1 ++ a :: l2) = Some b.
Proof.
  intros Hl1 Ha. induction Hl1 as [|x l1 Hx _ IH]; simpl.
  - by rewrite Ha.
  - by rewrite Hx.
Qed.

Lemma match_alt_cons (p : Strptime.cclass) (a : list Strptime.cclass)
    (k : nat) (s : string) :
  (k < 10)%nat ->
  p (N_of_ascii (digit k)) = true ->
  Strptime.match_alt (p :: a) (String (digit k) s)
  = match Strptime.match_alt a s with
    | Some (m, r) => Some (N_of_ascii (digit k) :: m, r)
    | None => None
    end.
Proof.
  intros Hk H. cbn [Strptime.match_alt]. by rewrite decode_digit, H.
Qed.

Ltac digit_class :=
  first [ digit_bound
        | apply dig_digit; digit_bound
        | apply rng09_digit; digit_bound ].

(** A year on four digits is read by [%Y]. *)
Lemma match_year (fmax : nat) (y : nat) (its : list Strptime.item)
    (rest : string) (acc : Strptime.fields) (r : Strptime.fields * string) :
  Z.of_nat y < 10000 ->
  Strptime.match_items fmax its rest
    (Strptime.set_field Strptime.DY (chars (pad4 y)) acc)
  = Some r ->
  Strptime.match_items fmax (Strptime.Dir Strptime.DY :: its)
    (String.append (pad4 y) rest) acc = Some r.
Proof.
  intros Hy Hk. cbn [Strptime.match_items Strptime.alternatives].
  apply (first_some_hit _ [] _ []); [constructor|]. cbv beta.
  assert (Hm : Strptime.match_alt
                 [Strptime.dig; Strptime.dig; Strptime.dig; Strptime.dig]
                 (String.append (pad4 y) rest) = Some (chars (pad4 y), rest)).
  { cbv [pad4 String.append].
    rewrite !match_alt_cons by digit_class. reflexivity. }
  rewrite Hm. exact Hk.
Qed.

(** A value on two digits, in the range of its directive, is read by the
    directive. *)
Lemma match_two_digits (fmax : nat) (d : Strptime.directive) (v : nat)
    (its : list Strptime.item) (rest : string) (acc : Strptime.fields)
    (r : Strptime.fields * string) :
  in_range d v = true ->
  Strptime.match_items fmax its rest (Strptime.set_field d (chars (pad2 v)) acc)
  = Some r ->
  Strptime.match_items fmax (Strptime.Dir d :: its)
    (String.append (pad2 v) rest) acc = Some r.
Proof.
  intros Hv Hk. cbn [Strptime.match_items].
  destruct d; try discriminate Hv; cbn [in_range] in Hv;
    cbn [Strptime.alternatives].
  all: do 62 (destruct v as [|v];
              [ try discriminate Hv;
                first
                  [ apply (first_some_hit _ [] _ _ r); [constructor|exact Hk]
                  | apply (first_some_hit _ [_] _ _ r);
                    [repeat constructor|exact Hk]
                  | apply (first_some_hit _ [_; _] _ _ r);
                    [repeat constructor|exact Hk] ]
              | ]).
  all: discriminate Hv.
Qed.

Lemma in_range_lt_100 (d : Strptime.directive) (v : nat) :
  in_range d v = true -> (v < 100)%nat.
Proof.
  destruct d; simpl; try discriminate;
    rewrite ?andb_true_iff, !Nat.leb_le; lia.
Qed.

Lemma slice_from_append (p r : string) :
  PyStr.slice_from (String.length p) (String.append p r) = r.
Proof.
  induction p as [|c p IH]; [apply slice_from_0|].
  change (String.length (String c p)) with (S (String.length p)).
  change (String.append (String c p) r) with (String c (String.append p r)).
  by rewrite slice_from_cons.
Qed.

Lemma startswith_append (p r : string) :
  PyStr.startswith (String.append p r) p = true.
Proof.
  unfold PyStr.startswith. induction p as [|c p IH].
  - by destruct r.
  - change (String.append (String c p) r) with (String c (String.append p r)).
    cbn [String.prefix]. rewrite IH. by destruct (ascii_dec c c).
Qed.

Lemma match_dash (fmax : nat) (its : list Strptime.item) (rest : string)
    (acc : Strptime.fields) :
  Strptime.match_items fmax (Strptime.Lit "-" :: its) (String "-" rest) acc
  = Strptime.match_items fmax its rest acc.
Proof. reflexivity. Qed.

(** What the parser makes of a name written on four and two digits:
    the fields go to the constructor of [datetime], which decides. *)
Lemma parse_folder_name (y m d H M S : nat) :
  Z.of_nat y < 10000 ->
  in_range Strptime.Dm m = true -> in_range Strptime.Dd d = true ->
  in_range Strptime.DH H = true -> in_range Strptime.DM M = true ->
  in_range Strptime.DS S = true ->
  parse_datetime_from_foldername (folder_name y m d H M S)
  = Strptime.build (fields_of y m d H M S).
Proof.
  intros Hy Hm Hd HH HM HS.
  unfold parse_datetime_from_foldername, folder_name, prefix.
  rewrite startswith_append. cbn [negb].
  rewrite (slice_from_append "taxan_").
  unfold datetime_strptime, Strptime.strptime, Strptime.read.
  replace (Strptime.parse_format "%Y-%m-%d-%H-%M-%S")
    with (Some [Strptime.Dir Strptime.DY; Strptime.Lit "-";
                Strptime.Dir Strptime.Dm; Strptime.Lit "-";
                Strptime.Dir Strptime.Dd; Strptime.Lit "-";
                Strptime.Dir Strptime.DH; Strptime.Lit "-";
                Strptime.Dir Strptime.DM; Strptime.Lit "-";
                Strptime.Dir Strptime.DS]) by (vm_compute; reflexivity).
  set (rest := String "-" _).
  assert (Hmatch :
    Strptime.match_items 6
      [Strptime.Dir Strptime.DY; Strptime.Lit "-";
       Strptime.Dir Strptime.Dm; Strptime.Lit "-";
       Strptime.Dir Strptime.Dd; Strptime.Lit "-";
       Strptime.Dir Strptime.DH; Strptime.Lit "-";
       Strptime.Dir Strptime.DM; Strptime.Lit "-";
       Strptime.Dir Strptime.DS]
      (String.append (pad4 y) rest) Strptime.default_fields
    = Some (fields_of y m d H M S, EmptyString)); [|by rewrite Hmatch].
  unfold rest. clear rest.
  apply match_year; [exact Hy|].
  rewrite match_dash. apply match_two_digits; [exact Hm|].
  rewrite match_dash. apply match_two_digits; [exact Hd|].
  rewrite match_dash. apply match_two_digits; [exact HH|].
  rewrite match_dash. apply match_two_digits; [exact HM|].
  rewrite match_dash.
  change (pad2 S) with (String.append (pad2 S) EmptyString) at 1.
  apply match_two_digits; [exact HS|].
  cbn [Strptime.match_items]. f_equal. f_equal.
  unfold Strptime.set_field, fields_of. cbv zeta.
  rewrite (int_of_pad4 y Hy),
    (int_of_pad2 m (in_range_lt_100 _ _ Hm)),
    (int_of_pad2 d (in_range_lt_100 _ _ Hd)),
    (int_of_pad2 H (in_range_lt_100 _ _ HH)),
    (int_of_pad2 M (in_range_lt_100 _ _ HM)),
    (int_of_pad2 S (in_range_lt_100 _ _ HS)).
  reflexivity.
Qed.

Lemma build_valid (y m d H M S : nat) :
  valid_datetime y m d H M S ->
  Strptime.build (fields_of y m d H M S) = Some (timestamp y m d H M S).
Proof.
  intros (Hy & Hm & Hd1 & Hd2 & HH & HM & HS).
  unfold Strptime.build, fields_of, timestamp.
  cbn [Strptime.f_year Strptime.f_month Strptime.f_day Strptime.f_hour
       Strptime.f_minute Strptime.f_second Strptime.f_nanos].
  replace (_ && _) with true; [cbv zeta; f_equal; lia|].
  symmetry. rewrite !andb_true_iff, !Z.leb_le. lia.
Qed.

Lemma build_invalid (y m d H M S : nat) :
  ~ valid_datetime y m d H M S ->
  Strptime.build (fields_of y m d H M S) = None.
Proof.
  intros Hbad. unfold Strptime.build, fields_of.
  cbn [Strptime.f_year Strptime.f_month Strptime.f_day Strptime.f_hour
       Strptime.f_minute Strptime.f_second Strptime.f_nanos].
  destruct (_ && _) eqn:Hc; [|done].
  exfalso. apply Hbad. unfold valid_datetime.
  rewrite !andb_true_iff, !Z.leb_le in Hc. lia.
Qed.

Lemma valid_in_ranges (y m d H M S : nat) :
  valid_datetime y m d H M S ->
  Z.of_nat y < 10000
  /\ in_range Strptime.Dm m = true /\ in_range Strptime.Dd d = true
  /\ in_range Strptime.DH H = true /\ in_range Strptime.DM M = true
  /\ in_range Strptime.DS S = true.
Proof.
  intros (Hy & Hm & Hd1 & Hd2 & HH & HM & HS). cbn [in_range].
  assert (Calendar.days_in_month (Z.of_nat y) (Z.of_nat m) <= 31).
  { unfold Calendar.days_in_month.
    repeat match goal with |- context [if ?b then _ else _] => destruct b end; lia. }
  rewrite !andb_true_iff, !Nat.leb_le. lia.
Qed.

(** Extra X1.  Reading back the name written from a date of the calendar
    and a time of the day gives that very instant, to the second: the
    example of the docstring, for every valid date and time. *)
Theorem parse_folder_name_round_trip (y m d H M S : nat) :
  valid_datetime y m d H M S ->
  parse_datetime_from_foldername (folder_name y m d H M S)
  = Some (timestamp y m d H M S).
Proof.
  intros Hv. destruct (valid_in_ranges _ _ _ _ _ _ Hv) as (? & ? & ? & ? & ? & ?).
  rewrite parse_folder_name by done. by apply build_valid.
Qed.

Lemma parse_folder_name_round_trip_witness :
  parse_datetime_from_foldername (folder_name 2025 6 3 14 14 57)
  = Some (timestamp 2025 6 3 14 14 57).
Proof.
  apply parse_folder_name_round_trip.
  unfold valid_datetime. repeat split; try lia; vm_compute; discriminate.
Defined.

(** Extra X2.  A name whose fields have the right shape and do not make a
    date of the calendar and a time of the day (30 February, 29 February
    of a common year, second 60 or 61, year 0000) raises [ValueError]:
    the parser returns nothing. *)
Theorem parse_rejects_impossible_date (y m d H M S : nat) :
  Z.of_nat y < 10000 ->
  in_range Strptime.Dm m = true -> in_range Strptime.Dd d = true ->
  in_range Strptime.DH H = true -> in_range Strptime.DM M = true ->
  in_range Strptime.DS S = true ->
  ~ valid_datetime y m d H M S ->
  parse_datetime_from_foldername (folder_name y m d H M S) = None.
Proof.
  intros Hy Hm Hd HH HM HS Hbad.
  rewrite parse_folder_name by done. by apply build_invalid.
Qed.

Lemma parse_rejects_impossible_date_witness :
  parse_datetime_from_foldername (folder_name 2025 2 29 14 14 57) = None.
Proof.
  apply parse_rejects_impossible_date; try reflexivity; try lia.
  intros (_ & _ & _ & Hd & _). vm_compute in Hd. apply Hd. reflexivity.
Defined.

Lemma first_some_Some {A B} (f : A -> option B) (l : list A) (b : B) :
  Strptime.first_some f l = Some b -> exists a, a ∈ l /\ f a = Some b.
Proof.
  induction l as [|x l IH]; simpl; [done|].
  destruct (f x) as [y|] eqn:Hx.
  - intros [= <-]. exists x. split; [left|done].
  - intros (a & Ha & Hfa)%IH. exists a. split; [by right|done].
Qed.

(** A format without [%f] leaves the fraction at zero. *)
Lemma match_items_nanos (fmax : nat) (its : list Strptime.item) :
  Forall (fun it => it <> Strptime.Dir Strptime.Df) its ->
  forall s acc f r,
    Strptime.match_items fmax its s acc = Some (f, r) ->
    Strptime.f_nanos f = Strptime.f_nanos acc.
Proof.
  induction 1 as [|it its Hit _ IH]; intros s acc f r; cbn [Strptime.match_items].
  - by intros [= <- _].
  - destruct it as [d|a].
    + intros (alt & _ & Halt)%first_some_Some.
      destruct (Strptime.match_alt alt s) as [[text rest]|]; [|done].
      apply IH in Halt. rewrite Halt. by destruct d.
    + destruct s as [|c s]; [done|].
      destruct (Strptime.lit_matches a c); [apply IH|done].
Qed.

(** Extra X3.  Whatever the name, a timestamp the parser returns is a
    whole number of seconds, and the name starts with [taxan_]. *)
Theorem parse_gives_whole_seconds (foldername : string) (t : Z) :
  parse_datetime_from_foldername foldername = Some t ->
  PyStr.startswith foldername "taxan_" = true
  /\ t mod 1000000000 = 0.
Proof.
  intros Hp. split; [by eapply parse_needs_prefix|].
  unfold parse_datetime_from_foldername in Hp.
  destruct (negb _); [done|].
  unfold datetime_strptime, Strptime.strptime, Strptime.read in Hp.
  destruct (Strptime.parse_format "%Y-%m-%d-%H-%M-%S") as [its|] eqn:Hfmt; [|done].
  assert (Hits : Forall (fun it => it <> Strptime.Dir Strptime.Df) its).
  { vm_compute in Hfmt. injection Hfmt as <-. repeat constructor; discriminate. }
  destruct (Strptime.match_items 6 its _ _) as [[f rr]|] eqn:Hm; [|done].
  destruct rr as [|c rr]; [|done].
  apply (match_items_nanos 6 its Hits) in Hm. cbn in Hm.
  unfold Strptime.build in Hp. destruct (_ && _); [|done].
  injection Hp as <-. rewrite Hm. cbv zeta.
  match goal with
  | |- (?a * 60 * 1000000000 + ?s * 1000000000 + 0) mod _ = 0 =>
      replace (a * 60 * 1000000000 + s * 1000000000 + 0)
        with ((a * 60 + s) * 1000000000) by lia
  end.
  apply Z.mod_mul. lia.
Qed.

Lemma parse_gives_whole_seconds_witness :
  PyStr.startswith "taxan_2025-6-3-4-5-7" "taxan_" = true
  /\ 1748923507000000000 mod 1000000000 = 0.
Proof.
  apply (parse_gives_whole_seconds "taxan_2025-6-3-4-5-7" 1748923507000000000).
  vm_compute. reflexivity.
Defined.

(** A value written without padding, in the range of its directive and
    followed by a dash or by nothing, is read by the directive. *)
Lemma match_unpadded (fmax : nat) (d : Strptime.directive) (v : nat)
    (its : list Strptime.item) (rest : string) (acc : Strptime.fields)
    (r : Strptime.fields * string) :
  in_range d v = true ->
  rest = EmptyString \/ (exists rest', rest = String "-" rest') ->
  Strptime.match_items fmax its rest (Strptime.set_field d (chars (unpadded v)) acc)
  = Some r ->
  Strptime.match_items fmax (Strptime.Dir d :: its)
    (String.append (unpadded v) rest) acc = Some r.
Proof.
  intros Hv Hrest Hk. unfold unpadded in *.
  destruct (v <? 10)%nat eqn:Hlt; [|by apply match_two_digits].
  apply Nat.ltb_lt in Hlt. cbn [Strptime.match_items].
  destruct d; try discriminate Hv; cbn [in_range] in Hv;
    cbn [Strptime.alternatives].
  all: destruct Hrest as [->|[rest' ->]].
  all: do 10 (destruct v as [|v];
              [ try discriminate Hv;
                first
                  [ apply (first_some_hit _ [_] _ _ r);
                    [repeat constructor|exact Hk]
                  | apply (first_some_hit _ [_; _] _ _ r);
                    [repeat constructor|exact Hk]
                  | apply (first_some_hit _ [_; _; _] _ _ r);
                    [repeat constructor|exact Hk] ]
              | ]).
  all: lia.
Qed.

Lemma int_of_unpadded (v : nat) :
  (v < 100)%nat -> Strptime.int_of 0 (chars (unpadded v)) = Z.of_nat v.
Proof.
  intros Hv. unfold unpadded. destruct (v <? 10)%nat eqn:Hlt.
  - apply Nat.ltb_lt in Hlt. unfold chars. cbn [list_ascii_of_string map].
    rewrite int_of_digit by done. cbn. lia.
  - by apply int_of_pad2.
Qed.

Lemma append_empty_r (s : string) : String.append s EmptyString = s.
Proof.
  induction s as [|c s IH]; [done|].
  change (String.append (String c s) EmptyString)
    with (String c (String.append s EmptyString)).
  by rewrite IH.
Qed.

Lemma parse_folder_name_unpadded (y m d H M S : nat) :
  Z.of_nat y < 10000 ->
  in_range Strptime.Dm m = true -> in_range Strptime.Dd d = true ->
  in_range Strptime.DH H = true -> in_range Strptime.DM M = true ->
  in_range Strptime.DS S = true ->
  parse_datetime_from_foldername (folder_name_unpadded y m d H M S)
  = Strptime.build (fields_of y m d H M S).
Proof.
  intros Hy Hm Hd HH HM HS.
  unfold parse_datetime_from_foldername, folder_name_unpadded, prefix.
  rewrite startswith_append. cbn [negb].
  rewrite (slice_from_append "taxan_").
  unfold datetime_strptime, Strptime.strptime, Strptime.read.
  replace (Strptime.parse_format "%Y-%m-%d-%H-%M-%S")
    with (Some [Strptime.Dir Strptime.DY; Strptime.Lit "-";
                Strptime.Dir Strptime.Dm; Strptime.Lit "-";
                Strptime.Dir Strptime.Dd; Strptime.Lit "-";
                Strptime.Dir Strptime.DH; Strptime.Lit "-";
                Strptime.Dir Strptime.DM; Strptime.Lit "-";
                Strptime.Dir Strptime.DS]) by (vm_compute; reflexivity).
  set (rest := String "-" _).
  assert (Hmatch :
    Strptime.match_items 6
      [Strptime.Dir Strptime.DY; Strptime.Lit "-";
       Strptime.Dir Strptime.Dm; Strptime.Lit "-";
       Strptime.Dir Strptime.Dd; Strptime.Lit "-";
       Strptime.Dir Strptime.DH; Strptime.Lit "-";
       Strptime.Dir Strptime.DM; Strptime.Lit "-";
       Strptime.Dir Strptime.DS]
      (String.append (pad4 y) rest) Strptime.default_fields
    = Some (fields_of y m d H M S, EmptyString)); [|by rewrite Hmatch].
  unfold rest. clear rest.
  apply match_year; [exact Hy|].
  rewrite match_dash. apply match_unpadded; [exact Hm|right; by eexists|].
  rewrite match_dash. apply match_unpadded; [exact Hd|right; by eexists|].
  rewrite match_dash. apply match_unpadded; [exact HH|right; by eexists|].
  rewrite match_dash. apply match_unpadded; [exact HM|right; by eexists|].
  rewrite match_dash.
  rewrite <- (append_empty_r (unpadded S)) at 1.
  apply match_unpadded; [exact HS|by left|].
  cbn [Strptime.match_items]. f_equal. f_equal.
  unfold Strptime.set_field, fields_of. cbv zeta.
  rewrite (int_of_pad4 y Hy),
    (int_of_unpadded m (in_range_lt_100 _ _ Hm)),
    (int_of_unpadded d (in_range_lt_100 _ _ Hd)),
    (int_of_unpadded H (in_range_lt_100 _ _ HH)),
    (int_of_unpadded M (in_range_lt_100 _ _ HM)),
    (int_of_unpadded S (in_range_lt_100 _ _ HS)).
  reflexivity.
Qed.

(** Extra X4.  The two-digit fields need no padding: a name with months,
    days, hours, minutes or seconds on one digit is read as the name on
    two digits is. *)
Theorem parse_accepts_unpadded_fields (y m d H M S : nat) :
  Z.of_nat y < 10000 ->
  in_range Strptime.Dm m = true -> in_range Strptime.Dd d = true ->
  in_range Strptime.DH H = true -> in_range Strptime.DM M = true ->
  in_range Strptime.DS S = true ->
  parse_datetime_from_foldername (folder_name_unpadded y m d H M S)
  = parse_datetime_from_foldername (folder_name y m d H M S).
Proof.
  intros. by rewrite parse_folder_name_unpadded, parse_folder_name.
Qed.

Lemma parse_accepts_unpadded_fields_witness :
  parse_datetime_from_foldername (folder_name_unpadded 2025 6 3 4 5 7)
  = parse_datetime_from_foldername (folder_name 2025 6 3 4 5 7).
Proof.
  apply parse_accepts_unpadded_fields; reflexivity.
Defined.

(** ** The loaded registry keeps the order of the sheet *)

Lemma frame_indexes (sh : sheet) :
  map index (frame sh) = seq 0 (length (lignes sh)).
Proof.
  apply list_eq. intros i.
  change (map index (frame sh)) with (index <$> frame sh).
  rewrite list_lookup_fmap. unfold frame. rewrite list_lookup_imap.
  destruct (lignes sh !! i) as [[[id a] b]|] eqn:Hi; simpl.
  - symmetry. apply lookup_seq_lt. by eapply lookup_lt_Some.
  - symmetry. apply lookup_seq_ge. by apply lookup_ge_None.
Qed.

Lemma StronglySorted_map_filter {A B} (R : relation B) (f : A -> B)
    (p : A -> bool) (l : list A) :
  StronglySorted R (map f l) -> StronglySorted R (map f (List.filter p l)).
Proof.
  induction l as [|x l IH]; simpl; [done|].
  intros Hs. apply StronglySorted_inv in Hs as [Hl Hx].
  destruct (p x); simpl; [|by apply IH].
  constructor; [by apply IH|].
  rewrite Forall_forall in Hx |- *. intros y Hy. apply Hx.
  apply list_elem_of_In, in_map_iff in Hy as (z & <- & Hz).
  apply list_elem_of_In, in_map_iff. exists z. split; [done|].
  apply filter_In in Hz. tauto.
Qed.

Lemma StronglySorted_seq (j n : nat) : StronglySorted lt (seq j n).
Proof.
  revert j. induction n as [|n IH]; intros j; simpl; constructor; [apply IH|].
  apply Forall_forall. intros x Hx%list_elem_of_In%in_seq. lia.
Qed.

(** Extra X5.  The rows of the loaded registry come in the order of the
    sheet, each under the label of its line: the labels of the frame
    strictly increase, and no row is added. *)
Theorem load_registry_keeps_sheet_order (sh : sheet) :
  StronglySorted lt (map index (load_registry (frame sh)))
  /\ (length (load_registry (frame sh)) <= length (lignes sh))%nat
  /\ (forall r, r ∈ load_registry (frame sh) ->
        exists id a b, lignes sh !! index r = Some (id, a, b) /\ ID r = id).
Proof.
  split_and!.
  - rewrite load_registry_spec. apply StronglySorted_map_filter.
    rewrite map_map. change (fun x => index (coerce_micro x)) with index.
    rewrite frame_indexes. apply StronglySorted_seq.
  - rewrite load_registry_spec.
    etrans; [apply List.filter_length_le|].
    rewrite length_map. unfold frame. by rewrite length_imap.
  - intros r (i & id & a & b & ta & tb & Hi & _ & _ & ->)%load_registry_elem.
    by exists id, a, b.
Qed.

(** ** The loader of the older copy *)






(** ** Folders that match no row *)

Lemma filter_none {A} (p : A -> bool) (l : list A) :
  (forall x, x ∈ l -> p x = false) -> List.filter p l = [].
Proof.
  induction l as [|x l IH]; intros H; simpl; [done|].
  rewrite (H x) by left. apply IH. intros y Hy. apply H. by right.
Qed.

(** Extra X7.  A capture folder whose timestamp lies in no interval of
    the registry is counted as considered and as unmatched, once each;
    nothing is renamed in it, no conflict is counted, and the two messages
    of lines 189 and 201 are printed. *)
Theorem folder_outside_every_interval
    (df : list row) (st : run_state) (entry : string)
    (d : gmap string dirent) (t : Z) :
  st_tree st !! entry = Some (NDir d) ->
  parse_datetime_from_foldername entry = Some t ->
  (forall r, r ∈ df -> in_interval t r = false) ->
  process_entry df st entry
  = {| st_tree := st_tree st;
       st_counters :=
         {| total_dossiers := S (total_dossiers (st_counters st));
            total_png_renommes := total_png_renommes (st_counters st);
            total_non_trouves := S (total_non_trouves (st_counters st));
            total_conflits := total_conflits (st_counters st) |};
       st_log := (st_log st ++ [EvTraitement entry t])
                   ++ [EvAucunUtilisateur entry] |}.
Proof.
  intros Hd Hparse Hnone. unfold process_entry.
  rewrite Hd, (parse_needs_prefix _ _ Hparse), Hparse. cbn [negb].
  by rewrite candidats_filter, (filter_none _ _ Hnone).
Qed.

Lemma folder_outside_every_interval_witness :
  total_non_trouves
    (st_counters (process_entry registre_42
                    {| st_tree := {[ "taxan_2025-06-03-16-00-00" := NDir dossier_ab ]};
                       st_counters := zero_counters; st_log := [] |}
                    "taxan_2025-06-03-16-00-00")) = 1%nat.
Proof.
  rewrite (folder_outside_every_interval registre_42 _
             "taxan_2025-06-03-16-00-00" dossier_ab 1748966400000000000).
  - reflexivity.
  - vm_compute. reflexivity.
  - vm_compute. reflexivity.
  - intros r Hr. apply list_elem_of_singleton in Hr as ->. vm_compute. reflexivity.
Defined.

(** ** The counters of a run *)

Lemma fold_left_invariant {S I} (step : S -> I -> S) (P : S -> Prop) :
  (forall s i, P s -> P (step s i)) ->
  forall l s, P s -> P (fold_left step l s).
Proof.
  intros Hstep l. induction l as [|i l IH]; intros s Hs; simpl; [done|].
  apply IH, Hstep, Hs.
Qed.

Lemma nb_app (p : event -> bool) (l l' : list event) :
  nb p (l ++ l') = (nb p l + nb p l')%nat.
Proof. unfold nb. by rewrite List.filter_app, length_app. Qed.

Lemma nb_none (p : event -> bool) (l : list event) :
  Forall (fun e => p e = false) l -> nb p l = 0%nat.
Proof.
  intros H. unfold nb. rewrite filter_none; [done|].
  intros e He. rewrite Forall_forall in H. by apply H.
Qed.

(** The inner loop prints file messages only, one [EvRenomme] per
    rename. *)
Lemma rename_step_messages (user_id : string) (st : loop_state)
    (it : nat * string) :
  exists e,
    ls_log (rename_step user_id st it) = ls_log st ++ [e]
    /\ is_file_event e = true
    /\ ls_renommes (rename_step user_id st it)
       = (ls_renommes st + nb is_renomme [e])%nat.
Proof.
  destruct it as [idx old].
  destruct (rename_step_cases user_id st idx old)
    as [(_ & _ & ->)|[(_ & ->)|[(_ & _ & _ & ->)|(_ & _ & e & _ & ->)]]];
    eexists; (split; [reflexivity|]); (split; [reflexivity|]);
    cbn; lia.
Qed.

Lemma rename_steps_messages (user_id : string) (its : list (nat * string)) :
  forall st,
    exists l,
      ls_log (fold_left (rename_step user_id) its st) = ls_log st ++ l
      /\ Forall (fun e => is_file_event e = true) l
      /\ ls_renommes (fold_left (rename_step user_id) its st)
         = (ls_renommes st + nb is_renomme l)%nat.
Proof.
  induction its as [|it its IH]; intros st; cbn [fold_left].
  - exists []. rewrite app_nil_r. split_and!; [done|constructor|cbn; lia].
  - destruct (rename_step_messages user_id st it) as (e & He & Hf & Hn).
    destruct (IH (rename_step user_id st it)) as (l & Hl & Hfl & Hnl).
    exists (e :: l). split_and!.
    + rewrite Hl, He, <- app_assoc. done.
    + by constructor.
    + rewrite Hnl, Hn. change (e :: l) with ([e] ++ l). rewrite nb_app. lia.
Qed.

Lemma rename_folder_messages (entry user_id : string) (d : gmap string dirent)
    (log : list event) :
  exists l,
    ls_log (rename_folder entry user_id d log) = log ++ l
    /\ Forall (fun e => is_file_event e = true) l
    /\ ls_renommes (rename_folder entry user_id d log) = nb is_renomme l.
Proof.
  unfold rename_folder, rename_listing. destruct (png_files d (Os.listdir d)) as [|f fs].
  - eexists. split_and!; [reflexivity|by repeat constructor|reflexivity].
  - set (files := py_sorted (f :: fs)).
    set (st0 := {| ls_dir := d; ls_renommes := 0; ls_log := _ |}).
    destruct (rename_steps_messages user_id (enumerate 1 files) st0)
      as (l & Hl & Hfl & Hnl).
    exists (EvPngTrouves files :: l). unfold rename_loop. split_and!.
    + rewrite Hl. cbn [st0 ls_log]. by rewrite <- app_assoc.
    + by constructor.
    + rewrite Hnl. cbn [st0 ls_renommes].
      change (EvPngTrouves files :: l) with ([EvPngTrouves files] ++ l).
      rewrite nb_app. cbn. lia.
Qed.

Lemma nb_file_events (p : event -> bool) (l : list event) :
  (forall e, is_file_event e = true -> p e = false) ->
  Forall (fun e => is_file_event e = true) l -> nb p l = 0%nat.
Proof.
  intros Hp Hl. apply nb_none. eapply Forall_impl; [exact Hl|]. exact Hp.
Qed.

Lemma counters_eq (c c' : counters) :
  total_dossiers c = total_dossiers c' ->
  total_png_renommes c = total_png_renommes c' ->
  total_non_trouves c = total_non_trouves c' ->
  total_conflits c = total_conflits c' ->
  c = c'.
Proof. destruct c, c'; simpl; congruence. Qed.

Lemma process_entry_tally (df : list row) (st : run_state) (entry : string) :
  st_counters st = tally (st_log st) ->
  st_counters (process_entry df st entry) = tally (st_log (process_entry df st entry)).
Proof.
  intros Hst. unfold process_entry.
  destruct (st_tree st !! entry) as [[|d]|]; try done.
  destruct (negb _); [done|].
  destruct (parse_datetime_from_foldername entry) as [t|].
  2:{ cbn [st_counters st_log]. rewrite Hst.
      apply counters_eq; cbn; rewrite nb_app; cbn; lia. }
  destruct (candidats df t) as [|premier autres].
  { cbn [st_counters st_log]. rewrite Hst.
    apply counters_eq; cbn; rewrite !nb_app; cbn; lia. }
  destruct (1 <? length (premier :: autres))%nat.
  - match goal with
    | |- context [rename_folder entry ?u d ?lg] =>
        destruct (rename_folder_messages entry u d lg) as (l & Hl & Hfl & Hnl)
    end.
    cbn [st_counters st_log]. rewrite Hl, Hnl, Hst.
    apply counters_eq; cbn; rewrite !nb_app; cbn;
      rewrite ?(nb_file_events is_dossier l), ?(nb_file_events is_non_trouve l),
        ?(nb_file_events is_conflit l); try done; try lia;
      by intros [].
  - match goal with
    | |- context [rename_folder entry ?u d ?lg] =>
        destruct (rename_folder_messages entry u d lg) as (l & Hl & Hfl & Hnl)
    end.
    cbn [st_counters st_log]. rewrite Hl, Hnl, Hst.
    apply counters_eq; cbn; rewrite !nb_app; cbn;
      rewrite ?(nb_file_events is_dossier l), ?(nb_file_events is_non_trouve l),
        ?(nb_file_events is_conflit l); try done; try lia;
      by intros [].
Qed.

(** Extra X8.  The four counters of the summary agree with the messages
    of the run: folders considered are the "Ignore" and "Traitement"
    lines, renamed files the rename lines, unmatched folders the "Ignore"
    and "Aucun utilisateur" lines, conflicts the "Conflit" lines. *)
Theorem summary_agrees_with_messages (df : list row) (tree : gmap string node) :
  st_counters (run_loop df tree) = tally (st_log (run_loop df tree)).
Proof.
  unfold run_loop.
  apply (fold_left_invariant (process_entry df)
           (fun st => st_counters st = tally (st_log st))).
  - intros st entry. apply process_entry_tally.
  - reflexivity.
Qed.

Lemma process_entry_counts (df : list row) (st : run_state) (entry : string) :
  let c := st_counters st in
  let c' := st_counters (process_entry df st entry) in
  if is_capture_dir (st_tree st) entry then
    total_dossiers c' = S (total_dossiers c)
    /\ (total_non_trouves c' + total_conflits c'
        <= S (total_non_trouves c + total_conflits c))%nat
  else process_entry df st entry = st.
Proof.
  cbn zeta. unfold is_capture_dir, process_entry.
  destruct (st_tree st !! entry) as [[|d]|]; try done.
  destruct (PyStr.startswith entry "taxan_"); cbn [negb]; [|done].
  destruct (parse_datetime_from_foldername entry) as [t|]; [|cbn; lia].
  destruct (candidats df t) as [|premier autres]; [cbn; lia|].
  destruct (1 <? length (premier :: autres))%nat; cbn; lia.
Qed.

Lemma process_entry_capture_dirs (df : list row) (st : run_state)
    (entry x : string) :
  is_capture_dir (st_tree (process_entry df st entry)) x
  = is_capture_dir (st_tree st) x.
Proof.
  destruct (process_entry_cases df st entry)
    as [(-> & _)|(d & uid & log & c & Hd & _ & _ & _ & ->)]; [done|].
  cbn [st_tree]. unfold is_capture_dir.
  destruct (decide (entry = x)) as [<-|Hne].
  - by rewrite lookup_insert_eq, Hd.
  - by rewrite lookup_insert_ne.
Qed.

Lemma process_entries_count (df : list row) (tree : gmap string node)
    (l : list string) :
  forall st,
    (forall x, is_capture_dir (st_tree st) x = is_capture_dir tree x) ->
    (total_non_trouves (st_counters st) + total_conflits (st_counters st)
     <= total_dossiers (st_counters st))%nat ->
    let st' := fold_left (process_entry df) l st in
    total_dossiers (st_counters st')
    = (total_dossiers (st_counters st)
       + length (List.filter (is_capture_dir tree) l))%nat
    /\ (total_non_trouves (st_counters st') + total_conflits (st_counters st')
        <= total_dossiers (st_counters st'))%nat.
Proof.
  induction l as [|x l IH]; intros st Hdirs Hle; cbn zeta; cbn [fold_left List.filter].
  { split; [simpl; lia|done]. }
  pose proof (process_entry_counts df st x) as Hx. cbn zeta in Hx.
  rewrite Hdirs in Hx.
  destruct (IH (process_entry df st x)) as [Hn Hb].
  - intros y. by rewrite process_entry_capture_dirs.
  - destruct (is_capture_dir tree x); [lia|]. by rewrite Hx.
  - split; [|exact Hb]. rewrite Hn.
    destruct (is_capture_dir tree x); [simpl; lia|]. by rewrite Hx.
Qed.

(** Extra X9.  At the end of the loop every directory of the capture
    root whose name starts with [taxan_] has been counted once as
    considered, whatever became of it, and no folder is counted both as
    unmatched and as a conflict: the two counters together never exceed
    the folders considered. *)
Theorem folders_counted_once (df : list row) (tree : gmap string node) :
  let c := st_counters (run_loop df tree) in
  total_dossiers c
  = length (List.filter (is_capture_dir tree) (Os.listdir tree))
  /\ (total_non_trouves c + total_conflits c <= total_dossiers c)%nat.
Proof.
  cbn zeta. unfold run_loop.
  destruct (process_entries_count df tree (py_sorted (Os.listdir tree))
              {| st_tree := tree; st_counters := zero_counters; st_log := [] |})
    as [Hn Hb]; [done|simpl; lia|].
  split; [|exact Hb]. rewrite Hn. cbn.
  apply Permutation_length, filter_perm, py_sorted_perm.
Qed.

(** ** What a run leaves alone *)

(** An entry whose name the loop does not go through keeps its name. *)
Lemma rename_steps_untouched (user_id : string) (x : string) (e : dirent)
    (files : list string) :
  forall start st,
    x ∉ files ->
    ls_dir st !! x = Some e ->
    ls_dir (fold_left (rename_step user_id) (enumerate start files) st) !! x
    = Some e.
Proof.
  induction files as [|f files IH]; intros start st Hx Hex; [done|].
  rewrite enumerate_cons. cbn [fold_left].
  apply not_elem_of_cons in Hx as [Hxf Hx]. apply IH; [done|].
  destruct (rename_step_cases user_id st start f)
    as [(_ & _ & ->)|[(_ & ->)|[(_ & _ & _ & ->)|(_ & Hnew & e' & _ & ->)]]];
    try done.
  cbn [ls_dir]. rewrite lookup_insert_ne, lookup_delete_ne; [done|done|].
  intros Heq. rewrite Heq in Hnew. congruence.
Qed.

Lemma rename_steps_at_most (user_id : string) (its : list (nat * string)) :
  forall st,
    (ls_renommes (fold_left (rename_step user_id) its st)
     <= ls_renommes st + length its)%nat.
Proof.
  induction its as [|[idx old] its IH]; intros st; cbn [fold_left length]; [lia|].
  etrans; [apply IH|].
  destruct (rename_step_cases user_id st idx old)
    as [(_ & _ & ->)|[(_ & ->)|[(_ & _ & _ & ->)|(_ & _ & e' & _ & ->)]]];
    cbn; lia.
Qed.

(** Extra X10.  In a matched folder the renamer touches the images only.
    Every entry that is not a regular file with the [.png] extension
    (another file, a subdirectory, whatever its name) is found after the
    loop under the name it had, and the loop renames at most as many files
    as the folder has images. *)
Theorem rename_folder_touches_images_only
    (entry user_id : string) (d : gmap string dirent) (log : list event)
    (f : string) (e : dirent) :
  d !! f = Some e ->
  is_image d f = false ->
  ls_dir (rename_folder entry user_id d log) !! f = Some e
  /\ (ls_renommes (rename_folder entry user_id d log) <= png_count d)%nat.
Proof.
  intros Hf Himg. unfold rename_folder, rename_listing, png_count.
  destruct (png_files d (Os.listdir d)) as [|g gs] eqn:Hfiles; [split; [done|simpl; lia]|].
  unfold rename_loop. split.
  - apply rename_steps_untouched; [|done].
    rewrite py_sorted_perm, <- Hfiles. unfold png_files.
    rewrite list_elem_of_In, filter_In. intros [_ Hp].
    unfold is_image, is_png in Himg. congruence.
  - etrans; [apply rename_steps_at_most|]. cbn [ls_renommes].
    unfold enumerate. rewrite length_zip, length_seq, Nat.min_id.
    rewrite (Permutation_length (py_sorted_perm _)). simpl. lia.
Qed.

Lemma rename_folder_touches_images_only_witness :
  ls_dir (rename_folder "taxan_2025-06-03-14-14-57" "42" dossier_collision [])
    !! "42_courbe1.png"
  = Some {| d_kind := Directory; d_data := 2 |}.
Proof.
  apply (rename_folder_touches_images_only "taxan_2025-06-03-14-14-57" "42"
           dossier_collision [] "42_courbe1.png"
           {| d_kind := Directory; d_data := 2 |});
    vm_compute; reflexivity.
Defined.





(** ** The loops of the two copies *)

Lemma rename_step_agree (user_id : string) (st1 st2 : loop_state)
    (it : nat * string) :
  ls_dir st1 = ls_dir st2 -> ls_renommes st1 = ls_renommes st2 ->
  ls_dir (rename_step user_id st1 it) = ls_dir (Scripts.rename_step user_id st2 it)
  /\ ls_renommes (rename_step user_id st1 it)
     = ls_renommes (Scripts.rename_step user_id st2 it).
Proof.
  intros Hd Hn. destruct it as [idx old].
  destruct st1 as [d1 n1 l1], st2 as [d2 n2 l2]. cbn [ls_dir ls_renommes] in Hd, Hn.
  subst d2 n2.
  destruct (rename_step_cases user_id {| ls_dir := d1; ls_renommes := n1; ls_log := l1 |} idx old)
    as [(Hex & _ & ->)|[(Hsame & ->)|[(_ & Hnew & Hold & ->)|(_ & Hnew & e & Hold & ->)]]];
    destruct (scripts_rename_step_cases user_id {| ls_dir := d1; ls_renommes := n1; ls_log := l2 |} idx old)
      as [(Hex' & ->)|[(Hnew' & Hold' & ->)|(Hnew' & e' & Hold' & ->)]];
    unfold Os.exists_ in *; cbn [say ls_dir ls_renommes] in *; try done;
    try (rewrite Hnew' in Hex; done);
    try (rewrite Hnew in Hex'; done);
    try congruence.
  rewrite Hold in Hold'. by injection Hold' as <-.
Qed.

Lemma rename_steps_agree (user_id : string) (its : list (nat * string)) :
  forall st1 st2,
    ls_dir st1 = ls_dir st2 -> ls_renommes st1 = ls_renommes st2 ->
    ls_dir (fold_left (rename_step user_id) its st1)
    = ls_dir (fold_left (Scripts.rename_step user_id) its st2)
    /\ ls_renommes (fold_left (rename_step user_id) its st1)
       = ls_renommes (fold_left (Scripts.rename_step user_id) its st2).
Proof.
  induction its as [|it its IH]; intros st1 st2 Hd Hn; cbn [fold_left]; [done|].
  destruct (rename_step_agree user_id st1 st2 it Hd Hn) as [Hd' Hn'].
  by apply IH.
Qed.

Lemma rename_folder_agree (entry user_id : string) (d : gmap string dirent)
    (log log' : list event) :
  ls_dir (rename_folder entry user_id d log)
  = ls_dir (Scripts.rename_folder entry user_id d log')
  /\ ls_renommes (rename_folder entry user_id d log)
     = ls_renommes (Scripts.rename_folder entry user_id d log').
Proof.
  unfold rename_folder, rename_listing, Scripts.rename_folder.
  destruct (png_files d (Os.listdir d)) as [|f fs]; [done|].
  by apply rename_steps_agree.
Qed.

Lemma process_entry_agree (df : list row) (st1 st2 : run_state) (entry : string) :
  st_tree st1 = st_tree st2 -> st_counters st1 = st_counters st2 ->
  st_tree (process_entry df st1 entry) = st_tree (Scripts.process_entry df st2 entry)
  /\ st_counters (process_entry df st1 entry)
     = st_counters (Scripts.process_entry df st2 entry).
Proof.
  intros Ht Hc. unfold process_entry, Scripts.process_entry. rewrite <- Ht.
  destruct (st_tree st1 !! entry) as [[|d]|]; try done.
  destruct (negb _); [done|].
  destruct (parse_datetime_from_foldername entry) as [t|];
    [|cbn [st_tree st_counters]; by rewrite Hc].
  destruct (candidats df t) as [|premier autres];
    [cbn [st_tree st_counters]; by rewrite Hc|].
  destruct (1 <? length (premier :: autres))%nat.
  - match goal with
    | |- context [rename_folder entry ?u d ?lg] =>
        match goal with
        | |- context [Scripts.rename_folder entry u d ?lg'] =>
            destruct (rename_folder_agree entry u d lg lg') as [Hd Hn]
        end
    end.
    cbn [st_tree st_counters]. by rewrite Hd, Hn, Hc.
  - match goal with
    | |- context [rename_folder entry ?u d ?lg] =>
        match goal with
        | |- context [Scripts.rename_folder entry u d ?lg'] =>
            destruct (rename_folder_agree entry u d lg lg') as [Hd Hn]
        end
    end.
    cbn [st_tree st_counters]. by rewrite Hd, Hn, Hc.
Qed.

(** Extra X12.  From the same registry and the same tree, the loop of
    [scripts/rename_courbes.py] leaves the folders and the four counters
    that the loop of [rename_courbes.py] leaves: the two copies of the
    loop differ in their messages only. *)
Theorem loops_of_both_copies_agree (df : list row) (tree : gmap string node) :
  st_tree (Scripts.run_loop df tree) = st_tree (run_loop df tree)
  /\ st_counters (Scripts.run_loop df tree) = st_counters (run_loop df tree).
Proof.
  unfold run_loop, Scripts.run_loop.
  generalize (py_sorted (Os.listdir tree)). intros l.
  assert (H : forall st1 st2,
            st_tree st1 = st_tree st2 -> st_counters st1 = st_counters st2 ->
            st_tree (fold_left (process_entry df) l st1)
            = st_tree (fold_left (Scripts.process_entry df) l st2)
            /\ st_counters (fold_left (process_entry df) l st1)
               = st_counters (fold_left (Scripts.process_entry df) l st2)).
  { induction l as [|x l IH]; intros st1 st2 Ht Hc; cbn [fold_left]; [done|].
    destruct (process_entry_agree df st1 st2 x Ht Hc) as [Ht' Hc'].
    by apply IH. }
  destruct (H {| st_tree := tree; st_counters := zero_counters; st_log := [] |}
              {| st_tree := tree; st_counters := zero_counters; st_log := [] |})
    as [Ht Hc]; done.
Qed.

(** ** The targets of a plan *)

Lemma append_length (s t : string) :
  String.length (String.append s t) = (String.length s + String.length t)%nat.
Proof.
  induction s as [|c s IH]; [done|].
  change (String.append (String c s) t) with (String c (String.append s t)).
  cbn [String.length]. by rewrite IH.
Qed.

Lemma append_inj_r (s t p : string) :
  String.append s p = String.append t p -> s = t.
Proof.
  revert t. induction s as [|c s IH]; intros [|c' t] H.
  - done.
  - exfalso. apply (f_equal String.length) in H.
    change (String.append EmptyString p) with p in H.
    rewrite append_length in H. cbn [String.length] in H. lia.
  - exfalso. apply (f_equal String.length) in H.
    change (String.append EmptyString p) with p in H.
    rewrite append_length in H. cbn [String.length] in H. lia.
  - change (String c (String.append s p) = String c' (String.append t p)) in H.
    injection H as -> H. f_equal. by apply IH.
Qed.

Lemma new_fname_inj (user_id : string) (i j : nat) :
  new_fname user_id i = new_fname user_id j -> i = j.
Proof.
  unfold new_fname. intros H.
  apply (String.app_inj user_id) in H.
  apply (String.app_inj "_courbe") in H.
  apply append_inj_r in H. by apply (inj pretty) in H.
Qed.

Lemma NoDup_enumerate_targets (user_id : string) (files : list string) :
  forall start,
    NoDup (map (fun '(idx, old_fname) => new_fname user_id idx)
               (enumerate start files)).
Proof.
  induction files as [|f files IH]; intros start; [constructor|].
  rewrite enumerate_cons. cbn [map]. constructor; [|apply IH].
  intros Hin. apply list_elem_of_In, in_map_iff in Hin as ([idx old] & Heq & Hin).
  apply new_fname_inj in Heq. subst idx.
  unfold enumerate in Hin. apply list_elem_of_In, elem_of_zip_l in Hin.
  apply list_elem_of_In, in_seq in Hin. lia.
Qed.

(** Within a plan no two files are given the same target, every target
    is itself a [.png] name and every source is an image of the folder
    taken from the listing. *)
Lemma rename_plan_targets
    (user_id : string) (d : gmap string dirent) (listing : list string) :
  NoDup (map snd (rename_plan user_id d listing))
  /\ Forall (fun target => is_png target = true)
       (map snd (rename_plan user_id d listing))
  /\ Forall (fun source => source ∈ listing /\ is_image d source = true)
       (map fst (rename_plan user_id d listing)).
Proof.
  unfold rename_plan. rewrite !map_map. split_and!.
  - erewrite map_ext; [apply NoDup_enumerate_targets|]. by intros [idx old].
  - apply Forall_forall. intros target Ht.
    apply list_elem_of_In, in_map_iff in Ht as ([idx old] & <- & _).
    apply is_png_new_fname.
  - apply Forall_forall. intros source Hs.
    apply list_elem_of_In, in_map_iff in Hs as ([idx old] & <- & Hin).
    unfold enumerate in Hin. apply list_elem_of_In, elem_of_zip_r in Hin.
    rewrite py_sorted_perm in Hin. unfold png_files in Hin.
    apply list_elem_of_In, filter_In in Hin as [Hin Himg].
    split; [by apply list_elem_of_In|exact Himg].
Qed.

(** The renames the loop records are pairs of the items it goes
    through, in their order, and it counts each of them. *)
Lemma rename_steps_renames (user_id : string) (its : list (nat * string)) :
  forall st,
    exists msgs,
      ls_log (fold_left (rename_step user_id) its st) = ls_log st ++ msgs
      /\ renames msgs
         `sublist_of` map (fun '(idx, old_fname) =>
                             (old_fname, new_fname user_id idx)) its
      /\ ls_renommes (fold_left (rename_step user_id) its st)
         = (ls_renommes st + length (renames msgs))%nat.
Proof.
  induction its as [|[idx old] its IH]; intros st; cbn [fold_left map].
  { exists []. rewrite app_nil_r. split_and!; [done|constructor|simpl; lia]. }
  destruct (IH (rename_step user_id st (idx, old))) as (msgs & Hlog & Hsub & Hn).
  destruct (rename_step_cases user_id st idx old)
    as [(_ & _ & Hst)|[(_ & Hst)|[(_ & _ & _ & Hst)|(_ & _ & e & _ & Hst)]]];
    rewrite Hst in Hlog, Hn; rewrite Hst; cbn [say ls_log ls_renommes] in Hlog, Hn.
  1-3: eexists (_ :: msgs); rewrite Hlog, <- app_assoc;
       split_and!; [reflexivity|by apply sublist_cons|exact Hn].
  exists (EvRenomme old (new_fname user_id idx) :: msgs).
  rewrite Hlog, <- app_assoc. split_and!; [reflexivity| |].
  - cbn [renames omap]. by apply sublist_skip.
  - rewrite Hn.
    change (renames (EvRenomme old (new_fname user_id idx) :: msgs))
      with ((old, new_fname user_id idx) :: renames msgs).
    cbn [length ls_renommes]. lia.
Qed.

(** Extra X13.  The renames a pass over a matched folder carries out are
    pairs of its plan, in the order of the plan, each counted once: no
    two of them have the same target, every target is itself a [.png]
    name (so a renamed file is an image again on the next run), and every
    source is an image the folder held before the pass. *)
Theorem pass_renames_follow_the_plan
    (entry user_id : string) (d : gmap string dirent) (log : list event) :
  exists msgs,
    ls_log (rename_folder entry user_id d log) = log ++ msgs
    /\ renames msgs `sublist_of` rename_plan user_id d (Os.listdir d)
    /\ ls_renommes (rename_folder entry user_id d log) = length (renames msgs)
    /\ NoDup (map snd (renames msgs))
    /\ Forall (fun '(source, target) =>
                 is_image d source = true /\ is_png target = true)
         (renames msgs).
Proof.
  assert (Hgoal : exists msgs,
            ls_log (rename_folder entry user_id d log) = log ++ msgs
            /\ renames msgs `sublist_of` rename_plan user_id d (Os.listdir d)
            /\ ls_renommes (rename_folder entry user_id d log)
               = length (renames msgs)).
  { unfold rename_folder, rename_listing.
    destruct (png_files d (Os.listdir d)) as [|f fs] eqn:Hfiles.
    - exists [EvAucunPng entry]. split_and!; [done|apply sublist_nil_l|done].
    - rewrite <- Hfiles. unfold rename_loop.
      set (st0 := {| ls_dir := d; ls_renommes := 0; ls_log := _ |}).
      destruct (rename_steps_renames user_id
                  (enumerate 1 (py_sorted (png_files d (Os.listdir d)))) st0)
        as (msgs & Hlog & Hsub & Hn).
      exists (EvPngTrouves (py_sorted (png_files d (Os.listdir d))) :: msgs).
      rewrite Hlog. cbn [st0 ls_log]. rewrite <- app_assoc.
      split_and!; [reflexivity|exact Hsub|by rewrite Hn]. }
  destruct Hgoal as (msgs & Hlog & Hsub & Hn).
  destruct (rename_plan_targets user_id d (Os.listdir d)) as (Hnd & Hpng & Himg).
  exists msgs. split_and!; [exact Hlog|exact Hsub|exact Hn| |].
  - eapply sublist_NoDup; [exact Hnd|].
    change (map snd ?l) with (snd <$> l). by apply fmap_sublist.
  - apply Forall_forall. intros [source target] Hin.
    pose proof (elem_of_sublist _ _ _ Hin Hsub) as Hplan.
    rewrite Forall_forall in Hpng, Himg. split.
    + apply (Himg source).
      apply list_elem_of_In, in_map_iff. exists (source, target).
      split; [done|by apply list_elem_of_In].
    + apply (Hpng target).
      apply list_elem_of_In, in_map_iff. exists (source, target).
      split; [done|by apply list_elem_of_In].
Qed.

(** ** Where the images end up *)

(** In a pass without collision the file listed at rank [k] is found,
    after the loop, under the target of rank [k]. *)
Lemma rename_steps_deliver (user_id : string) (files : list string) :
  forall start st,
    NoDup files ->
    (forall f, f ∈ files -> Os.isfile (ls_dir st) f = true) ->
    let st' := fold_left (rename_step user_id) (enumerate start files) st in
    no_collision (ls_log st') ->
    forall k f,
      files !! k = Some f ->
      ls_dir st' !! new_fname user_id (start + k) = ls_dir st !! f.
Proof.
  induction files as [|f0 files IH]; intros start st Hnd Hfiles; cbn zeta.
  { intros _ k f Hk. by rewrite lookup_nil in Hk. }
  rewrite enumerate_cons. cbn [fold_left].
  set (st1 := rename_step user_id st (start, f0)).
  intros Hnc.
  apply NoDup_cons in Hnd as [Hf0 Hnd].
  destruct (isfile_lookup _ _ (Hfiles f0 ltac:(left))) as [e0 He0].
  assert (Hnc1 : no_collision (ls_log st1))
    by (eapply no_collision_before; [apply rename_steps_log|exact Hnc]).
  assert (Hstep :
    ls_dir st1 !! new_fname user_id start = Some e0
    /\ (new_fname user_id start ∉ files)
    /\ (forall f', f' ∈ files -> ls_dir st1 !! f' = ls_dir st !! f')).
  { unfold st1 in *. clear st1 Hnc.
    destruct (rename_step_cases user_id st start f0)
      as [(_ & _ & Hs)|[(Hsame & Hs)|[(_ & _ & Hnone & _)|(Hne & Hnew & e & Hold & Hs)]]].
    - rewrite Hs in Hnc1. cbn in Hnc1.
      apply Forall_app in Hnc1 as [_ Hbad].
      inversion Hbad as [|? ? Hb _]. discriminate Hb.
    - rewrite Hs. cbn [say ls_dir]. rewrite <- Hsame. by split_and!.
    - congruence.
    - rewrite Hs. cbn [ls_dir].
      assert (Hnf : new_fname user_id start ∉ files).
      { intros Hin. destruct (isfile_lookup _ _ (Hfiles _ (list_elem_of_further _ _ _ Hin))).
        congruence. }
      split_and!.
      + rewrite lookup_insert_eq. congruence.
      + done.
      + intros f' Hf'.
        rewrite lookup_insert_ne by (intros Heq; apply Hnf; by rewrite Heq).
        by rewrite lookup_delete_ne by (intros Heq; apply Hf0; by rewrite Heq). }
  destruct Hstep as (Hnew1 & Hnf & Hsame).
  intros [|k] f Hk.
  - injection Hk as <-. rewrite Nat.add_0_r, He0.
    by apply rename_steps_untouched.
  - cbn in Hk. replace (start + S k)%nat with (S start + k)%nat by lia.
    assert (Hfiles1 : forall f', f' ∈ files -> Os.isfile (ls_dir st1) f' = true).
    { intros f' Hf'. rewrite <- (Hfiles f' (list_elem_of_further _ _ _ Hf')).
      apply isfile_ext. by apply Hsame. }
    rewrite (IH (S start) st1 Hnd Hfiles1 Hnc k f Hk).
    apply Hsame. by eapply list_elem_of_lookup_2.
Qed.

Lemma png_files_images (d : gmap string dirent) (f : string) :
  f ∈ png_files d (Os.listdir d) <-> is_image d f = true.
Proof.
  unfold png_files, is_image, is_png, Os.listdir.
  rewrite list_elem_of_In, filter_In. split; [tauto|].
  intros Himg. split; [|done].
  apply andb_true_iff in Himg as [Hf _].
  apply isfile_lookup in Hf as [e He].
  apply list_elem_of_In, list_elem_of_fmap. exists (f, e). split; [done|].
  by apply elem_of_map_to_list.
Qed.

Lemma rename_folder_delivers
    (entry user_id : string) (d : gmap string dirent) (log : list event)
    (k : nat) (f : string) :
  no_collision (ls_log (rename_folder entry user_id d log)) ->
  py_sorted (png_files d (Os.listdir d)) !! k = Some f ->
  ls_dir (rename_folder entry user_id d log) !! new_fname user_id (S k) = d !! f
  /\ is_image d f = true.
Proof.
  intros Hnc Hk.
  assert (Himg : is_image d f = true).
  { apply png_files_images. rewrite <- (py_sorted_perm (png_files d (Os.listdir d))).
    by eapply list_elem_of_lookup_2. }
  split; [|exact Himg].
  unfold rename_folder, rename_listing in *.
  destruct (png_files d (Os.listdir d)) as [|g gs] eqn:Hfiles.
  { apply png_files_images in Himg. rewrite Hfiles in Himg.
    by apply elem_of_nil in Himg. }
  unfold rename_loop in *.
  set (st0 := {| ls_dir := d; ls_renommes := 0; ls_log := _ |}) in *.
  change (S k) with (1 + k)%nat.
  refine (rename_steps_deliver user_id (py_sorted (g :: gs)) 1 st0 _ _ Hnc k f Hk).
  - rewrite py_sorted_perm, <- Hfiles. unfold png_files.
    apply NoDup_ListNoDup, List.NoDup_filter, NoDup_ListNoDup, NoDup_fst_map_to_list.
  - intros f' Hf'. rewrite py_sorted_perm, <- Hfiles in Hf'.
    apply png_files_images in Hf'. unfold is_image in Hf'.
    by apply andb_true_iff in Hf' as [? _].
Qed.

(** Extra X14.  Under an identifier that is a file-name component, in a
    pass over a matched folder where no rename was skipped for an
    existing target and none failed, each image ends under the target of
    its rank: what the file at rank [k] of the sorted names was is found,
    after the loop, under [<ID>_courbe<k+1>.png]. *)
Theorem images_delivered_in_order
    (entry user_id : string) (d : gmap string dirent) (log : list event)
    (k : nat) (f : string) :
  component user_id = true ->
  no_collision (ls_log (rename_folder entry user_id d log)) ->
  no_failure (ls_log (rename_folder entry user_id d log)) ->
  py_sorted (png_files d (Os.listdir d)) !! k = Some f ->
  ls_dir (rename_folder entry user_id d log) !! new_fname user_id (S k) = d !! f
  /\ is_image d f = true.
Proof. intros _ Hnc _. by apply rename_folder_delivers. Qed.

Lemma images_delivered_in_order_witness :
  ls_dir (rename_folder "taxan_2025-06-03-14-14-57" "42" dossier_ab [])
    !! new_fname "42" 2
  = dossier_ab !! "b.png".
Proof.
  apply (images_delivered_in_order "taxan_2025-06-03-14-14-57" "42" dossier_ab [] 1 "b.png").
  - reflexivity.
  - vm_compute. repeat constructor.
  - vm_compute. repeat constructor.
  - vm_compute. reflexivity.
Defined.

Lemma rename_folder_png_count (entry user_id : string) (d : gmap string dirent)
    (log : list event) :
  no_collision (ls_log (rename_folder entry user_id d log)) ->
  png_count (ls_dir (rename_folder entry user_id d log)) = png_count d.
Proof.
  unfold rename_folder, rename_listing.
  destruct (png_files d (Os.listdir d)) as [|g gs] eqn:Hfiles; [done|].
  unfold rename_loop. intros Hnc.
  set (st0 := {| ls_dir := d; ls_renommes := 0; ls_log := _ |}) in *.
  apply (rename_steps_fill user_id (py_sorted (g :: gs)) 1 st0); [| |exact Hnc].
  - rewrite py_sorted_perm, <- Hfiles. unfold png_files.
    apply NoDup_ListNoDup, List.NoDup_filter, NoDup_ListNoDup, NoDup_fst_map_to_list.
  - intros f Hf. rewrite py_sorted_perm, <- Hfiles in Hf.
    apply png_files_images in Hf. by apply andb_true_iff in Hf.
Qed.

(** Extra X15.  Under an identifier that is a file-name component, after
    a pass where no rename was skipped for an existing target and none
    failed, the images of a matched folder are exactly
    [<ID>_courbe1.png], ..., [<ID>_courbeN.png], [N] being the number of
    images the folder had. *)
Theorem images_named_one_to_n
    (entry user_id : string) (d : gmap string dirent) (log : list event)
    (f : string) :
  component user_id = true ->
  no_collision (ls_log (rename_folder entry user_id d log)) ->
  no_failure (ls_log (rename_folder entry user_id d log)) ->
  is_image (ls_dir (rename_folder entry user_id d log)) f = true
  <-> exists k, (1 <= k <= png_count d)%nat /\ f = new_fname user_id k.
Proof.
  intros _ Hnc _.
  set (d' := ls_dir (rename_folder entry user_id d log)).
  set (sorted := py_sorted (png_files d (Os.listdir d))).
  assert (Hn : length sorted = png_count d).
  { unfold sorted, png_count. by rewrite py_sorted_perm. }
  assert (Hback : forall k, (1 <= k <= png_count d)%nat ->
                            is_image d' (new_fname user_id k) = true).
  { intros [|k] Hk; [lia|].
    destruct (lookup_lt_is_Some_2 sorted k) as [f0 Hf0]; [lia|].
    destruct (rename_folder_delivers entry user_id d log k f0 Hnc Hf0)
      as [Hlook Himg].
    unfold is_image in *. apply andb_true_iff in Himg as [Hfile _].
    apply andb_true_iff. split; [|apply is_png_new_fname].
    rewrite <- Hfile. unfold Os.isfile, d'. by rewrite Hlook. }
  split; [|by intros (k & Hk & ->); apply Hback].
  intros Himg. apply png_files_images in Himg.
  set (targets := new_fname user_id <$> seq 1 (png_count d)).
  assert (Hperm : targets ≡ₚ png_files d' (Os.listdir d')).
  { apply submseteq_length_Permutation.
    - apply NoDup_submseteq.
      + apply NoDup_fmap_2; [|apply NoDup_seq].
        intros i j. apply new_fname_inj.
      + intros x (k & -> & Hk%elem_of_seq)%list_elem_of_fmap.
        apply png_files_images, Hback. lia.
    - unfold targets. rewrite length_fmap, length_seq.
      fold (png_count d'). unfold d'. by rewrite rename_folder_png_count. }
  rewrite <- Hperm in Himg.
  apply list_elem_of_fmap in Himg as (k & -> & Hk%elem_of_seq).
  exists k. split; [lia|done].
Qed.

Lemma images_named_one_to_n_witness :
  is_image (ls_dir (rename_folder "taxan_2025-06-03-14-14-57" "42" dossier_ab []))
    "42_courbe2.png" = true
  <-> exists k, (1 <= k <= png_count dossier_ab)%nat /\ "42_courbe2.png" = new_fname "42" k.
Proof.
  apply (images_named_one_to_n "taxan_2025-06-03-14-14-57" "42" dossier_ab []).
  - reflexivity.
  - vm_compute. repeat constructor.
  - vm_compute. repeat constructor.
Defined.

(** ** Each matched folder goes through the renamer once *)

Lemma process_entries_other (df : list row) (entry : string) (l : list string) :
  forall st,
    entry ∉ l ->
    st_tree (fold_left (process_entry df) l st) !! entry = st_tree st !! entry.
Proof.
  induction l as [|x l IH]; intros st Hnot; cbn [fold_left]; [done|].
  apply not_elem_of_cons in Hnot as [Hne Hnot].
  rewrite IH by done. by apply process_entry_other.
Qed.

Lemma process_entries_pass (df : list row) (entry uid : string)
    (d : gmap string dirent) (l : list string) :
  forall st,
    NoDup l -> entry ∈ l ->
    st_tree st !! entry = Some (NDir d) ->
    user_of df entry = Some uid ->
    exists log rest,
      st_tree (fold_left (process_entry df) l st) !! entry
      = Some (NDir (ls_dir (rename_folder entry uid d log)))
      /\ st_log (fold_left (process_entry df) l st)
         = ls_log (rename_folder entry uid d log) ++ rest.
Proof.
  induction l as [|x l IH]; intros st Hnd Hin Hd Hu; [by apply elem_of_nil in Hin|].
  apply NoDup_cons in Hnd as [Hx Hnd]. cbn [fold_left].
  destruct (decide (x = entry)) as [->|Hne].
  - destruct (process_entry_cases df st entry)
      as [(_ & _ & _ & Habs)|(d0 & uid0 & log & c & Hd0 & Hu0 & _ & _ & Heq)];
      [by destruct (Habs d uid)|].
    rewrite Hd in Hd0. injection Hd0 as <-.
    rewrite Hu in Hu0. injection Hu0 as <-.
    pose proof (fold_left_preserves (process_entry df) run_log_extends
                  (process_entry_log df) l (process_entry df st entry)) as [rest Hrest].
    exists log, rest. split.
    + rewrite process_entries_other by done. rewrite Heq. cbn [st_tree].
      by rewrite lookup_insert_eq.
    + rewrite Hrest, Heq. done.
  - apply elem_of_cons in Hin as [->|Hin]; [done|].
    apply IH; [done|done| |done].
    rewrite process_entry_other by done. exact Hd.
Qed.

(** Extra X16.  With a registry whose identifiers are file-name
    components, so that no pass reaches outside its own folder, a run
    passes each matched capture folder through the renamer exactly once,
    on the content the folder had at the start: what the run leaves under
    the name of the folder is what one pass of the rename loop under the
    identifier of the first matching row makes of it, and the messages of
    that pass are a prefix of the messages of the run. *)
Theorem run_passes_matched_folder_once
    (df : list row) (tree : gmap string node) (entry uid : string)
    (d : gmap string dirent) :
  ids_are_components df ->
  tree !! entry = Some (NDir d) ->
  user_of df entry = Some uid ->
  exists log rest,
    st_tree (run_loop df tree) !! entry
    = Some (NDir (ls_dir (rename_folder entry uid d log)))
    /\ st_log (run_loop df tree)
       = ls_log (rename_folder entry uid d log) ++ rest.
Proof.
  intros _ Hd Hu. unfold run_loop.
  apply process_entries_pass; [| |exact Hd|exact Hu].
  - rewrite py_sorted_perm. apply NoDup_fst_map_to_list.
  - rewrite py_sorted_perm. unfold Os.listdir.
    apply list_elem_of_fmap. exists (entry, NDir d). split; [done|].
    by apply elem_of_map_to_list.
Qed.

Lemma run_passes_matched_folder_once_witness :
  exists log rest,
    st_tree (run_loop registre_42 {[ "taxan_2025-06-03-14-14-57" := NDir dossier_ab ]})
      !! "taxan_2025-06-03-14-14-57"
    = Some (NDir (ls_dir (rename_folder "taxan_2025-06-03-14-14-57" "42" dossier_ab log)))
    /\ st_log (run_loop registre_42 {[ "taxan_2025-06-03-14-14-57" := NDir dossier_ab ]})
       = ls_log (rename_folder "taxan_2025-06-03-14-14-57" "42" dossier_ab log) ++ rest.
Proof.
  apply (run_passes_matched_folder_once registre_42
           {[ "taxan_2025-06-03-14-14-57" := NDir dossier_ab ]}
           "taxan_2025-06-03-14-14-57" "42" dossier_ab).
  - repeat constructor.
  - by rewrite lookup_singleton_eq.
  - vm_compute. reflexivity.
Defined.

(** ** Reading a cell of the registry *)

Lemma match_lit (fmax : nat) (a : ascii) (its : list Strptime.item)
    (rest : string) (acc : Strptime.fields) :
  Strptime.lit_matches a a = true ->
  Strptime.match_items fmax (Strptime.Lit a :: its) (String a rest) acc
  = Strptime.match_items fmax its rest acc.
Proof. intros H. cbn [Strptime.match_items]. by rewrite H. Qed.

Lemma int_of_pad3 (v : nat) :
  (v < 1000)%nat -> Strptime.int_of 0 (chars (pad3 v)) = Z.of_nat v.
Proof.
  intros Hv. unfold pad3, chars. cbn [list_ascii_of_string map].
  rewrite !int_of_digit by digit_bound.
  cbn [Strptime.int_of].
  pose proof (Nat.div_mod_eq v 10) as H1.
  pose proof (Nat.div_mod_eq (v / 10) 10) as H2.
  assert (v / 10 / 10 = v / 100)%nat as E1 by (rewrite Nat.Div0.div_div; reflexivity).
  rewrite E1 in H2. lia.
Qed.

(** Three digits before the [Z] are the longest fraction the expression
    of [%f] can take. *)
Lemma match_alt_fraction_long (k a b c : nat) (rest : string) :
  (a < 10)%nat -> (b < 10)%nat -> (c < 10)%nat ->
  Strptime.match_alt (repeat (Strptime.rng "0" "9") (4 + k))
    (String (digit a) (String (digit b) (String (digit c) (String "Z" rest))))
  = None.
Proof.
  intros Ha Hb Hc. cbn [repeat Nat.add].
  rewrite !match_alt_cons by first [assumption | by apply rng09_digit].
  reflexivity.
Qed.

Lemma match_fraction (ms : nat) (its : list Strptime.item)
    (rest : string) (acc : Strptime.fields) (r : Strptime.fields * string) :
  (ms < 1000)%nat ->
  Strptime.match_items 9 its (String "Z" rest)
    (Strptime.set_field Strptime.Df (chars (pad3 ms)) acc) = Some r ->
  Strptime.match_items 9 (Strptime.Dir Strptime.Df :: its)
    (String.append (pad3 ms) (String "Z" rest)) acc = Some r.
Proof.
  intros Hms Hk. cbn [Strptime.match_items].
  change (Strptime.alternatives 9 Strptime.Df)
    with (map (fun n => repeat (Strptime.rng "0" "9") (4 + n))
            [5; 4; 3; 2; 1; 0]%nat
            ++ repeat (Strptime.rng "0" "9") 3
            :: map (fun n => repeat (Strptime.rng "0" "9") n) [2; 1]%nat).
  apply first_some_hit.
  - apply Forall_forall. intros alt Halt.
    apply list_elem_of_fmap in Halt as (k & -> & _).
    cbv [pad3 String.append].
    rewrite match_alt_fraction_long by digit_bound. reflexivity.
  - cbv [pad3 String.append]. cbn [repeat].
    rewrite !match_alt_cons by digit_class. cbn [Strptime.match_alt]. exact Hk.
Qed.

Lemma build_valid_nanos (y m d H M S : nat) (n : Z) :
  valid_datetime y m d H M S ->
  Pandas.build
    {| Strptime.f_year := Z.of_nat y; Strptime.f_month := Z.of_nat m;
       Strptime.f_day := Z.of_nat d; Strptime.f_hour := Z.of_nat H;
       Strptime.f_minute := Z.of_nat M; Strptime.f_second := Z.of_nat S;
       Strptime.f_nanos := n |}
  = Some (timestamp y m d H M S + n).
Proof.
  intros (Hy & Hm & Hd1 & Hd2 & HH & HM & HS).
  unfold Pandas.build, timestamp.
  cbn [Strptime.f_year Strptime.f_month Strptime.f_day Strptime.f_hour
       Strptime.f_minute Strptime.f_second Strptime.f_nanos].
  cbv zeta.
  replace (_ && _) with true; [f_equal; lia|].
  symmetry. rewrite !andb_true_iff, !Z.leb_le. lia.
Qed.

(** The fields the expression with fractions of nine digits finds in a
    cell in the main format. *)
Lemma read_registry_cell (y m d H M S ms : nat) :
  valid_datetime y m d H M S -> (ms < 1000)%nat ->
  Strptime.read 9 (registry_cell y m d H M S ms) fmt_micro
  = Some {| Strptime.f_year := Z.of_nat y; Strptime.f_month := Z.of_nat m;
            Strptime.f_day := Z.of_nat d; Strptime.f_hour := Z.of_nat H;
            Strptime.f_minute := Z.of_nat M; Strptime.f_second := Z.of_nat S;
            Strptime.f_nanos := Z.of_nat ms * 1000000 |}.
Proof.
  intros Hv Hms.
  destruct (valid_in_ranges _ _ _ _ _ _ Hv) as (Hy & Hm & Hd & HH & HM & HS).
  unfold Strptime.read, registry_cell, fmt_micro.
  replace (Strptime.parse_format "%Y-%m-%dT%H:%M:%S.%fZ")
    with (Some [Strptime.Dir Strptime.DY; Strptime.Lit "-";
                Strptime.Dir Strptime.Dm; Strptime.Lit "-";
                Strptime.Dir Strptime.Dd; Strptime.Lit "T";
                Strptime.Dir Strptime.DH; Strptime.Lit ":";
                Strptime.Dir Strptime.DM; Strptime.Lit ":";
                Strptime.Dir Strptime.DS; Strptime.Lit ".";
                Strptime.Dir Strptime.Df; Strptime.Lit "Z"])
    by (vm_compute; reflexivity).
  set (rest := String "-" _).
  assert (Hmatch :
    Strptime.match_items 9
      [Strptime.Dir Strptime.DY; Strptime.Lit "-";
       Strptime.Dir Strptime.Dm; Strptime.Lit "-";
       Strptime.Dir Strptime.Dd; Strptime.Lit "T";
       Strptime.Dir Strptime.DH; Strptime.Lit ":";
       Strptime.Dir Strptime.DM; Strptime.Lit ":";
       Strptime.Dir Strptime.DS; Strptime.Lit ".";
       Strptime.Dir Strptime.Df; Strptime.Lit "Z"]
      (String.append (pad4 y) rest) Strptime.default_fields
    = Some ({| Strptime.f_year := Z.of_nat y; Strptime.f_month := Z.of_nat m;
               Strptime.f_day := Z.of_nat d; Strptime.f_hour := Z.of_nat H;
               Strptime.f_minute := Z.of_nat M; Strptime.f_second := Z.of_nat S;
               Strptime.f_nanos := Z.of_nat ms * 1000000 |}, EmptyString)).
  2:{ by rewrite Hmatch. }
  unfold rest. clear rest.
  apply match_year; [exact Hy|].
  rewrite match_lit by reflexivity. apply match_two_digits; [exact Hm|].
  rewrite match_lit by reflexivity. apply match_two_digits; [exact Hd|].
  rewrite match_lit by reflexivity. apply match_two_digits; [exact HH|].
  rewrite match_lit by reflexivity. apply match_two_digits; [exact HM|].
  rewrite match_lit by reflexivity. apply match_two_digits; [exact HS|].
  rewrite match_lit by reflexivity. apply match_fraction; [exact Hms|].
  rewrite match_lit by reflexivity.
  cbn [Strptime.match_items]. f_equal. f_equal.
  unfold Strptime.set_field. cbv zeta.
  rewrite (int_of_pad4 y Hy),
    (int_of_pad2 m (in_range_lt_100 _ _ Hm)),
    (int_of_pad2 d (in_range_lt_100 _ _ Hd)),
    (int_of_pad2 H (in_range_lt_100 _ _ HH)),
    (int_of_pad2 M (in_range_lt_100 _ _ HM)),
    (int_of_pad2 S (in_range_lt_100 _ _ HS)),
    (int_of_pad3 ms Hms).
  reflexivity.
Qed.

Lemma days_before_month_bounds (y : Z) (m : nat) :
  (1 <= m <= 12)%nat -> 0 <= Calendar.days_before_month y (Z.of_nat m) <= 341.
Proof.
  intros Hm. unfold Calendar.days_before_month.
  replace (Z.to_nat (Z.of_nat m - 1)) with (m - 1)%nat by lia.
  assert (H : forall l : list Z,
            0 <= fold_right Z.add 0 (map (Calendar.days_in_month y) l)
            <= 31 * Z.of_nat (length l)).
  { induction l as [|x l IH]; [simpl; lia|].
    cbn [map fold_right length].
    assert (0 <= Calendar.days_in_month y x <= 31).
    { unfold Calendar.days_in_month.
      repeat match goal with |- context [if ?b then _ else _] => destruct b end; lia. }
    lia. }
  specialize (H (map Z.of_nat (seq 1 (m - 1)))).
  rewrite length_map, length_seq in H. lia.
Qed.

Lemma timestamp_fits_datetime64 (y m d H M S ms : nat) :
  valid_datetime y m d H M S -> datetime64_year y -> (ms < 1000)%nat ->
  Pandas.int64_min < timestamp_ms y m d H M S ms <= Pandas.int64_max.
Proof.
  intros (Hy & Hm & Hd1 & Hd2 & HH & HM & HS) Hy64 Hms.
  unfold datetime64_year in Hy64.
  pose proof (days_before_month_bounds (Z.of_nat y) m Hm) as Hdbm.
  assert (Hdim : Calendar.days_in_month (Z.of_nat y) (Z.of_nat m) <= 31).
  { unfold Calendar.days_in_month.
    repeat match goal with |- context [if ?b then _ else _] => destruct b end; lia. }
  unfold timestamp_ms, timestamp, Calendar.ymd2ord, Calendar.days_before_year,
    Calendar.epoch_ord, Pandas.int64_min, Pandas.int64_max.
  cbv zeta.
  set (dbm := Calendar.days_before_month _ _) in *.
  change (2 ^ 63) with 9223372036854775808.
  pose proof (Z.div_mod (Z.of_nat y - 1) 4 ltac:(lia)).
  pose proof (Z.mod_pos_bound (Z.of_nat y - 1) 4 ltac:(lia)).
  pose proof (Z.div_mod (Z.of_nat y - 1) 100 ltac:(lia)).
  pose proof (Z.mod_pos_bound (Z.of_nat y - 1) 100 ltac:(lia)).
  pose proof (Z.div_mod (Z.of_nat y - 1) 400 ltac:(lia)).
  pose proof (Z.mod_pos_bound (Z.of_nat y - 1) 400 ltac:(lia)).
  lia.
Qed.

(** A text that starts with a digit is none of the texts of the missing
    value. *)
Lemma registry_cell_not_nat (y m d H M S ms : nat) :
  Z.of_nat y < 10000 ->
  Pandas.is_nat_string (registry_cell y m d H M S ms) = false.
Proof.
  intros Hy. unfold registry_cell, pad4.
  assert (Hk : (y / 1000 < 10)%nat) by digit_bound.
  set (k := (y / 1000)%nat) in *. clearbody k.
  do 10 (destruct k as [|k]; [reflexivity|]). lia.
Qed.

Lemma to_datetime_registry_cell (y m d H M S ms : nat) :
  valid_datetime y m d H M S -> datetime64_year y -> (ms < 1000)%nat ->
  Pandas.to_datetime_cell fmt_micro (CStr (registry_cell y m d H M S ms))
  = CTime (timestamp_ms y m d H M S ms).
Proof.
  intros Hv Hy Hms. unfold Pandas.to_datetime_cell, Pandas.strptime.
  rewrite registry_cell_not_nat by (destruct Hv; lia).
  rewrite read_registry_cell, build_valid_nanos by done.
  destruct (timestamp_fits_datetime64 y m d H M S ms Hv Hy Hms) as [Hlo Hhi].
  apply Z.ltb_lt in Hlo. apply Z.leb_le in Hhi.
  fold (timestamp_ms y m d H M S ms). by rewrite Hlo, Hhi.
Qed.

(** Extra X17.  A row of the sheet whose two date cells are written in
    the main format, [YYYY-MM-DDTHH:MM:SS.mmmZ], for dates of the calendar
    in the years of [datetime64[ns]], is kept by the loader under its
    label and its identifier, with the two instants read to the
    millisecond. *)
Theorem registry_row_read_to_the_millisecond
    (sh : sheet) (i : nat) (id : string)
    (y m d H M S ms y' m' d' H' M' S' ms' : nat) :
  valid_datetime y m d H M S -> datetime64_year y -> (ms < 1000)%nat ->
  valid_datetime y' m' d' H' M' S' -> datetime64_year y' -> (ms' < 1000)%nat ->
  lignes sh !! i
  = Some (id, CStr (registry_cell y m d H M S ms),
              CStr (registry_cell y' m' d' H' M' S' ms')) ->
  {| index := i; ID := id;
     date_enregistrement := CTime (timestamp_ms y m d H M S ms);
     derniere_maj := CTime (timestamp_ms y' m' d' H' M' S' ms') |}
  ∈ load_registry (frame sh).
Proof.
  intros Hv Hy Hms Hv' Hy' Hms' Hrow.
  apply load_registry_elem.
  exists i, id, (CStr (registry_cell y m d H M S ms)),
    (CStr (registry_cell y' m' d' H' M' S' ms')),
    (timestamp_ms y m d H M S ms), (timestamp_ms y' m' d' H' M' S' ms').
  split_and!; [exact Hrow| | |reflexivity]; by apply to_datetime_registry_cell.
Qed.

Lemma registry_row_read_to_the_millisecond_witness :
  {| index := 1; ID := "42";
     date_enregistrement := CTime (timestamp_ms 2025 6 3 14 0 0 0);
     derniere_maj := CTime (timestamp_ms 2025 6 3 15 0 0 0) |}
  ∈ load_registry (frame feuille_mixte).
Proof.
  apply (registry_row_read_to_the_millisecond feuille_mixte 1 "42"
           2025 6 3 14 0 0 0 2025 6 3 15 0 0 0);
    try reflexivity; try lia;
    try (unfold valid_datetime; repeat split; try lia; vm_compute; discriminate);
    unfold datetime64_year; lia.
Defined.
